(** * Caml: the lexer, parser and evaluator of the caml scripting language

    A shallow embedding of the two copies of the pipeline that the repository
    holds, [python_code/] and [caml/caml-code/], and the properties of the
    lexer ([lexer.py]), the parser ([parser.py]) and the tree-walking
    evaluator ([interpreter.py]) that the specification states.

    Conventions of the embedding.
    - Python objects are [value]s.  Lists and dicts are mutable and shared in
      Python, so a list or dict value is a reference into an object store;
      the store is part of the interpreter state.
    - A Python [dict] used as a namespace ([self.variables], [self.lists] ...)
      is a [gmap]; its keys are Python strings or [None] ([name]).
    - Source text is ASCII; a Python [str] is a Rocq [string].
    - A handler is a function [state -> outcome A]: it returns, raises a
      Python exception, runs out of fuel, or reaches an operation of the host
      runtime or an external effect that this development leaves undefined
      ([Unmodelled]: file system, GUI toolkit, random numbers, the textual
      form of floats and containers, float powers, calls of Python's
      built-in functions and of classes). *)

From Stdlib Require Import ZArith String Ascii List Bool Floats Lia.
From stdpp Require Import gmap strings list fin_maps.

Local Open Scope string_scope.
Local Open Scope list_scope.
Set Warnings "-register-all".

(** ** Python values *)

(** A key of a namespace dict: a Python [str], or [None] where the parser
    found no name on the line. *)
Abbreviation name := (option string).

Inductive value : Type :=
| VNone
| VBool (b : bool)
| VInt (z : Z)
| VFloat (f : float)
| VStr (s : string)
| VList (l : nat)      (* reference to a list object of the store *)
| VDict (l : nat).     (* reference to a dict object of the store *)

Inductive pyexn : Type :=
| TypeError
| ZeroDivisionError
| ValueError
| OverflowError
| IndexError
| EOFError
| AttributeError
| KeyboardInterrupt
| ButtonException                 (* Exception raised by visit_ButtonNode *)
| FunctionNotDefined (n : name)   (* Exception(f"Function '{n}' not defined") *)
| NoVisitMethod.                  (* Exception(f"No visit method for ...") *)

(** The result of a pure operation of the Python runtime. *)
Inductive pyres (A : Type) : Type :=
| PRet (a : A)
| PErr (e : pyexn)
| PUnmodelled.
Arguments PRet {A} a.
Arguments PErr {A} e.
Arguments PUnmodelled {A}.

Definition pyres_bind {A B} (r : pyres A) (k : A -> pyres B) : pyres B :=
  match r with
  | PRet a => k a
  | PErr e => PErr e
  | PUnmodelled => PUnmodelled
  end.

(** *** Numbers *)

Inductive num : Type := NInt (z : Z) | NFloat (f : float).

(** [isinstance(v, (int, float))]; [bool] is a subclass of [int]. *)
Definition as_num (v : value) : option num :=
  match v with
  | VBool b => Some (NInt (if b then 1 else 0)%Z)
  | VInt z => Some (NInt z)
  | VFloat f => Some (NFloat f)
  | _ => None
  end.

Definition is_number (v : value) : bool :=
  match as_num v with Some _ => true | None => false end.

(** [float(z)]: the nearest double, ties to even; [OverflowError] when the
    integer is too large. *)
Definition float_of_Z (z : Z) : pyres float :=
  let f := SF2Prim (binary_normalize prec emax z 0 false) in
  if PrimFloat.is_infinity f then PErr OverflowError else PRet f.

Definition to_float (n : num) : pyres float :=
  match n with
  | NInt z => float_of_Z z
  | NFloat f => PRet f
  end.

Definition float_is_zero (f : float) : bool := PrimFloat.eqb f PrimFloat.zero.

Definition num_arith (iop : Z -> Z -> Z) (fop : float -> float -> float)
    (a b : num) : pyres value :=
  match a, b with
  | NInt x, NInt y => PRet (VInt (iop x y))
  | _, _ =>
      pyres_bind (to_float a) (fun x =>
      pyres_bind (to_float b) (fun y =>
      PRet (VFloat (fop x y))))
  end.

Definition two53 : Z := 9007199254740992%Z.

(** [a / b], Python's true division.  Two integers that both fit a double
    exactly are divided as doubles; larger integers are left undefined. *)
Definition num_truediv (a b : num) : pyres value :=
  match a, b with
  | NInt x, NInt y =>
      if (y =? 0)%Z then PErr ZeroDivisionError
      else if ((Z.abs x <=? two53) && (Z.abs y <=? two53))%Z
      then pyres_bind (float_of_Z x) (fun fx =>
           pyres_bind (float_of_Z y) (fun fy =>
           PRet (VFloat (PrimFloat.div fx fy))))
      else PUnmodelled
  | _, _ =>
      pyres_bind (to_float a) (fun x =>
      pyres_bind (to_float b) (fun y =>
      if float_is_zero y then PErr ZeroDivisionError
      else PRet (VFloat (PrimFloat.div x y))))
  end.

(** [a ** b]: exact on integers with a non-negative exponent; a zero base
    with a negative exponent raises; float powers are left undefined. *)
Definition num_pow (a b : num) : pyres value :=
  match a, b with
  | NInt x, NInt y =>
      if (0 <=? y)%Z then PRet (VInt (x ^ y))
      else if (x =? 0)%Z then PErr ZeroDivisionError
      else PUnmodelled
  | _, _ => PUnmodelled
  end.

(** *** Text *)

Definition digit_char (d : Z) : ascii := ascii_of_nat (48 + Z.to_nat d).

Fixpoint pos_digits (fuel : nat) (z : Z) (acc : string) : string :=
  match fuel with
  | O => acc
  | S fuel' =>
      let acc' := String (digit_char (z mod 10)) acc in
      if (z <? 10)%Z then acc' else pos_digits fuel' (z / 10) acc'
  end.

(** [str(z)] for an integer. *)
Definition str_of_Z (z : Z) : string :=
  match z with
  | Z0 => "0"
  | Zpos p => pos_digits (S (Pos.size_nat p)) z ""
  | Zneg p => "-" +:+ pos_digits (S (Pos.size_nat p)) (Zpos p) ""
  end.

(** [str(v)], defined on [None], booleans, integers and strings. *)
Definition py_str (v : value) : pyres string :=
  match v with
  | VNone => PRet "None"
  | VBool true => PRet "True"
  | VBool false => PRet "False"
  | VInt z => PRet (str_of_Z z)
  | VStr s => PRet s
  | VFloat _ | VList _ | VDict _ => PUnmodelled
  end.

(** [type(v).__name__] *)
Definition type_name (v : value) : string :=
  match v with
  | VNone => "NoneType"
  | VBool _ => "bool"
  | VInt _ => "int"
  | VFloat _ => "float"
  | VStr _ => "str"
  | VList _ => "list"
  | VDict _ => "dict"
  end.

(** ** The AST ([nodes.py])

    One constructor per node class.  A field that holds a value expression
    is an [expr]: a literal or identifier as the token carried it ([Lit]), or
    a nested [FunctionCallNode] ([Call]). *)

Inductive expr : Type :=
| Lit (v : value)
| Call (fname : name) (args : list expr).

Record file_fields : Type := {
  action : name;
  filename : name;
  text : name;
  at_first : bool;
  find_text : name;
  replace_text : name;
  old_name : name;
  new_name : name
}.

Inductive stmt : Type :=
| DisplayNode (value : expr) (bold : bool)
| InteractNode (prompt : expr) (bold : bool)
| AssignNode (var_name : name) (value : expr)
| SetNode (var_name : name) (value : expr)
| ChangeNode (var_name : name) (value : expr)
| IncreaseNode (var_name : name) (value : expr)
| DecreaseNode (var_name : name) (value : expr)
| MultiplyNode (var_name : name) (value : expr)
| DivideNode (var_name : name) (value : expr)
| ExponentiateNode (var_name : name) (value : expr)
| BlockVarNode (var_name : name)
| FunctionDefNode (fname : name) (args : list string) (body : list stmt)
| FunctionCallNode (fname : name) (args : list expr)
| FunctionAbbrevNode (original_name new_name : name)
| IfNode (condition : expr) (body : list stmt)
| OrIfNode (condition : expr) (body : list stmt)
| OtherwiseNode (body : list stmt)
| RepeatNode (times : expr) (body : list stmt)
| DoUntilNode (condition : expr) (body : list stmt)
| ForEachNode (var_name : name) (iterable : name) (body : list stmt)
| ListNode (lname : name) (elements : list expr)
| ListAddNode (list_name : name) (value : expr)
| ListRemoveNode (list_name : name) (value : expr)
| DictionaryNode (dname : name) (elements : list (name * expr))
| DictAddNode (dict_name : name) (key : name) (value : expr)
| DictRemoveNode (dict_name : name) (key : name)
| ObjectNode (oname : name) (body : list stmt) (is_window : bool)
| ObjectSetPropNode (object_name prop_name : name) (value : expr)
| ObjectChangePropNode (object_name prop_name : name) (value : expr)
| ObjectDeletePropNode (object_name prop_name : name)
| ObjectBlockPropNode (object_name prop_name : name)
| ObjectAddFunctionNode (object_name : name) (func_node : stmt)
| ButtonNode (bname : name) (parent : name) (body : list stmt)
| MathFuncNode (func_name : name) (args : list expr)
| FileNode (f : file_fields)
| GetLengthNode (target : expr)
| GetCaseNode (target : expr) (mode : name)
| GetTypeNode (target : expr)
| ImportNode (modules : list string) (filename : name)
| ExportNode (modules : list string).

(** ** The interpreter state ([Interpreter.__init__]) *)

(** A stored [FunctionDefNode]. *)
Record funcdef : Type := {
  fd_name : name;
  fd_args : list string;
  fd_body : list stmt
}.

(** An entry of [self.objects]: [{'properties': {}, 'functions': {}}]. *)
Record pyobject : Type := {
  properties : gmap name value;
  obj_functions : gmap name funcdef
}.

(** What the program sent to the console: a call [print(v)], or the prompt
    that [input] wrote. *)
Inductive out_event : Type :=
| Printed (v : value)
| Prompted (s : string).

(** What the console answers to one [input] call: a line of text, or an
    interrupt.  An exhausted list is the end of the input stream. *)
Inductive in_event : Type :=
| Line (s : string)
| Interrupt.

Record state : Type := {
  variables : gmap name value;
  functions : gmap name funcdef;
  objects : gmap name pyobject;
  lists : gmap name nat;
  dicts : gmap name nat;
  modules : gmap name (list string);
  call_stack : list name;
  list_store : list (list value);              (* the list objects *)
  dict_store : list (list (name * value));     (* the dict objects, in insertion order *)
  stdout : list out_event;
  stdin : list in_event
}.

Definition initial_state (input : list in_event) : state :=
  {| variables := ∅; functions := ∅; objects := ∅; lists := ∅; dicts := ∅;
     modules := ∅; call_stack := []; list_store := []; dict_store := [];
     stdout := []; stdin := input |}.

Definition set_variables (f : gmap name value -> gmap name value) (st : state) : state :=
  {| variables := f (variables st); functions := functions st; objects := objects st;
     lists := lists st; dicts := dicts st; modules := modules st;
     call_stack := call_stack st; list_store := list_store st;
     dict_store := dict_store st; stdout := stdout st; stdin := stdin st |}.

Definition set_functions (f : gmap name funcdef -> gmap name funcdef) (st : state) : state :=
  {| variables := variables st; functions := f (functions st); objects := objects st;
     lists := lists st; dicts := dicts st; modules := modules st;
     call_stack := call_stack st; list_store := list_store st;
     dict_store := dict_store st; stdout := stdout st; stdin := stdin st |}.

Definition set_objects (f : gmap name pyobject -> gmap name pyobject) (st : state) : state :=
  {| variables := variables st; functions := functions st; objects := f (objects st);
     lists := lists st; dicts := dicts st; modules := modules st;
     call_stack := call_stack st; list_store := list_store st;
     dict_store := dict_store st; stdout := stdout st; stdin := stdin st |}.

Definition set_lists (f : gmap name nat -> gmap name nat) (st : state) : state :=
  {| variables := variables st; functions := functions st; objects := objects st;
     lists := f (lists st); dicts := dicts st; modules := modules st;
     call_stack := call_stack st; list_store := list_store st;
     dict_store := dict_store st; stdout := stdout st; stdin := stdin st |}.

Definition set_dicts (f : gmap name nat -> gmap name nat) (st : state) : state :=
  {| variables := variables st; functions := functions st; objects := objects st;
     lists := lists st; dicts := f (dicts st); modules := modules st;
     call_stack := call_stack st; list_store := list_store st;
     dict_store := dict_store st; stdout := stdout st; stdin := stdin st |}.

Definition set_modules (f : gmap name (list string) -> gmap name (list string)) (st : state) : state :=
  {| variables := variables st; functions := functions st; objects := objects st;
     lists := lists st; dicts := dicts st; modules := f (modules st);
     call_stack := call_stack st; list_store := list_store st;
     dict_store := dict_store st; stdout := stdout st; stdin := stdin st |}.

Definition set_call_stack (f : list name -> list name) (st : state) : state :=
  {| variables := variables st; functions := functions st; objects := objects st;
     lists := lists st; dicts := dicts st; modules := modules st;
     call_stack := f (call_stack st); list_store := list_store st;
     dict_store := dict_store st; stdout := stdout st; stdin := stdin st |}.

Definition set_list_store (f : list (list value) -> list (list value)) (st : state) : state :=
  {| variables := variables st; functions := functions st; objects := objects st;
     lists := lists st; dicts := dicts st; modules := modules st;
     call_stack := call_stack st; list_store := f (list_store st);
     dict_store := dict_store st; stdout := stdout st; stdin := stdin st |}.

Definition set_dict_store
    (f : list (list (name * value)) -> list (list (name * value))) (st : state) : state :=
  {| variables := variables st; functions := functions st; objects := objects st;
     lists := lists st; dicts := dicts st; modules := modules st;
     call_stack := call_stack st; list_store := list_store st;
     dict_store := f (dict_store st); stdout := stdout st; stdin := stdin st |}.

Definition set_stdout (f : list out_event -> list out_event) (st : state) : state :=
  {| variables := variables st; functions := functions st; objects := objects st;
     lists := lists st; dicts := dicts st; modules := modules st;
     call_stack := call_stack st; list_store := list_store st;
     dict_store := dict_store st; stdout := f (stdout st); stdin := stdin st |}.

Definition set_stdin (f : list in_event -> list in_event) (st : state) : state :=
  {| variables := variables st; functions := functions st; objects := objects st;
     lists := lists st; dicts := dicts st; modules := modules st;
     call_stack := call_stack st; list_store := list_store st;
     dict_store := dict_store st; stdout := stdout st; stdin := f (stdin st) |}.

(** ** Outcomes and the handler monad *)

Inductive outcome (A : Type) : Type :=
| Ok (a : A) (st : state)          (* returned [a], leaving the state [st] *)
| Raise (e : pyexn) (st : state)   (* raised [e] when the state was [st] *)
| Unmodelled                       (* left undefined by this development *)
| OutOfFuel.
Arguments Ok {A} a st.
Arguments Raise {A} e st.
Arguments Unmodelled {A}.
Arguments OutOfFuel {A}.

Definition M (A : Type) : Type := state -> outcome A.

Definition ret {A} (a : A) : M A := fun st => Ok a st.

Definition bind {A B} (m : M A) (k : A -> M B) : M B := fun st =>
  match m st with
  | Ok a st' => k a st'
  | Raise e st' => Raise e st'
  | Unmodelled => Unmodelled
  | OutOfFuel => OutOfFuel
  end.

Notation "x <- m ;; k" := (bind m (fun x => k))
  (at level 100, m at next level, right associativity).
Notation "m ;;; k" := (bind m (fun _ => k))
  (at level 100, right associativity).

Definition raise {A} (e : pyexn) : M A := fun st => Raise e st.
Definition unmodelled {A} : M A := fun _ => Unmodelled.
Definition get_state : M state := fun st => Ok st st.
Definition modify (f : state -> state) : M unit := fun st => Ok tt (f st).

Definition lift {A} (r : pyres A) : M A :=
  match r with
  | PRet a => ret a
  | PErr e => raise e
  | PUnmodelled => unmodelled
  end.

(** [for x in xs: f(x)], collecting the results. *)
Fixpoint mapM {A B} (f : A -> M B) (xs : list A) : M (list B) :=
  match xs with
  | [] => ret []
  | x :: rest => y <- f x ;; ys <- mapM f rest ;; ret (y :: ys)
  end.

(** [for x in xs: f(x)], for the effects. *)
Fixpoint forM_ {A B} (f : A -> M B) (xs : list A) : M unit :=
  match xs with
  | [] => ret tt
  | x :: rest => f x ;;; forM_ f rest
  end.

(** ** Operations of the Python runtime on strings (ASCII) *)

Definition ascii_code (c : ascii) : nat := nat_of_ascii c.

Definition between (lo hi n : nat) : bool := Nat.leb lo n && Nat.leb n hi.

(** [c.isspace()]: tab, newline, vertical tab, form feed, carriage return,
    the four separators 0x1c-0x1f, and the space. *)
Definition isspace (c : ascii) : bool :=
  let n := ascii_code c in
  between 9 13 n || between 28 31 n || Nat.eqb n 32.

Definition isdigit (c : ascii) : bool := between 48 57 (ascii_code c).

Definition isupper (c : ascii) : bool := between 65 90 (ascii_code c).

Definition islower (c : ascii) : bool := between 97 122 (ascii_code c).

Definition isalpha (c : ascii) : bool := isupper c || islower c.

Definition lower_char (c : ascii) : ascii :=
  if isupper c then ascii_of_nat (ascii_code c + 32) else c.

Definition upper_char (c : ascii) : ascii :=
  if islower c then ascii_of_nat (ascii_code c - 32) else c.

Fixpoint str_map (f : ascii -> ascii) (s : string) : string :=
  match s with
  | EmptyString => EmptyString
  | String c rest => String (f c) (str_map f rest)
  end.

(** [s.lower()], [s.upper()] *)
Definition lower (s : string) : string := str_map lower_char s.
Definition upper (s : string) : string := str_map upper_char s.

(** [s.capitalize()] *)
Definition capitalize (s : string) : string :=
  match s with
  | EmptyString => EmptyString
  | String c rest => String (upper_char c) (lower rest)
  end.

(** [s.split()]: the maximal runs of non-whitespace characters. *)
Fixpoint split_ws_aux (s : string) (cur : string) : list string :=
  match s with
  | EmptyString => if String.eqb cur "" then [] else [cur]
  | String c rest =>
      if isspace c
      then (if String.eqb cur "" then split_ws_aux rest ""
            else cur :: split_ws_aux rest "")
      else split_ws_aux rest (cur +:+ String c "")
  end.

Definition split_ws (s : string) : list string := split_ws_aux s "".

(** [sep.join(parts)] *)
Fixpoint join (sep : string) (parts : list string) : string :=
  match parts with
  | [] => ""
  | [p] => p
  | p :: rest => p +:+ sep +:+ join sep rest
  end.

(** [s.replace(a, b)] for a single character [a]. *)
Fixpoint replace_char (a : ascii) (b : string) (s : string) : string :=
  match s with
  | EmptyString => EmptyString
  | String c rest =>
      (if Ascii.eqb c a then b else String c "") +:+ replace_char a b rest
  end.

Fixpoint str_repeat (n : nat) (s : string) : string :=
  match n with
  | O => ""
  | S n' => s +:+ str_repeat n' s
  end.

Fixpoint all_chars (p : ascii -> bool) (s : string) : bool :=
  match s with
  | EmptyString => true
  | String c rest => p c && all_chars p rest
  end.

Fixpoint any_char (p : ascii -> bool) (s : string) : bool :=
  match s with
  | EmptyString => false
  | String c rest => p c || any_char p rest
  end.

(** The value of a string of decimal digits. *)
Fixpoint digits_value (s : string) (acc : Z) : Z :=
  match s with
  | EmptyString => acc
  | String c rest => digits_value rest (acc * 10 + Z.of_nat (ascii_code c - 48))
  end.

(** [s.isidentifier()] *)
Definition isidentifier (s : string) : bool :=
  match s with
  | EmptyString => false
  | String c rest =>
      (isalpha c || Ascii.eqb c "_")
      && all_chars (fun x => isalpha x || isdigit x || Ascii.eqb x "_") rest
  end.

(** ** Conversions and comparisons of the runtime *)

(** [int(f)] for a float: truncation towards zero. *)
Definition trunc_float (f : float) : pyres Z :=
  match Prim2SF f with
  | S754_zero _ => PRet 0%Z
  | S754_infinity _ => PErr OverflowError
  | S754_nan => PErr ValueError
  | S754_finite s m e =>
      let mag := if (0 <=? e)%Z then (Zpos m * 2 ^ e)%Z
                 else (Zpos m / 2 ^ (- e))%Z in
      PRet (if s then (- mag)%Z else mag)
  end.

(** [int(v)].  A string of decimal digits with an optional sign is read;
    a string with no digit at all is a [ValueError]; the other spellings
    that Python accepts or refuses are left undefined. *)
Definition py_int (v : value) : pyres Z :=
  match v with
  | VInt z => PRet z
  | VBool b => PRet (if b then 1 else 0)%Z
  | VFloat f => trunc_float f
  | VStr s =>
      match s with
      | String "-" ds =>
          if negb (String.eqb ds "") && all_chars isdigit ds
          then PRet (- digits_value ds 0)%Z
          else if any_char isdigit s then PUnmodelled else PErr ValueError
      | String "+" ds =>
          if negb (String.eqb ds "") && all_chars isdigit ds
          then PRet (digits_value ds 0)
          else if any_char isdigit s then PUnmodelled else PErr ValueError
      | _ =>
          if negb (String.eqb s "") && all_chars isdigit s
          then PRet (digits_value s 0)
          else if any_char isdigit s then PUnmodelled else PErr ValueError
      end
  | VNone | VList _ | VDict _ => PErr TypeError
  end.

(** [a == b].  Two containers are equal when they are the same object;
    comparing two different container objects, an integer beyond 2^53 with a
    float, or two floats that may be the same NaN object is left undefined. *)
Definition py_eq (a b : value) : pyres bool :=
  match a, b with
  | VNone, VNone => PRet true
  | VStr x, VStr y => PRet (String.eqb x y)
  | VList x, VList y => if Nat.eqb x y then PRet true else PUnmodelled
  | VDict x, VDict y => if Nat.eqb x y then PRet true else PUnmodelled
  | _, _ =>
      match as_num a, as_num b with
      | Some (NInt x), Some (NInt y) => PRet (x =? y)%Z
      | Some (NFloat x), Some (NFloat y) =>
          if PrimFloat.is_nan x && PrimFloat.is_nan y then PUnmodelled
          else PRet (PrimFloat.eqb x y)
      | Some (NInt x), Some (NFloat y) | Some (NFloat y), Some (NInt x) =>
          if (Z.abs x <=? two53)%Z
          then pyres_bind (float_of_Z x) (fun fx => PRet (PrimFloat.eqb fx y))
          else PUnmodelled
      | _, _ => PRet false
      end
  end.

(** ** Operations of the runtime on the object store *)

Definition new_list (items : list value) : M value := fun st =>
  Ok (VList (length (list_store st))) (set_list_store (fun h => h ++ [items]) st).

Definition new_dict (entries : list (name * value)) : M value := fun st =>
  Ok (VDict (length (dict_store st))) (set_dict_store (fun h => h ++ [entries]) st).

Definition list_items (l : nat) : M (list value) := fun st =>
  match list_store st !! l with
  | Some items => Ok items st
  | None => Unmodelled
  end.

Definition dict_entries (l : nat) : M (list (name * value)) := fun st =>
  match dict_store st !! l with
  | Some entries => Ok entries st
  | None => Unmodelled
  end.

Definition is_nil {A} (l : list A) : bool :=
  match l with [] => true | _ => false end.

(** [bool(v)] *)
Definition py_bool (v : value) : M bool :=
  match v with
  | VNone => ret false
  | VBool b => ret b
  | VInt z => ret (negb (z =? 0)%Z)
  | VFloat f => ret (negb (float_is_zero f))
  | VStr s => ret (negb (String.eqb s ""))
  | VList l => items <- list_items l ;; ret (negb (is_nil items))
  | VDict l => entries <- dict_entries l ;; ret (negb (is_nil entries))
  end.

(** [len(v)] *)
Definition py_len (v : value) : M Z :=
  match v with
  | VStr s => ret (Z.of_nat (String.length s))
  | VList l => items <- list_items l ;; ret (Z.of_nat (length items))
  | VDict l => entries <- dict_entries l ;; ret (Z.of_nat (length entries))
  | _ => raise TypeError
  end.

Definition as_index (v : value) : option Z :=
  match v with
  | VInt z => Some z
  | VBool b => Some (if b then 1 else 0)%Z
  | _ => None
  end.

Definition two63 : Z := 9223372036854775808%Z.

(** [seq * n] for a string or a list. *)
Definition repeat_count (n : Z) : pyres nat :=
  if (two63 <=? n)%Z then PErr OverflowError else PRet (Z.to_nat n).

(** [a + b] *)
Definition py_add (a b : value) : M value :=
  match a, b with
  | VStr x, VStr y => ret (VStr (x +:+ y))
  | VList x, VList y =>
      xs <- list_items x ;; ys <- list_items y ;; new_list (xs ++ ys)
  | _, _ =>
      match as_num a, as_num b with
      | Some x, Some y => lift (num_arith Z.add PrimFloat.add x y)
      | _, _ => raise TypeError
      end
  end.

(** [a - b] *)
Definition py_sub (a b : value) : M value :=
  match as_num a, as_num b with
  | Some x, Some y => lift (num_arith Z.sub PrimFloat.sub x y)
  | _, _ => raise TypeError
  end.

(** [a * b] *)
Definition py_mul (a b : value) : M value :=
  match as_num a, as_num b with
  | Some x, Some y => lift (num_arith Z.mul PrimFloat.mul x y)
  | _, _ =>
      match a, b, as_index a, as_index b with
      | VStr s, _, _, Some n | _, VStr s, Some n, _ =>
          k <- lift (repeat_count n) ;; ret (VStr (str_repeat k s))
      | VList l, _, _, Some n | _, VList l, Some n, _ =>
          k <- lift (repeat_count n) ;;
          items <- list_items l ;;
          new_list (concat (replicate k items))
      | _, _, _, _ => raise TypeError
      end
  end.

(** [a / b] *)
Definition py_truediv (a b : value) : M value :=
  match as_num a, as_num b with
  | Some x, Some y => lift (num_truediv x y)
  | _, _ => raise TypeError
  end.

(** [a ** b] *)
Definition py_pow (a b : value) : M value :=
  match as_num a, as_num b with
  | Some x, Some y => lift (num_pow x y)
  | _, _ => raise TypeError
  end.

(** A Python dict object, as its entries in insertion order. *)
Fixpoint dict_get (k : name) (entries : list (name * value)) : option value :=
  match entries with
  | [] => None
  | (k', v) :: rest => if decide (k' = k) then Some v else dict_get k rest
  end.

(** [d[k] = v]: a present key keeps its position, a new key goes last. *)
Fixpoint dict_set (k : name) (v : value) (entries : list (name * value))
    : list (name * value) :=
  match entries with
  | [] => [(k, v)]
  | (k', v') :: rest =>
      if decide (k' = k) then (k, v) :: rest else (k', v') :: dict_set k v rest
  end.

(** [del d[k]] *)
Fixpoint dict_del (k : name) (entries : list (name * value)) : list (name * value) :=
  match entries with
  | [] => []
  | (k', v') :: rest =>
      if decide (k' = k) then rest else (k', v') :: dict_del k rest
  end.

(** [lst.append(v)] on the list object [l]. *)
Definition list_append (l : nat) (v : value) : M unit :=
  items <- list_items l ;;
  modify (set_list_store (fun h => <[l := items ++ [v]]> h)).

(** [d[k] = v] on the dict object [l]. *)
Definition dict_store_set (l : nat) (k : name) (v : value) : M unit :=
  entries <- dict_entries l ;;
  modify (set_dict_store (fun h => <[l := dict_set k v entries]> h)).

(** The index of the first item equal to [v] ([v in lst], [lst.remove(v)]). *)
Fixpoint find_eq (v : value) (items : list value) (i : nat) : pyres (option nat) :=
  match items with
  | [] => PRet None
  | x :: rest =>
      pyres_bind (py_eq x v) (fun b =>
      if b then PRet (Some i) else find_eq v rest (S i))
  end.

(** [print(v)] *)
Definition py_print (v : value) : M unit :=
  modify (set_stdout (fun o => o ++ [Printed v])).

(** [input(text)]: writes the prompt, then reads one line. *)
Definition py_input (text : string) : M value := fun st =>
  let st1 := set_stdout (fun o => o ++ [Prompted text]) st in
  match stdin st1 with
  | [] => Raise EOFError st1
  | Line s :: _ => Ok (VStr s) (set_stdin (fun i => tail i) st1)
  | Interrupt :: _ => Raise KeyboardInterrupt (set_stdin (fun i => tail i) st1)
  end.

(** [try: m  except KeyboardInterrupt: h] *)
Definition except_KeyboardInterrupt {A} (m : M A) (h : M A) : M A := fun st =>
  match m st with
  | Raise KeyboardInterrupt st' => h st'
  | r => r
  end.

(** [try: m  except Exception: h] *)
Definition except_Exception {A} (m : M A) (h : M A) : M A := fun st =>
  match m st with
  | Raise KeyboardInterrupt st' => Raise KeyboardInterrupt st'
  | Raise _ st' => h st'
  | r => r
  end.

(** [f"**{v}**"] *)
Definition bold_text (v : value) : M value :=
  s <- lift (py_str v) ;; ret (VStr ("**" +:+ s +:+ "**")).

(** ** Operations shared by the math and getter handlers *)

(** [math.sqrt(v)] *)
Definition py_sqrt (v : value) : M value :=
  match as_num v with
  | None => raise TypeError
  | Some n =>
      f <- lift (to_float n) ;;
      if PrimFloat.ltb f PrimFloat.zero then raise ValueError
      else ret (VFloat (PrimFloat.sqrt f))
  end.

(** The case transforms of [visit_GetCaseNode]. *)
Definition camel (s : string) : string := join "" (map capitalize (split_ws s)).
Definition snake (s : string) : string := lower (replace_char " " "_" s).

Definition type_name_or_null (v : value) : value :=
  match v with
  | VNone => VStr "null"
  | _ => VStr (type_name v)
  end.

(** ** The namespace of the interpreter module

    [visit_FunctionCallNode] looks a name that is no user function up in
    [globals()], the namespace of interpreter.py, and calls what it finds
    there when that is callable.  The namespace holds what the import
    statements and the class statement of the module bound:
    - [from nodes import *]: the node classes;
    - [import math, random, os] (and [tkinter as tk]): modules, which are not
      callable;
    - [from builtins import *]: Python resolves the name [builtins] to the
      module of its own built-in objects, which is loaded before any program
      starts, and never to a file of that name; the statement therefore binds
      the public names of Python's built-ins ([print], [len], the exception
      classes ...).  The functions that builtins.py of the repository
      defines are not among them;
    - [class Interpreter];
    - the attributes that every module has ([__name__], [__file__] ...),
      none of which is callable. *)

(** The names that [from nodes import *] and the class statement bind. *)
Definition node_class_names : list string :=
  [ "DisplayNode"; "InteractNode"; "AssignNode"; "SetNode"; "ChangeNode";
    "IncreaseNode"; "DecreaseNode"; "MultiplyNode"; "DivideNode";
    "ExponentiateNode"; "BlockVarNode"; "FunctionDefNode"; "FunctionCallNode";
    "FunctionAbbrevNode"; "IfNode"; "OrIfNode"; "OtherwiseNode"; "RepeatNode";
    "DoUntilNode"; "ForEachNode"; "ListNode"; "ListAddNode"; "ListRemoveNode";
    "DictionaryNode"; "DictAddNode"; "DictRemoveNode"; "ObjectNode";
    "ObjectSetPropNode"; "ObjectChangePropNode"; "ObjectDeletePropNode";
    "ObjectBlockPropNode"; "ObjectAddFunctionNode"; "MathFuncNode"; "FileNode";
    "GetLengthNode"; "GetCaseNode"; "GetTypeNode"; "ImportNode"; "ExportNode";
    "Interpreter" ].

(** The public names of Python's built-ins that are bound to a callable in
    some release of Python 3 (3.6 to 3.13), those that the [site] module
    adds included. *)
Definition python_builtin_functions : list string :=
  [ "abs"; "aiter"; "all"; "anext"; "any"; "ascii"; "bin"; "bool";
    "breakpoint"; "bytearray"; "bytes"; "callable"; "chr"; "classmethod";
    "compile"; "complex"; "copyright"; "credits"; "delattr"; "dict"; "dir";
    "divmod"; "enumerate"; "eval"; "exec"; "exit"; "filter"; "float";
    "format"; "frozenset"; "getattr"; "globals"; "hasattr"; "hash"; "help";
    "hex"; "id"; "input"; "int"; "isinstance"; "issubclass"; "iter"; "len";
    "license"; "list"; "locals"; "map"; "max"; "memoryview"; "min"; "next";
    "object"; "oct"; "open"; "ord"; "pow"; "print"; "property"; "quit";
    "range"; "repr"; "reversed"; "round"; "set"; "setattr"; "slice"; "sorted";
    "staticmethod"; "str"; "sum"; "super"; "tuple"; "type"; "vars"; "zip" ].

Definition python_builtin_exceptions : list string :=
  [ "ArithmeticError"; "AssertionError"; "AttributeError"; "BaseException";
    "BaseExceptionGroup"; "BlockingIOError"; "BrokenPipeError"; "BufferError";
    "BytesWarning"; "ChildProcessError"; "ConnectionAbortedError";
    "ConnectionError"; "ConnectionRefusedError"; "ConnectionResetError";
    "DeprecationWarning"; "EOFError"; "EncodingWarning"; "EnvironmentError";
    "Exception"; "ExceptionGroup"; "FileExistsError"; "FileNotFoundError";
    "FloatingPointError"; "FutureWarning"; "GeneratorExit"; "IOError";
    "ImportError"; "ImportWarning"; "IndentationError"; "IndexError";
    "InterruptedError"; "IsADirectoryError"; "KeyError"; "KeyboardInterrupt";
    "LookupError"; "MemoryError"; "ModuleNotFoundError"; "NameError";
    "NotADirectoryError"; "NotImplementedError"; "OSError"; "OverflowError";
    "PendingDeprecationWarning"; "PermissionError"; "ProcessLookupError";
    "PythonFinalizationError"; "RecursionError"; "ReferenceError";
    "ResourceWarning"; "RuntimeError"; "RuntimeWarning"; "StopAsyncIteration";
    "StopIteration"; "SyntaxError"; "SyntaxWarning"; "SystemError";
    "SystemExit"; "TabError"; "TimeoutError"; "TypeError";
    "UnboundLocalError"; "UnicodeDecodeError"; "UnicodeEncodeError";
    "UnicodeError"; "UnicodeTranslateError"; "UnicodeWarning"; "UserWarning";
    "ValueError"; "Warning"; "WindowsError"; "ZeroDivisionError" ].

(** The functions that builtins.py of the repository defines. *)
Definition repository_builtins : list string :=
  [ "add"; "subtract"; "multiply"; "divide"; "exponentiate"; "square_of";
    "squareroot_of"; "gcd"; "lcm"; "generate_random_int"; "concat";
    "get_length"; "get_case"; "get_type" ].

Inductive global_entry : Type :=
| GCallable       (* bound to a class or to a callable of Python's built-ins *)
| GNotCallable.   (* unbound, or bound to something that is not callable *)

Inductive dialect : Type := python_code | caml_code.

(** [callable(globals().get(name) or locals().get(name))].  The locals of
    the handler, [self], [node] and [func], are not callable. *)
Definition global_callable (d : dialect) (n : name) : global_entry :=
  match n with
  | None => GNotCallable
  | Some s =>
      if existsb (String.eqb s) node_class_names
         || existsb (String.eqb s) python_builtin_functions
         || existsb (String.eqb s) python_builtin_exceptions
      then GCallable
      else match d with
           | caml_code => if String.eqb s "ButtonNode" then GCallable else GNotCallable
           | python_code => GNotCallable
           end
  end.

(** ** The evaluator ([interpreter.py])

    The two copies of the interpreter share most handlers word for word;
    where they differ the handler branches on the [dialect].  [self_visit]
    is the method [self.visit], and [loop_fuel] bounds the iterations of the
    loops whose length the statement does not fix. *)

(** The namespace search of [_resolve_value] for a string. *)
Definition lookup_name (st : state) (s : string) : value :=
  match lists st !! Some s with
  | Some l => VList l
  | None =>
      match dicts st !! Some s with
      | Some l => VDict l
      | None =>
          match variables st !! Some s with
          | Some x => x
          | None => VStr s
          end
      end
  end.

Definition name_value (n : name) : value :=
  match n with
  | Some s => VStr s
  | None => VNone
  end.

Definition empty_object : pyobject := {| properties := ∅; obj_functions := ∅ |}.

Definition set_properties (f : gmap name value -> gmap name value) (o : pyobject)
    : pyobject :=
  {| properties := f (properties o); obj_functions := obj_functions o |}.

Definition set_obj_functions (f : gmap name funcdef -> gmap name funcdef)
    (o : pyobject) : pyobject :=
  {| properties := properties o; obj_functions := f (obj_functions o) |}.

(** What [visit_ForEachNode] iterates over. *)
Inductive iter_source : Type :=
| IterList (l : nat)   (* a list object *)
| IterEmpty            (* the fresh [[]] of the fallback *)
| IterOther.           (* a value that is not a list *)

Section Handlers.

Variable d : dialect.
Variable self_visit : stmt -> M value.
Variable loop_fuel : nat.

(** [for stmt in body: self.visit(stmt)] *)
Definition visit_all (body : list stmt) : M unit := forM_ self_visit body.

Definition _resolve_value (v : expr) : M value :=
  match v with
  | Call f args =>
      match d with
      | caml_code => self_visit (FunctionCallNode f args)
      | python_code => unmodelled   (* the node object itself is returned *)
      end
  | Lit (VStr s) => st <- get_state ;; ret (lookup_name st s)
  | Lit x => ret x
  end.

Definition _get_var (n : name) : M value :=
  st <- get_state ;; ret (default VNone (variables st !! n)).

Definition _set_var (n : name) (v : expr) : M unit :=
  resolved <- _resolve_value v ;;
  modify (set_variables (fun vars => <[n := resolved]> vars)).

Definition _evaluate_condition (cond : expr) : M bool :=
  val <- _resolve_value cond ;; py_bool val.

(** *** Display / Interact *)

Definition visit_DisplayNode (v : expr) (bold : bool) : M value :=
  val <- _resolve_value v ;;
  out <- (if bold then bold_text val else ret val) ;;
  py_print out ;;;
  match d with
  | python_code => ret VNone
  | caml_code => ret out
  end.

Definition visit_InteractNode (p : expr) (bold : bool) : M value :=
  prompt <- _resolve_value p ;;
  prompt <- (if bold then bold_text prompt else ret prompt) ;;
  except_KeyboardInterrupt
    (text <- lift (py_str prompt) ;; py_input (text +:+ ": "))
    (ret (VStr "")).

(** *** Variables *)

Definition visit_AssignNode (n : name) (v : expr) : M value :=
  _set_var n v ;;; ret VNone.

Definition visit_SetNode (n : name) (v : expr) : M value :=
  _set_var n v ;;; ret VNone.

Definition visit_ChangeNode (n : name) (v : expr) : M value :=
  _set_var n v ;;; ret VNone.

(** The five arithmetic updates: [cur = cur op val].  The python_code
    copy resolves the operand first and checks only [cur]; the caml-code
    copy reads [cur] first and checks both. *)
Definition arith_update (op : value -> value -> M value) (n : name) (v : expr)
    : M value :=
  match d with
  | python_code =>
      val <- _resolve_value v ;;
      cur <- _get_var n ;;
      if is_number cur
      then (r <- op cur val ;; _set_var n (Lit r) ;;; ret VNone)
      else raise TypeError
  | caml_code =>
      cur <- _get_var n ;;
      val <- _resolve_value v ;;
      if is_number cur && is_number val
      then (r <- op cur val ;; _set_var n (Lit r) ;;; ret VNone)
      else raise TypeError
  end.

Definition visit_IncreaseNode := arith_update py_add.
Definition visit_DecreaseNode := arith_update py_sub.
Definition visit_MultiplyNode := arith_update py_mul.
Definition visit_DivideNode := arith_update py_truediv.
Definition visit_ExponentiateNode := arith_update py_pow.

Definition visit_BlockVarNode (n : name) : M value :=
  modify (set_variables (fun vars => delete n vars)) ;;; ret VNone.

(** *** Functions *)

Definition visit_FunctionDefNode (n : name) (args : list string) (body : list stmt)
    : M value :=
  modify (set_functions (fun fs =>
    <[n := {| fd_name := n; fd_args := args; fd_body := body |}]> fs)) ;;;
  ret VNone.

(** [for name, val in zip(func.args, node.args): local[name] = resolve(val)] *)
Fixpoint bind_args (params : list string) (args : list expr)
    (local : gmap name value) : M (gmap name value) :=
  match params, args with
  | p :: ps, a :: rest =>
      v <- _resolve_value a ;; bind_args ps rest (<[Some p := v]> local)
  | _, _ => ret local
  end.

(** The body loop of a call: the result of the last statement that
    returned something other than [None]. *)
Fixpoint run_body (body : list stmt) (result : value) : M value :=
  match body with
  | [] => ret result
  | s :: rest =>
      res <- self_visit s ;;
      run_body rest (match res with VNone => result | _ => res end)
  end.

(** The fallback of a call whose name is no user function. *)
Definition call_global (n : name) (args : list expr) : M value :=
  match global_callable d n with
  | GCallable => vals <- mapM _resolve_value args ;; unmodelled
  | GNotCallable =>
      match d with
      | python_code => raise (FunctionNotDefined n)
      | caml_code => ret (name_value n)
      end
  end.

Definition visit_FunctionCallNode (n : name) (args : list expr) : M value :=
  st <- get_state ;;
  match functions st !! n with
  | None => call_global n args
  | Some func =>
      match d with
      | python_code =>
          local_vars <- bind_args (fd_args func) args ∅ ;;
          st1 <- get_state ;;
          let old_vars := variables st1 in
          modify (set_variables (fun vars => local_vars ∪ vars)) ;;;
          modify (set_call_stack (fun cs => cs ++ [fd_name func])) ;;;
          r <- run_body (fd_body func) VNone ;;
          modify (set_call_stack (fun cs => removelast cs)) ;;;
          modify (set_variables (fun _ => old_vars)) ;;;
          ret r
      | caml_code =>
          let old_vars := variables st in
          local <- bind_args (fd_args func) args ∅ ;;
          modify (set_variables (fun vars => local ∪ vars)) ;;;
          modify (set_call_stack (fun cs => cs ++ [fd_name func])) ;;;
          r <- run_body (fd_body func) VNone ;;
          modify (set_call_stack (fun cs => removelast cs)) ;;;
          modify (set_variables (fun _ => old_vars)) ;;;
          ret r
      end
  end.

Definition visit_FunctionAbbrevNode (original new : name) : M value :=
  st <- get_state ;;
  match functions st !! original with
  | Some func => modify (set_functions (fun fs => <[new := func]> fs)) ;;; ret VNone
  | None => ret VNone
  end.

(** *** Conditionals *)

Definition visit_IfNode (cond : expr) (body : list stmt) : M value :=
  c <- _evaluate_condition cond ;;
  if c : bool then (visit_all body ;;; ret VNone) else ret VNone.

Definition visit_OrIfNode (cond : expr) (body : list stmt) : M value :=
  c <- _evaluate_condition cond ;;
  if c : bool then (visit_all body ;;; ret VNone) else ret VNone.

Definition visit_OtherwiseNode (body : list stmt) : M value :=
  visit_all body ;;; ret VNone.

(** *** Loops *)

(** [for _ in range(times): body] *)
Fixpoint repeat_loop (times : nat) (body : list stmt) : M unit :=
  match times with
  | O => ret tt
  | S n => visit_all body ;;; repeat_loop n body
  end.

Definition visit_RepeatNode (times : expr) (body : list stmt) : M value :=
  v <- _resolve_value times ;;
  n <- lift (py_int v) ;;
  repeat_loop (Z.to_nat n) body ;;; ret VNone.

(** [while not cond: body] *)
Fixpoint until_loop (fuel : nat) (cond : expr) (body : list stmt) : M unit :=
  match fuel with
  | O => fun _ => OutOfFuel
  | S fuel' =>
      c <- _evaluate_condition cond ;;
      if c : bool then ret tt
      else (visit_all body ;;; until_loop fuel' cond body)
  end.

Definition visit_DoUntilNode (cond : expr) (body : list stmt) : M value :=
  until_loop loop_fuel cond body ;;; ret VNone.

(** The iterable of a [ForEachNode]. *)
Definition classify_iterable (v : value) : iter_source :=
  match v with
  | VList l => IterList l
  | _ => IterOther
  end.

Definition foreach_iterable (it : name) : M iter_source :=
  st <- get_state ;;
  match d with
  | python_code =>
      (* self.lists.get(it) or self._get_var(it) or [] *)
      first <- match lists st !! it with
               | Some l => t <- py_bool (VList l) ;; ret (if t : bool then Some l else None)
               | None => ret None
               end ;;
      match first with
      | Some l => ret (IterList l)
      | None =>
          v <- _get_var it ;;
          t <- py_bool v ;;
          ret (if t : bool then classify_iterable v else IterEmpty)
      end
  | caml_code =>
      match lists st !! it with
      | Some l => ret (IterList l)
      | None =>
          v <- _get_var it ;;
          t <- py_bool v ;;
          ret (if t : bool then classify_iterable v else IterEmpty)
      end
  end.

(** [for item in iterable: ...] over the list object [l], from index [i];
    the iterator reads the list as it is at each step. *)
Fixpoint foreach_loop (fuel : nat) (var : name) (body : list stmt)
    (l : nat) (i : nat) : M unit :=
  match fuel with
  | O => fun _ => OutOfFuel
  | S fuel' =>
      items <- list_items l ;;
      match items !! i with
      | None => ret tt
      | Some item =>
          _set_var var (Lit item) ;;;
          visit_all body ;;;
          foreach_loop fuel' var body l (S i)
      end
  end.

Definition visit_ForEachNode (var : name) (it : name) (body : list stmt) : M value :=
  src <- foreach_iterable it ;;
  match src with
  | IterOther => raise TypeError
  | IterEmpty => ret VNone
  | IterList l => foreach_loop loop_fuel var body l 0 ;;; ret VNone
  end.

(** *** Lists / Dictionaries *)

Definition visit_ListNode (n : name) (elements : list expr) : M value :=
  resolved <- mapM _resolve_value elements ;;
  lst <- new_list resolved ;;
  match lst with
  | VList l => modify (set_lists (fun ls => <[n := l]> ls)) ;;; ret VNone
  | _ => unmodelled
  end.

Definition visit_ListAddNode (n : name) (v : expr) : M value :=
  val <- _resolve_value v ;;
  st <- get_state ;;
  l <- match lists st !! n with
       | Some l => ret l
       | None =>
           lst <- new_list [] ;;
           match lst with
           | VList l => modify (set_lists (fun ls => <[n := l]> ls)) ;;; ret l
           | _ => unmodelled
           end
       end ;;
  list_append l val ;;;
  ret VNone.

Definition visit_ListRemoveNode (n : name) (v : expr) : M value :=
  val <- _resolve_value v ;;
  st <- get_state ;;
  match lists st !! n with
  | None => ret VNone
  | Some l =>
      items <- list_items l ;;
      found <- lift (find_eq val items 0) ;;
      match found with
      | None => ret VNone
      | Some i =>
          modify (set_list_store (fun h => <[l := delete i items]> h)) ;;;
          ret VNone
      end
  end.

(** [for k, v in node.elements.items(): d[k] = resolve(v)] *)
Fixpoint fill_dict (l : nat) (elements : list (name * expr)) : M unit :=
  match elements with
  | [] => ret tt
  | (k, v) :: rest =>
      val <- _resolve_value v ;;
      dict_store_set l k val ;;;
      fill_dict l rest
  end.

Definition visit_DictionaryNode (n : name) (elements : list (name * expr)) : M value :=
  dv <- new_dict [] ;;
  match dv with
  | VDict l =>
      fill_dict l elements ;;;
      modify (set_dicts (fun ds => <[n := l]> ds)) ;;;
      ret VNone
  | _ => unmodelled
  end.

Definition visit_DictAddNode (n : name) (key : name) (v : expr) : M value :=
  val <- _resolve_value v ;;
  st <- get_state ;;
  l <- match dicts st !! n with
       | Some l => ret l
       | None =>
           dv <- new_dict [] ;;
           match dv with
           | VDict l => modify (set_dicts (fun ds => <[n := l]> ds)) ;;; ret l
           | _ => unmodelled
           end
       end ;;
  dict_store_set l key val ;;;
  ret VNone.

Definition visit_DictRemoveNode (n : name) (key : name) : M value :=
  st <- get_state ;;
  match dicts st !! n with
  | None => ret VNone
  | Some l =>
      entries <- dict_entries l ;;
      match dict_get key entries with
      | None => ret VNone
      | Some _ =>
          modify (set_dict_store (fun h => <[l := dict_del key entries]> h)) ;;;
          ret VNone
      end
  end.

(** *** Objects

    The GUI stores [gui_windows] and [gui_buttons] of the caml-code copy
    are filled only by the creation of a window, which is an effect of the
    GUI toolkit; wherever this development defines a run they are empty,
    and the branches that consult them change nothing. *)

(** [obj = self.objects.get(n)], creating the entry when it is missing. *)
Definition get_or_create_object (n : name) : M pyobject :=
  st <- get_state ;;
  match objects st !! n with
  | Some o => ret o
  | None =>
      modify (set_objects (fun os => <[n := empty_object]> os)) ;;;
      ret empty_object
  end.

Definition update_object (n : name) (f : pyobject -> pyobject) : M unit :=
  modify (set_objects (fun os => alter f n os)).

Definition visit_ObjectNode (n : name) (body : list stmt) (is_window : bool)
    : M value :=
  match d with
  | python_code =>
      modify (set_objects (fun os => <[n := empty_object]> os)) ;;;
      visit_all body ;;; ret VNone
  | caml_code =>
      get_or_create_object n ;;;
      if is_window then unmodelled
      else (visit_all body ;;; ret VNone)
  end.

Definition visit_ObjectSetPropNode (n prop : name) (v : expr) : M value :=
  get_or_create_object n ;;;
  val <- _resolve_value v ;;
  update_object n (set_properties (fun ps => <[prop := val]> ps)) ;;;
  ret VNone.

Definition visit_ObjectChangePropNode (n prop : name) (v : expr) : M value :=
  st <- get_state ;;
  match objects st !! n with
  | None => ret VNone
  | Some o =>
      match properties o !! prop with
      | None => ret VNone
      | Some _ =>
          val <- _resolve_value v ;;
          update_object n (set_properties (fun ps => <[prop := val]> ps)) ;;;
          match d with
          | python_code => ret VNone
          | caml_code => visit_ObjectSetPropNode n prop v
          end
      end
  end.

Definition visit_ObjectDeletePropNode (n prop : name) : M value :=
  update_object n (set_properties (fun ps => delete prop ps)) ;;; ret VNone.

Definition visit_ObjectBlockPropNode (n prop : name) : M value :=
  update_object n (set_properties (fun ps => alter (fun _ => VNone) prop ps)) ;;;
  ret VNone.

Definition visit_ObjectAddFunctionNode (n : name) (func_node : stmt) : M value :=
  get_or_create_object n ;;;
  match func_node with
  | FunctionDefNode fn args body =>
      update_object n (set_obj_functions (fun fs =>
        <[fn := {| fd_name := fn; fd_args := args; fd_body := body |}]> fs)) ;;;
      ret VNone
  | _ => unmodelled
  end.

(** With no window in [gui_windows], both branches of the caml-code
    handler raise; the python_code copy has no handler for the node. *)
Definition visit_ButtonNode (n parent : name) (body : list stmt) : M value :=
  match d with
  | python_code => raise NoVisitMethod
  | caml_code => raise ButtonException
  end.

(** *** Math functions *)

Definition arg_at (args : list value) (i : nat) : M value :=
  match args !! i with
  | Some v => ret v
  | None => raise IndexError
  end.

Definition visit_MathFuncNode (func : name) (args : list expr) : M value :=
  vals <- mapM _resolve_value args ;;
  match func with
  | Some "SQUARE" => x <- arg_at vals 0 ;; py_pow x (VInt 2)
  | Some "SQUAREROOT" => x <- arg_at vals 0 ;; py_sqrt x
  | Some "GCD" =>
      x <- arg_at vals 0 ;; xi <- lift (py_int x) ;;
      y <- arg_at vals 1 ;; yi <- lift (py_int y) ;;
      ret (VInt (Z.gcd xi yi))
  | Some "LCM" =>
      x <- arg_at vals 0 ;; xi <- lift (py_int x) ;;
      y <- arg_at vals 1 ;; yi <- lift (py_int y) ;;
      if (Z.gcd xi yi =? 0)%Z then raise ZeroDivisionError
      else ret (VInt (Z.abs (xi * yi) / Z.gcd xi yi))
  | Some "RANDOM_INT" => unmodelled
  | _ => ret VNone
  end.

(** *** File handling: one call of the file system per node. *)

Definition visit_FileNode (f : file_fields) : M value := unmodelled.

(** *** Getters *)

Definition visit_GetLengthNode (target : expr) : M value :=
  t <- _resolve_value target ;;
  except_Exception (n <- py_len t ;; ret (VInt n)) (ret (VInt 0)).

Definition name_is_empty (n : name) : bool :=
  match n with
  | None => true
  | Some s => String.eqb s ""
  end.

Definition visit_GetCaseNode (target : expr) (mode : name) : M value :=
  t <- _resolve_value target ;;
  let m := if name_is_empty mode
           then (match d with python_code => "undefined" | caml_code => "lower" end)
           else default "" mode in
  s <- lift (py_str t) ;;
  if String.eqb m "upper" then ret (VStr (upper s))
  else if String.eqb m "lower" then ret (VStr (lower s))
  else if String.eqb m "camel" || String.eqb m "pascal" then ret (VStr (camel s))
  else if String.eqb m "snake" then ret (VStr (snake s))
  else ret (VStr s).

Definition visit_GetTypeNode (target : expr) : M value :=
  t <- _resolve_value target ;; ret (type_name_or_null t).

(** *** Modules *)

Definition visit_ImportNode (mods : list string) (file : name) : M value :=
  modify (set_modules (fun ms => <[file := mods]> ms)) ;;; ret VNone.

Definition visit_ExportNode (mods : list string) : M value := ret VNone.

(** *** The dispatcher: [getattr(self, f'visit_{class name}')(node)] *)

Definition dispatch (node : stmt) : M value :=
  match node with
  | DisplayNode v b => visit_DisplayNode v b
  | InteractNode p b => visit_InteractNode p b
  | AssignNode n v => visit_AssignNode n v
  | SetNode n v => visit_SetNode n v
  | ChangeNode n v => visit_ChangeNode n v
  | IncreaseNode n v => visit_IncreaseNode n v
  | DecreaseNode n v => visit_DecreaseNode n v
  | MultiplyNode n v => visit_MultiplyNode n v
  | DivideNode n v => visit_DivideNode n v
  | ExponentiateNode n v => visit_ExponentiateNode n v
  | BlockVarNode n => visit_BlockVarNode n
  | FunctionDefNode n args body => visit_FunctionDefNode n args body
  | FunctionCallNode n args => visit_FunctionCallNode n args
  | FunctionAbbrevNode o n => visit_FunctionAbbrevNode o n
  | IfNode c body => visit_IfNode c body
  | OrIfNode c body => visit_OrIfNode c body
  | OtherwiseNode body => visit_OtherwiseNode body
  | RepeatNode t body => visit_RepeatNode t body
  | DoUntilNode c body => visit_DoUntilNode c body
  | ForEachNode var it body => visit_ForEachNode var it body
  | ListNode n els => visit_ListNode n els
  | ListAddNode n v => visit_ListAddNode n v
  | ListRemoveNode n v => visit_ListRemoveNode n v
  | DictionaryNode n els => visit_DictionaryNode n els
  | DictAddNode n k v => visit_DictAddNode n k v
  | DictRemoveNode n k => visit_DictRemoveNode n k
  | ObjectNode n body w => visit_ObjectNode n body w
  | ObjectSetPropNode n p v => visit_ObjectSetPropNode n p v
  | ObjectChangePropNode n p v => visit_ObjectChangePropNode n p v
  | ObjectDeletePropNode n p => visit_ObjectDeletePropNode n p
  | ObjectBlockPropNode n p => visit_ObjectBlockPropNode n p
  | ObjectAddFunctionNode n f => visit_ObjectAddFunctionNode n f
  | ButtonNode n p body => visit_ButtonNode n p body
  | MathFuncNode f args => visit_MathFuncNode f args
  | FileNode f => visit_FileNode f
  | GetLengthNode t => visit_GetLengthNode t
  | GetCaseNode t m => visit_GetCaseNode t m
  | GetTypeNode t => visit_GetTypeNode t
  | ImportNode ms f => visit_ImportNode ms f
  | ExportNode ms => visit_ExportNode ms
  end.

End Handlers.

(** [Interpreter.visit], with [fuel] bounding the depth of nested visits and
    the iterations of [DoUntil] and [ForEach] loops. *)
Fixpoint visit (d : dialect) (fuel : nat) (node : stmt) : M value :=
  match fuel with
  | O => fun _ => OutOfFuel
  | S fuel' => dispatch d (visit d fuel') fuel' node
  end.

(** [Interpreter.execute]: [for node in ast: self.visit(node)].  The GUI
    main loop that the caml-code copy enters afterwards starts only when a
    window was created. *)
Definition execute (d : dialect) (fuel : nat) (ast : list stmt) : M unit :=
  forM_ (visit d fuel) ast.

(** * The parser ([parser.py])

    The lexer hands the parser a list of lines, each an indentation and a
    list of tokens.  A token's type is a string, as in the source, and its
    value is the Python object the lexer stored (an [int], a [float] or a
    [str]). *)

Record Token : Type := { ttype : string; tvalue : value }.

(** [Token(ty, v)] *)
Definition tok (ty : string) (v : value) : Token := {| ttype := ty; tvalue := v |}.

Abbreviation token_line := (nat * list Token)%type.

(** ** Scans of a token list *)

Definition has_type (ty : string) (tokens : list Token) : bool :=
  existsb (fun t => String.eqb (ttype t) ty) tokens.

Definition type_in (tys : list string) (t : Token) : bool :=
  existsb (String.eqb (ttype t)) tys.

Definition has_any_type (tys : list string) (tokens : list Token) : bool :=
  existsb (type_in tys) tokens.

(** The value of the first token whose type is one of [tys], or [None]. *)
Definition first_value (tys : list string) (tokens : list Token) : value :=
  match find (type_in tys) tokens with
  | Some t => tvalue t
  | None => VNone
  end.

(** The values of all the tokens whose type is one of [tys]. *)
Definition all_values (tys : list string) (tokens : list Token) : list value :=
  map tvalue (filter (fun t => type_in tys t = true) tokens).

(** The tokens that follow the first token satisfying [p]. *)
Fixpoint after_first (p : Token -> bool) (tokens : list Token) : option (list Token) :=
  match tokens with
  | [] => None
  | t :: rest => if p t then Some rest else after_first p rest
  end.

(** The value of the token that follows the first [marker] token which has
    a follower satisfying [ok]. *)
Fixpoint value_after (marker : string) (ok : Token -> bool) (tokens : list Token)
    : option value :=
  match tokens with
  | t :: rest =>
      match rest with
      | u :: _ =>
          if String.eqb (ttype t) marker && ok u then Some (tvalue u)
          else value_after marker ok rest
      | [] => None
      end
  | [] => None
  end.

(** The same scan without [break]: the last such follower wins. *)
Fixpoint last_value_after (marker : string) (ok : Token -> bool) (tokens : list Token)
    (acc : option value) : option value :=
  match tokens with
  | t :: rest =>
      match rest with
      | u :: _ =>
          last_value_after marker ok rest
            (if String.eqb (ttype t) marker && ok u then Some (tvalue u) else acc)
      | [] => acc
      end
  | [] => acc
  end.

Definition or_none (o : option value) : value := default VNone o.

(** A token value used as a name: the lexer gives every [IDENTIFIER] and
    [STRING] token a [str] value. *)
Definition as_name (v : value) : name :=
  match v with
  | VStr s => Some s
  | _ => None
  end.

Definition names_of (vs : list value) : list string :=
  omap as_name vs.

Definition is_type (ty : string) (t : Token) : bool := String.eqb (ttype t) ty.
Definition any_token (t : Token) : bool := true.

(** [tok.type.startswith(prefix)] *)
Definition type_startswith (pre : string) (t : Token) : bool :=
  String.prefix pre (ttype t).

(** The entries of a dict literal built by [elements[k] = v] in a loop. *)
Fixpoint assoc_set {A} (k : name) (v : A) (entries : list (name * A)) : list (name * A) :=
  match entries with
  | [] => [(k, v)]
  | (k', v') :: rest =>
      if decide (k' = k) then (k, v) :: rest else (k', v') :: assoc_set k v rest
  end.

Definition literal_types : list string :=
  ["STRING"; "INTEGER"; "FLOAT"; "BOOLEAN"; "NULL"; "IDENTIFIER"].

Definition element_types : list string :=
  ["INTEGER"; "FLOAT"; "STRING"; "IDENTIFIER"; "BOOLEAN"].

Definition math_types : list string :=
  ["SQUARE"; "SQUAREROOT"; "GCD"; "LCM"; "RANDOM_INT"].

Definition variable_types : list string :=
  ["ASSIGN"; "SET"; "CHANGE"; "INCREASE"; "DECREASE"; "MULTIPLY"; "DIVIDE";
   "EXPONENTIATE"; "BLOCK"].

Definition arith_types : list string :=
  ["INCREASE"; "DECREASE"; "MULTIPLY"; "DIVIDE"; "EXPONENTIATE"].

Definition case_modes : list string := ["upper"; "lower"; "camel"; "snake"; "pascal"].

(** The last token value that spells a case mode, lower-cased. *)
Definition find_mode (tokens : list Token) : name :=
  fold_left (fun acc t =>
    match tvalue t with
    | VStr s => if existsb (String.eqb (lower s)) case_modes then Some (lower s) else acc
    | _ => acc
    end) tokens None.

(** The node of an arithmetic update, by the operator token's type. *)
Definition arith_node (op : string) (var : name) (val : expr) : option stmt :=
  if String.eqb op "INCREASE" then Some (IncreaseNode var val)
  else if String.eqb op "DECREASE" then Some (DecreaseNode var val)
  else if String.eqb op "MULTIPLY" then Some (MultiplyNode var val)
  else if String.eqb op "DIVIDE" then Some (DivideNode var val)
  else if String.eqb op "EXPONENTIATE" then Some (ExponentiateNode var val)
  else None.

(** ** What a statement parser does with the line it consumed

    Every [parse_*] method consumes the current line, reads its fields off
    the line's tokens and, when the statement bears a block, calls
    [_collect_block] last and builds its node around the collected body. *)

Inductive block_parent : Type :=
| ParentHeader   (* [_collect_block(indent)], the header's own indentation *)
| ParentNone     (* [_collect_block(None)] *)
| ParentNext.    (* the indentation of the line after the header, or 0 *)

Inductive line_action : Type :=
| Leaf (node : option stmt)
| Header (parent : block_parent) (build : list stmt -> option stmt).

(** The fields of a [FileNode], shared by both parsers' [parse_file] up to
    the rule for the file name and the text. *)
Definition file_find_replace (tokens : list Token) : name * name :=
  if has_type "FILE_FIND" tokens && has_type "FILE_REPLACE" tokens
  then match all_values ["STRING"] tokens with
       | _ :: f :: r :: _ => (as_name f, as_name r)
       | _ => (None, None)
       end
  else (None, None).

(** The last token type that starts with [FILE_]. *)
Definition file_action (tokens : list Token) : name :=
  fold_left (fun acc t => if type_startswith "FILE_" t then Some (ttype t) else acc)
    tokens None.

(** ** The python_code parser *)

Module PyParser.

Definition parse_display (tokens : list Token) : line_action :=
  let bold := has_type "PLUS_BOLD" tokens in
  Leaf (Some (DisplayNode (Lit (first_value literal_types tokens)) bold)).

Definition parse_interact (tokens : list Token) : line_action :=
  let bold := has_type "PLUS_BOLD" tokens in
  Leaf (Some (InteractNode (Lit (first_value ["STRING"; "IDENTIFIER"] tokens)) bold)).

Definition parse_assign (tokens : list Token) : option stmt :=
  let val := first_value literal_types
               (default [] (after_first (is_type "ASSIGN") tokens)) in
  let var := value_after "TO" (is_type "IDENTIFIER") tokens in
  match var, val with
  | None, VStr s =>
      if isidentifier s then Some (AssignNode (Some s) (Lit VNone))
      else Some (AssignNode None (Lit val))
  | None, _ => Some (AssignNode None (Lit val))
  | Some v, _ => Some (AssignNode (as_name v) (Lit val))
  end.

(** [Set] and [Change]: the first identifier is the variable; the value
    follows a later [TO]. *)
Definition var_and_value (ok : Token -> bool) (tokens : list Token) : name * value :=
  match find (is_type "IDENTIFIER") tokens with
  | None => (None, VNone)
  | Some t =>
      (as_name (tvalue t),
       or_none (value_after "TO" ok
                  (default [] (after_first (is_type "IDENTIFIER") tokens))))
  end.

Definition parse_arith (tokens : list Token) : option stmt :=
  match find (fun k => has_type k tokens) arith_types with
  | None => None
  | Some op =>
      let rest := default [] (after_first (is_type op) tokens) in
      let var := match rest with
                 | u :: _ => if is_type "IDENTIFIER" u then as_name (tvalue u) else None
                 | [] => None
                 end in
      let val := or_none (value_after "BY" any_token rest) in
      arith_node op var (Lit val)
  end.

Definition parse_variable_statement (tokens : list Token) : line_action :=
  Leaf
    (if has_type "ASSIGN" tokens then parse_assign tokens
     else if has_type "SET" tokens && negb (has_type "VARIABLE" tokens) then
       let '(var, val) := var_and_value (type_in literal_types) tokens in
       Some (SetNode var (Lit val))
     else if has_type "CHANGE" tokens then
       let '(var, val) := var_and_value any_token tokens in
       Some (ChangeNode var (Lit val))
     else if has_any_type arith_types tokens then parse_arith tokens
     else if has_type "BLOCK" tokens then
       match find (is_type "IDENTIFIER") tokens with
       | Some t => Some (BlockVarNode (as_name (tvalue t)))
       | None => None
       end
     else None).

Definition parse_list (tokens : list Token) : line_action :=
  Leaf (Some (ListNode (as_name (first_value ["IDENTIFIER"] tokens))
                (map Lit (all_values element_types tokens)))).

Definition parse_list_add (tokens : list Token) : line_action :=
  Leaf (Some (ListAddNode
                (match last (all_values ["IDENTIFIER"] tokens) with
                 | Some v => as_name v
                 | None => None
                 end)
                (Lit (first_value element_types tokens)))).

Definition parse_for_each (tokens : list Token) : line_action :=
  let var_name := as_name (first_value ["IDENTIFIER"] tokens) in
  let iterable :=
    match last_value_after "IN" (is_type "IDENTIFIER") tokens None with
    | Some v => as_name v
    | None => None
    end in
  Header ParentHeader (fun body => Some (ForEachNode var_name iterable body)).

(** The arguments are never read off the line, and the block is collected
    against the indentation of the line after the header. *)
Definition parse_function_def (tokens : list Token) : line_action :=
  let fname := as_name (first_value ["STRING"; "IDENTIFIER"] tokens) in
  Header ParentNext (fun body => Some (FunctionDefNode fname [] body)).

Definition parse_function_call (tokens : list Token) : line_action :=
  let literal_args := all_values ["INTEGER"; "FLOAT"; "STRING"; "BOOLEAN"] tokens in
  let named :=
    match find (type_in ["STRING"; "IDENTIFIER"]) tokens with
    | None => (None, [])
    | Some t =>
        if is_type "STRING" t then (as_name (tvalue t), [])
        else
          match tokens with
          | t0 :: rest =>
              if negb (is_type "IDENTIFIER" t0)
                 || match rest with
                    | t1 :: _ => negb (is_type "(" t1)
                    | [] => false
                    end
              then (as_name (tvalue t), [])
              else (as_name (tvalue t), all_values element_types rest)
          | [] => (None, [])
          end
    end in
  Leaf (Some (FunctionCallNode (fst named) (map Lit (snd named ++ literal_args)))).

(** The first name is the original; the last later name is the new one. *)
Definition parse_function_abbrev (tokens : list Token) : line_action :=
  let names := all_values ["STRING"; "IDENTIFIER"] tokens in
  match names with
  | [] => Leaf (Some (FunctionAbbrevNode None None))
  | o :: rest =>
      Leaf (Some (FunctionAbbrevNode (as_name o)
                    (match last rest with Some v => as_name v | None => None end)))
  end.

Definition parse_if (tokens : list Token) : line_action :=
  let cond := first_value literal_types tokens in
  Header ParentHeader (fun body => Some (IfNode (Lit cond) body)).

Definition parse_or_if (tokens : list Token) : line_action :=
  let cond := first_value literal_types tokens in
  Header ParentHeader (fun body => Some (OrIfNode (Lit cond) body)).

Definition parse_otherwise (tokens : list Token) : line_action :=
  Header ParentHeader (fun body => Some (OtherwiseNode body)).

Definition parse_repeat (tokens : list Token) : line_action :=
  let times := first_value ["INTEGER"; "IDENTIFIER"] tokens in
  Header ParentNone (fun body => Some (RepeatNode (Lit times) body)).

Definition parse_do_until (tokens : list Token) : line_action :=
  let cond := first_value literal_types tokens in
  Header ParentHeader (fun body => Some (DoUntilNode (Lit cond) body)).

Definition parse_math_func (tokens : list Token) : line_action :=
  let func_name := option_map ttype (find (type_in math_types) tokens) in
  Leaf (Some (MathFuncNode func_name
                (map Lit (all_values ["INTEGER"; "FLOAT"; "IDENTIFIER"] tokens)))).

Definition parse_file (tokens : list Token) : line_action :=
  let strs := all_values ["STRING"] tokens in
  let fr := file_find_replace tokens in
  Leaf (Some (FileNode
    {| action := file_action tokens;
       filename := match last strs with Some v => as_name v | None => None end;
       text := match strs with _ :: t :: _ => as_name t | _ => None end;
       at_first := has_type "AT_FIRST" tokens;
       find_text := fst fr;
       replace_text := snd fr;
       old_name := None;
       new_name := None |})).

Definition parse_getter (tokens : list Token) : line_action :=
  let target := first_value ["IDENTIFIER"; "STRING"] tokens in
  let mode := find_mode tokens in
  Leaf (if has_type "GET_LENGTH" tokens then Some (GetLengthNode (Lit target))
        else if has_type "GET_CASE" tokens then Some (GetCaseNode (Lit target) mode)
        else if has_type "GET_TYPE" tokens then Some (GetTypeNode (Lit target))
        else None).

Definition parse_import (tokens : list Token) : line_action :=
  Leaf (Some (ImportNode (names_of (all_values ["IDENTIFIER"] tokens))
                (match last (all_values ["STRING"] tokens) with
                 | Some v => as_name v
                 | None => None
                 end))).

Definition parse_export (tokens : list Token) : line_action :=
  Leaf (Some (ExportNode (names_of (all_values ["IDENTIFIER"] tokens)))).

(** [tok == other] for an [IDENTIFIER] token [tok] (namedtuple equality). *)
Definition same_identifier (tok other : Token) : bool :=
  is_type "IDENTIFIER" other &&
  match tvalue tok, tvalue other with
  | VStr a, VStr b => String.eqb a b
  | _, _ => false
  end.

(** Every identifier of the line is a key; its value is the first
    value-like token after the key's first occurrence. *)
Definition dictionary_elements (tokens : list Token) : list (name * expr) :=
  fold_left (fun els tok =>
    if is_type "IDENTIFIER" tok then
      match find (type_in element_types)
              (default [] (after_first (same_identifier tok) tokens)) with
      | Some r => assoc_set (as_name (tvalue tok)) (Lit (tvalue r)) els
      | None => els
      end
    else els) tokens [].

Definition parse_dictionary (tokens : list Token) : line_action :=
  Leaf (Some (DictionaryNode (as_name (first_value ["IDENTIFIER"] tokens))
                (dictionary_elements tokens))).

(** The dispatch of [parse_statement] on a line's tokens: the first test
    that succeeds picks the statement parser; a line that passes none is
    skipped. *)
Definition classify (tokens : list Token) : line_action :=
  match tokens with
  | [] => Leaf None
  | t0 :: rest =>
      if has_type "DISPLAY" tokens then parse_display tokens
      else if has_type "INTERACT" tokens then parse_interact tokens
      else if has_type "CREATE_LIST" tokens then parse_list tokens
      else if has_type "ADD" tokens
              && existsb (fun t => is_type "IDENTIFIER" t &&
                            match tvalue t with
                            | VStr s => String.eqb (lower s) "list"
                            | _ => false
                            end) tokens
      then parse_list_add tokens
      else if has_type "FOREACH" tokens then parse_for_each tokens
      else if has_any_type variable_types tokens then parse_variable_statement tokens
      else if has_type "DEFINE_FUNCTION" tokens then parse_function_def tokens
      else if has_type "CALL_FUNCTION" tokens
              || (is_type "IDENTIFIER" t0
                  && match rest with t1 :: _ => is_type "(" t1 | [] => false end)
      then parse_function_call tokens
      else if has_type "ABBREV_FUNCTION" tokens then parse_function_abbrev tokens
      else if has_type "IF" tokens then parse_if tokens
      else if has_type "ORIF" tokens then parse_or_if tokens
      else if has_type "OTHERWISE" tokens then parse_otherwise tokens
      else if has_type "REPEAT" tokens then parse_repeat tokens
      else if has_type "DOUNTIL" tokens then parse_do_until tokens
      else if has_any_type math_types tokens then parse_math_func tokens
      else if existsb (type_startswith "FILE") tokens then parse_file tokens
      else if has_any_type ["GET_LENGTH"; "GET_CASE"; "GET_TYPE"] tokens
      then parse_getter tokens
      else if has_type "IMPORT" tokens then parse_import tokens
      else if has_type "EXPORTS" tokens then parse_export tokens
      else if has_type "CREATE_DICT" tokens || has_type "CONTAINING" tokens
      then parse_dictionary tokens
      else Leaf None
  end.

End PyParser.

(** ** The caml-code parser *)

Module CamlParser.

(** [IGNORED_TOKEN_TYPES] *)
Definition IGNORED_TOKEN_TYPES : list string := ["IGNORED"; "DOT"].

Definition _filtered_tokens (tokens : list Token) : list Token :=
  filter (fun t => (negb (String.eqb (ttype t) "")
                    && negb (type_in IGNORED_TOKEN_TYPES t)) = true) tokens.

(** The values of the element-type tokens up to the first [)] token. *)
Fixpoint values_until_close (tokens : list Token) : list value :=
  match tokens with
  | [] => []
  | t :: rest =>
      if is_type ")" t then []
      else if type_in element_types t then tvalue t :: values_until_close rest
      else values_until_close rest
  end.

(** The name and the arguments after the first [CALL_FUNCTION] token. *)
Definition explicit_call (tokens : list Token) : option (value * list value) :=
  match after_first (is_type "CALL_FUNCTION") tokens with
  | None => None
  | Some rest =>
      match find (type_in ["STRING"; "IDENTIFIER"]) rest with
      | None => None
      | Some t =>
          Some (tvalue t,
                all_values element_types
                  (default [] (after_first (type_in ["STRING"; "IDENTIFIER"]) rest)))
      end
  end.

(** The call that starts at the first identifier: [name(...)] or
    [name arg arg]. *)
Definition identifier_call (tokens : list Token) : option (value * list value) :=
  match find (is_type "IDENTIFIER") tokens with
  | None => None
  | Some t =>
      let rest := default [] (after_first (is_type "IDENTIFIER") tokens) in
      match rest with
      | u :: inner =>
          if is_type "(" u then Some (tvalue t, values_until_close inner)
          else Some (tvalue t, all_values element_types rest)
      | [] => Some (tvalue t, [])
      end
  end.

Definition _build_function_call_from_tokens (tokens : list Token) : name * list expr :=
  match tokens with
  | [] => (None, [])
  | _ =>
      match explicit_call tokens with
      | Some (n, args) => (as_name n, map Lit args)
      | None =>
          match identifier_call tokens with
          | Some (n, args) => (as_name n, map Lit args)
          | None => (None, [])
          end
      end
  end.

Definition parse_display (tokens : list Token) : line_action :=
  let bold := has_type "PLUS_BOLD" tokens in
  if has_type "CALL_FUNCTION" tokens || has_type "(" tokens
  then let '(n, args) := _build_function_call_from_tokens tokens in
       Leaf (Some (DisplayNode (Call n args) bold))
  else Leaf (Some (DisplayNode (Lit (first_value literal_types tokens)) bold)).

Definition parse_interact (tokens : list Token) : line_action :=
  let bold := has_type "PLUS_BOLD" tokens in
  Leaf (Some (InteractNode (Lit (first_value ["STRING"; "IDENTIFIER"] tokens)) bold)).

Definition parse_window (tokens : list Token) : line_action :=
  let n := as_name (first_value ["IDENTIFIER"; "STRING"] tokens) in
  Header ParentHeader (fun body => Some (ObjectNode n body true)).

Definition parse_button (tokens : list Token) : line_action :=
  let n := as_name (first_value ["IDENTIFIER"] tokens) in
  let parent := match value_after "IN" (is_type "IDENTIFIER") tokens with
                | Some v => as_name v
                | None => None
                end in
  Header ParentHeader (fun body => Some (ButtonNode n parent body)).

(** The identifiers between a [(] and the next [)]. *)
Fixpoint parenthesized_identifiers (collecting : bool) (tokens : list Token)
    : list value :=
  match tokens with
  | [] => []
  | t :: rest =>
      if is_type "(" t then parenthesized_identifiers true rest
      else if is_type ")" t then parenthesized_identifiers false rest
      else if collecting && is_type "IDENTIFIER" t
      then tvalue t :: parenthesized_identifiers collecting rest
      else parenthesized_identifiers collecting rest
  end.

Definition parse_function_def (tokens : list Token) : line_action :=
  let fname := as_name (first_value ["STRING"; "IDENTIFIER"] tokens) in
  let args := if has_type "(" tokens
              then names_of (parenthesized_identifiers false tokens)
              else [] in
  Header ParentHeader (fun body => Some (FunctionDefNode fname args body)).

Definition parse_function_call (tokens : list Token) : line_action :=
  let '(n, args) := _build_function_call_from_tokens tokens in
  Leaf (Some (FunctionCallNode n args)).

Definition parse_function_abbrev (tokens : list Token) : line_action :=
  let names := all_values ["STRING"; "IDENTIFIER"] tokens in
  match names with
  | [] => Leaf (Some (FunctionAbbrevNode None None))
  | o :: rest =>
      Leaf (Some (FunctionAbbrevNode (as_name o)
                    (match last rest with Some v => as_name v | None => None end)))
  end.

Definition var_and_value (tokens : list Token) : name * value :=
  match find (is_type "IDENTIFIER") tokens with
  | None => (None, VNone)
  | Some t =>
      (as_name (tvalue t),
       or_none (value_after "TO" any_token
                  (default [] (after_first (is_type "IDENTIFIER") tokens))))
  end.

Definition parse_variable_statement (tokens : list Token) : line_action :=
  Leaf
    (if has_type "ASSIGN" tokens then PyParser.parse_assign tokens
     else if has_type "SET" tokens then
       let '(var, val) := var_and_value tokens in Some (SetNode var (Lit val))
     else if has_type "CHANGE" tokens then
       let '(var, val) := var_and_value tokens in Some (ChangeNode var (Lit val))
     else if has_any_type arith_types tokens then PyParser.parse_arith tokens
     else if has_type "BLOCK" tokens then
       match find (is_type "IDENTIFIER") tokens with
       | Some t => Some (BlockVarNode (as_name (tvalue t)))
       | None => None
       end
     else None).

Definition parse_list (tokens : list Token) : line_action :=
  Leaf (Some (ListNode (as_name (first_value ["IDENTIFIER"] tokens))
                (map Lit (all_values element_types tokens)))).

Definition parse_list_add (tokens : list Token) : line_action :=
  Leaf (Some (ListAddNode
                (match last (all_values ["IDENTIFIER"] tokens) with
                 | Some v => as_name v
                 | None => None
                 end)
                (Lit (first_value element_types tokens)))).

Definition parse_if (tokens : list Token) : line_action :=
  let cond := first_value literal_types tokens in
  Header ParentHeader (fun body => Some (IfNode (Lit cond) body)).

Definition parse_or_if (tokens : list Token) : line_action :=
  let cond := first_value literal_types tokens in
  Header ParentHeader (fun body => Some (OrIfNode (Lit cond) body)).

Definition parse_otherwise (tokens : list Token) : line_action :=
  Header ParentHeader (fun body => Some (OtherwiseNode body)).

Definition parse_repeat (tokens : list Token) : line_action :=
  let times := first_value ["INTEGER"; "IDENTIFIER"] tokens in
  Header ParentHeader (fun body => Some (RepeatNode (Lit times) body)).

Definition parse_do_until (tokens : list Token) : line_action :=
  let cond := first_value literal_types tokens in
  Header ParentHeader (fun body => Some (DoUntilNode (Lit cond) body)).

Definition parse_for_each (tokens : list Token) : line_action :=
  let var_name := as_name (first_value ["IDENTIFIER"] tokens) in
  let iterable :=
    match last_value_after "IN" (is_type "IDENTIFIER") tokens None with
    | Some v => as_name v
    | None => None
    end in
  Header ParentHeader (fun body => Some (ForEachNode var_name iterable body)).

Definition parse_math_func (tokens : list Token) : line_action :=
  let func := fold_left (fun acc t => if type_in math_types t then Some (ttype t) else acc)
                tokens None in
  Leaf (Some (MathFuncNode func
                (map Lit (all_values ["INTEGER"; "FLOAT"; "IDENTIFIER"] tokens)))).

Definition parse_file (tokens : list Token) : line_action :=
  let strs := all_values ["STRING"] tokens in
  let fr := file_find_replace tokens in
  Leaf (Some (FileNode
    {| action := file_action tokens;
       filename := match strs with f :: _ => as_name f | [] => None end;
       text := match strs with
               | _ :: later => match last later with Some v => as_name v | None => None end
               | [] => None
               end;
       at_first := has_type "AT_FIRST" tokens;
       find_text := fst fr;
       replace_text := snd fr;
       old_name := None;
       new_name := None |})).

Definition parse_getter (tokens : list Token) : line_action :=
  let target := first_value ["IDENTIFIER"; "STRING"] tokens in
  let mode := find_mode tokens in
  Leaf (if has_type "GET_LENGTH" tokens then Some (GetLengthNode (Lit target))
        else if has_type "GET_CASE" tokens then Some (GetCaseNode (Lit target) mode)
        else if has_type "GET_TYPE" tokens then Some (GetTypeNode (Lit target))
        else None).

Definition parse_import (tokens : list Token) : line_action :=
  Leaf (Some (ImportNode (names_of (all_values ["IDENTIFIER"] tokens))
                (match last (all_values ["STRING"] tokens) with
                 | Some v => as_name v
                 | None => None
                 end))).

Definition parse_export (tokens : list Token) : line_action :=
  Leaf (Some (ExportNode (names_of (all_values ["IDENTIFIER"] tokens)))).

(** Every identifier of the line is a key; its value is the first
    value-like token after it. *)
Fixpoint dictionary_elements (tokens : list Token) (els : list (name * expr))
    : list (name * expr) :=
  match tokens with
  | [] => els
  | t :: rest =>
      dictionary_elements rest
        (if is_type "IDENTIFIER" t then
           match find (type_in element_types) rest with
           | Some r => assoc_set (as_name (tvalue t)) (Lit (tvalue r)) els
           | None => els
           end
         else els)
  end.

Definition parse_dictionary (tokens : list Token) : line_action :=
  Leaf (Some (DictionaryNode (as_name (first_value ["IDENTIFIER"] tokens))
                (dictionary_elements tokens []))).

(** The dispatch of [parse_statement], on the filtered tokens. *)
Definition dispatch_tokens (tokens : list Token) : line_action :=
  match tokens with
  | [] => Leaf None
  | t0 :: rest =>
      if has_type "DISPLAY" tokens then parse_display tokens
      else if has_type "INTERACT" tokens then parse_interact tokens
      else if has_type "CREATE_WINDOW" tokens || has_type "WINDOW" tokens
      then parse_window tokens
      else if has_type "CREATE_BUTTON" tokens || has_type "BUTTON" tokens
      then parse_button tokens
      else if has_type "CREATE_LIST" tokens then parse_list tokens
      else if has_type "ADD" tokens
              && existsb (fun t => is_type "IDENTIFIER" t &&
                            match tvalue t with
                            | VStr s => String.eqb (lower s) "list"
                            | _ => false
                            end) tokens
      then parse_list_add tokens
      else if has_any_type variable_types tokens then parse_variable_statement tokens
      else if has_type "DEFINE_FUNCTION" tokens then parse_function_def tokens
      else if has_type "CALL_FUNCTION" tokens
              || (is_type "IDENTIFIER" t0
                  && has_any_type ["INTEGER"; "FLOAT"; "STRING"; "BOOLEAN"] rest)
      then parse_function_call tokens
      else if has_type "ABBREV_FUNCTION" tokens then parse_function_abbrev tokens
      else if has_type "IF" tokens then parse_if tokens
      else if has_type "ORIF" tokens then parse_or_if tokens
      else if has_type "OTHERWISE" tokens then parse_otherwise tokens
      else if has_type "REPEAT" tokens then parse_repeat tokens
      else if has_type "DOUNTIL" tokens then parse_do_until tokens
      else if has_type "FOREACH" tokens then parse_for_each tokens
      else if has_any_type math_types tokens then parse_math_func tokens
      else if existsb (type_startswith "FILE") tokens then parse_file tokens
      else if has_any_type ["GET_LENGTH"; "GET_CASE"; "GET_TYPE"] tokens
      then parse_getter tokens
      else if has_type "IMPORT" tokens then parse_import tokens
      else if has_type "EXPORTS" tokens then parse_export tokens
      else if has_type "CREATE_DICT" tokens || has_type "CONTAINING" tokens
      then parse_dictionary tokens
      else Leaf None
  end.

Definition classify (raw_tokens : list Token) : line_action :=
  dispatch_tokens (_filtered_tokens raw_tokens).

End CamlParser.

(** ** The cursor, the block collector and the statement loop

    Both parsers move one cursor [pos] over the token lines.  A parser
    function returns its result with the new cursor, or [None] when the
    fuel that bounds the nesting and the loops ran out. *)

Definition presult (A : Type) : Type := option (A * nat).

Definition classify_of (p : dialect) : list Token -> line_action :=
  match p with
  | python_code => PyParser.classify
  | caml_code => CamlParser.classify
  end.

Section Parser.

Variable p : dialect.
Variable token_lines : list token_line.

Definition total : nat := length token_lines.

(** [self.token_lines[pos][0]] *)
Definition indent_at (pos : nat) : option nat :=
  match token_lines !! pos with
  | Some (indent, _) => Some indent
  | None => None
  end.

Section Step.

Variable self_parse_statement : nat -> presult (option stmt).
Variable loop_fuel : nat.

(** [while self.pos < self.total and self.token_lines[self.pos][0] >= base_indent] *)
Fixpoint block_loop (fuel : nat) (base_indent : nat) (pos : nat)
    : presult (list stmt) :=
  match fuel with
  | O => None
  | S fuel' =>
      match indent_at pos with
      | None => Some ([], pos)
      | Some indent =>
          if Nat.leb base_indent indent then
            match self_parse_statement pos with
            | None => None
            | Some (node, pos') =>
                match block_loop fuel' base_indent pos' with
                | None => None
                | Some (block, pos'') =>
                    Some (match node with
                          | Some n => n :: block
                          | None => block
                          end, pos'')
                end
            end
          else Some ([], pos)
      end
  end.

(** [_collect_block(parent_indent)], called with the cursor just past
    the header.  Only the python_code copy is ever called with [None]
    and resolves it to the indentation of the line before the cursor. *)
Definition _collect_block (parent_indent : option nat) (pos : nat)
    : presult (list stmt) :=
  match indent_at pos with
  | None => Some ([], pos)
  | Some next_indent =>
      let parent :=
        match parent_indent with
        | Some i => i
        | None => match pos with
                  | O => 0
                  | S prev => default 0 (indent_at prev)
                  end
        end in
      if Nat.leb next_indent parent then Some ([], pos)
      else block_loop loop_fuel next_indent pos
  end.

(** One statement: the line under the cursor is consumed, and the block
    of a block-bearing statement is collected after it. *)
Definition parse_statement_step (pos : nat) : presult (option stmt) :=
  match token_lines !! pos with
  | None => Some (None, pos)
  | Some (indent, tokens) =>
      match classify_of p tokens with
      | Leaf node => Some (node, S pos)
      | Header parent build =>
          let parent_indent :=
            match parent with
            | ParentHeader => Some indent
            | ParentNone => None
            | ParentNext => Some (default 0 (indent_at (S pos)))
            end in
          match _collect_block parent_indent (S pos) with
          | None => None
          | Some (body, pos') => Some (build body, pos')
          end
      end
  end.

End Step.

Fixpoint parse_statement (fuel : nat) (pos : nat) : presult (option stmt) :=
  match fuel with
  | O => None
  | S fuel' => parse_statement_step (parse_statement fuel') fuel' pos
  end.

(** [while self.pos < self.total: node = self.parse_statement() ...] *)
Fixpoint parse_loop (fuel : nat) (steps : nat) (pos : nat) : presult (list stmt) :=
  match steps with
  | O => None
  | S steps' =>
      if Nat.ltb pos total then
        match parse_statement fuel pos with
        | None => None
        | Some (node, pos') =>
            match parse_loop fuel steps' pos' with
            | None => None
            | Some (ast, pos'') =>
                Some (match node with
                      | Some n => n :: ast
                      | None => ast
                      end, pos'')
            end
        end
      else Some ([], pos)
  end.

(** [Parser.parse] *)
Definition parse (fuel : nat) : option (list stmt) :=
  match parse_loop fuel fuel 0 with
  | Some (ast, _) => Some ast
  | None => None
  end.

End Parser.

(** * The lexer ([lexer.py])

    Source text is a [string] of ASCII characters.  The regular expressions
    of the source are written out as the scans they perform. *)

(** ** Operations of the runtime on text *)

(** [s[n:]] and [s[:n]] *)
Fixpoint drop_str (n : nat) (s : string) : string :=
  match n, s with
  | S n', String _ rest => drop_str n' rest
  | _, _ => s
  end.

Fixpoint take_str (n : nat) (s : string) : string :=
  match n, s with
  | S n', String c rest => String c (take_str n' rest)
  | _, _ => EmptyString
  end.

(** [s.lstrip(chars)], [s.rstrip(chars)], [s.strip(chars)] for the
    characters that satisfy [p]. *)
Fixpoint lstrip_p (p : ascii -> bool) (s : string) : string :=
  match s with
  | String c rest => if p c then lstrip_p p rest else s
  | EmptyString => EmptyString
  end.

Fixpoint rstrip_p (p : ascii -> bool) (s : string) : string :=
  match s with
  | EmptyString => EmptyString
  | String c rest =>
      match rstrip_p p rest with
      | EmptyString => if p c then EmptyString else String c EmptyString
      | kept => String c kept
      end
  end.

Definition strip_p (p : ascii -> bool) (s : string) : string :=
  rstrip_p p (lstrip_p p s).

(** [s.strip()] *)
Definition strip (s : string) : string := strip_p isspace s.

Definition is_space_char (c : ascii) : bool := Ascii.eqb c " ".

(** [len(s) - len(s.lstrip(' '))] *)
Fixpoint leading_spaces (s : string) : nat :=
  match s with
  | String c rest => if is_space_char c then S (leading_spaces rest) else 0
  | EmptyString => 0
  end.

(** [s.split(sep)] for a single character [sep]. *)
Fixpoint split_char (sep : ascii) (s : string) (cur : string) : list string :=
  match s with
  | EmptyString => [cur]
  | String c rest =>
      if Ascii.eqb c sep then cur :: split_char sep rest ""
      else split_char sep rest (cur +:+ String c "")
  end.

(** [s[:s.index(c)]] when [c] occurs in [s], and [s] otherwise. *)
Fixpoint before_char (c : ascii) (s : string) : string :=
  match s with
  | EmptyString => EmptyString
  | String x rest => if Ascii.eqb x c then EmptyString else String x (before_char c rest)
  end.

Definition contains_char (c : ascii) (s : string) : bool := any_char (Ascii.eqb c) s.

Definition CR : ascii := ascii_of_nat 13.
Definition LF : ascii := ascii_of_nat 10.
Definition quote : ascii := ascii_of_nat 34.
Definition backslash : ascii := ascii_of_nat 92.
Definition dollar : ascii := "$"%char.

(** [text.replace('\r\n', '\n')] *)
Fixpoint replace_crlf (s : string) : string :=
  match s with
  | EmptyString => EmptyString
  | String c rest =>
      match rest with
      | String c2 rest2 =>
          if Ascii.eqb c CR && Ascii.eqb c2 LF then String LF (replace_crlf rest2)
          else String c (replace_crlf rest)
      | EmptyString => String c EmptyString
      end
  end.

(** [text.replace('\r\n', '\n').replace('\r', '\n')] *)
Definition normalize_newlines (s : string) : string :=
  str_map (fun c => if Ascii.eqb c CR then LF else c) (replace_crlf s).

(** ** Hiding and restoring string literals *)

(** The pattern [string_pattern] (a double quote, then any run of escaped
    characters and of characters other than the quote and the backslash,
    then a double quote) after its opening quote: the literal ends at the
    first quote that no backslash escapes; a backslash takes the next
    character with it, which must exist and not be a newline. *)
Fixpoint match_string_body (s : string) (acc : string) : option (string * string) :=
  match s with
  | EmptyString => None
  | String c rest =>
      if Ascii.eqb c quote then Some (acc +:+ String quote "", rest)
      else if Ascii.eqb c backslash then
        match rest with
        | String c2 rest2 =>
            if Ascii.eqb c2 LF then None
            else match_string_body rest2 (acc +:+ String c (String c2 ""))
        | EmptyString => None
        end
      else match_string_body rest (acc +:+ String c "")
  end.

(** [f'__STR_{n}__'] *)
Definition placeholder (n : nat) : string :=
  "__STR_" +:+ str_of_Z (Z.of_nat n) +:+ "__".

(** [string_pattern.sub(hide, text)]: every literal, leftmost first, is
    replaced by its placeholder and appended to [strings]. *)
Fixpoint hide_strings (fuel : nat) (s : string) (strings : list string)
    : string * list string :=
  match fuel with
  | O => (s, strings)
  | S fuel' =>
      match s with
      | EmptyString => (EmptyString, strings)
      | String c rest =>
          match (if Ascii.eqb c quote then match_string_body rest (String quote "")
                 else None) with
          | Some (lit, after) =>
              let '(out, strs) := hide_strings fuel' after (strings ++ [lit]) in
              (placeholder (length strings) +:+ out, strs)
          | None =>
              let '(out, strs) := hide_strings fuel' rest strings in
              (String c out, strs)
          end
      end
  end.

Definition hide (text : string) : string * list string :=
  hide_strings (S (String.length text)) text [].

(** The leading run of decimal digits of [s], and what follows it. *)
Fixpoint span_digits (s : string) : string * string :=
  match s with
  | String c rest =>
      if isdigit c then let '(ds, after) := span_digits rest in (String c ds, after)
      else (EmptyString, s)
  | EmptyString => (EmptyString, EmptyString)
  end.

(** The pattern [__STR_(\d+)__] at the start of [s]: the index and the
    text after the match. *)
Definition match_placeholder (s : string) : option (nat * string) :=
  if String.prefix "__STR_" s then
    let '(ds, after) := span_digits (drop_str 6 s) in
    if negb (String.eqb ds "") && String.prefix "__" after
    then Some (Z.to_nat (digits_value ds 0), drop_str 2 after)
    else None
  else None.

(** [re.sub(r'__STR_(\d+)__', restore, text)]; [None] stands for the
    [IndexError] of [strings[idx]] on an index that hides no string. *)
Fixpoint restore_strings (fuel : nat) (strings : list string) (s : string)
    : option string :=
  match fuel with
  | O => Some s
  | S fuel' =>
      match s with
      | EmptyString => Some EmptyString
      | String c rest =>
          match match_placeholder s with
          | Some (idx, after) =>
              match strings !! idx, restore_strings fuel' strings after with
              | Some lit, Some out => Some (lit +:+ out)
              | _, _ => None
              end
          | None =>
              match restore_strings fuel' strings rest with
              | Some out => Some (String c out)
              | None => None
              end
          end
      end
  end.

Definition restore (strings : list string) (text : string) : option string :=
  restore_strings (S (String.length text)) strings text.

(** ** Articles and periods (python_code) *)

(** [\w] *)
Definition is_word_char (c : ascii) : bool :=
  isalpha c || isdigit c || Ascii.eqb c "_".

(** [\b] between the end of a match and the text [after] it. *)
Definition boundary_after (after : string) : bool :=
  match after with
  | EmptyString => true
  | String c _ => negb (is_word_char c)
  end.

(** The pattern [(the|a|an)\b], ignoring case, at the start of [s]: the
    text after the match, and the last character matched. *)
Definition match_article (s : string) : option (string * ascii) :=
  let try_word (w : string) : option (string * ascii) :=
    let n := String.length w in
    if String.eqb (lower (take_str n s)) w && boundary_after (drop_str n s)
    then match String.get (n - 1) s with
         | Some c => Some (drop_str n s, c)
         | None => None
         end
    else None in
  match try_word "the" with
  | Some r => Some r
  | None => match try_word "a" with
            | Some r => Some r
            | None => try_word "an"
            end
  end.

(** [re.sub(r'\b(the|a|an)\b', '', text, flags=re.IGNORECASE)]; [prev] is
    the character before [s], if any. *)
Fixpoint remove_articles (fuel : nat) (prev : option ascii) (s : string) : string :=
  match fuel with
  | O => s
  | S fuel' =>
      match s with
      | EmptyString => EmptyString
      | String c rest =>
          let at_boundary := match prev with
                             | None => true
                             | Some q => negb (is_word_char q)
                             end in
          match (if at_boundary then match_article s else None) with
          | Some (after, last_char) => remove_articles fuel' (Some last_char) after
          | None => String c (remove_articles fuel' (Some c) rest)
          end
      end
  end.

(** [text.replace('.', '')] *)
Fixpoint remove_periods (s : string) : string :=
  match s with
  | EmptyString => EmptyString
  | String c rest =>
      if Ascii.eqb c "." then remove_periods rest else String c (remove_periods rest)
  end.

(** ** Comments *)

(** The loop over the lines that drops block comments and cuts line
    comments; both copies run it, the python_code copy on the text with its
    strings restored, the caml-code copy on the text with them hidden. *)
Fixpoint strip_comments (lines : list string) (in_block : bool) : list string :=
  match lines with
  | [] => []
  | ln :: rest =>
      if String.prefix "$$$" (strip ln) then strip_comments rest (negb in_block)
      else if in_block then strip_comments rest in_block
      else (if contains_char dollar ln then before_char dollar ln else ln)
           :: strip_comments rest in_block
  end.

(** ** [Lexer._preprocess]: the lines the tokenizer reads *)

Definition py_preprocess (raw : string) : option (list string) :=
  let text := normalize_newlines raw in
  let '(text_hidden, strings) := hide text in
  let text_hidden := remove_articles (S (String.length text_hidden)) None text_hidden in
  let text_hidden := remove_periods text_hidden in
  match restore strings text_hidden with
  | None => None
  | Some text => Some (strip_comments (split_char LF text "") false)
  end.

Definition caml_preprocess (raw : string) : option (list string) :=
  let text := normalize_newlines raw in
  let '(hidden, strings) := hide text in
  let out_lines := strip_comments (split_char LF hidden "") false in
  match restore strings (join (String LF "") out_lines) with
  | None => None
  | Some restored => Some (split_char LF restored "")
  end.

Definition _preprocess (d : dialect) (raw : string) : option (list string) :=
  match d with
  | python_code => py_preprocess raw
  | caml_code => caml_preprocess raw
  end.

(** ** The keyword tables ([self.keywords]) *)

Definition py_keywords : list (string * string) :=
  [ ("display", "DISPLAY"); ("interact", "INTERACT"); ("plus bold", "PLUS_BOLD");
    ("assign", "ASSIGN"); ("set variable", "SET"); ("set", "SET");
    ("change", "CHANGE"); ("increase", "INCREASE"); ("decrease", "DECREASE");
    ("multiply", "MULTIPLY"); ("divide", "DIVIDE"); ("exponentiate", "EXPONENTIATE");
    ("block", "BLOCK"); ("to", "TO"); ("by", "BY");
    ("define function", "DEFINE_FUNCTION"); ("which takes", "WHICH_TAKES");
    ("which does", "WHICH_DOES"); ("call function", "CALL_FUNCTION");
    ("call", "CALL_FUNCTION"); ("abbreviate function", "ABBREV_FUNCTION");
    ("abbreviate", "ABBREV_FUNCTION");
    ("if", "IF"); ("or if", "ORIF"); ("otherwise", "OTHERWISE");
    ("repeat this", "REPEAT"); ("times", "TIMES"); ("do this until", "DOUNTIL");
    ("for each", "FOREACH"); ("in", "IN"); ("do", "DO");
    ("square of", "SQUARE"); ("squareroot of", "SQUAREROOT"); ("gcd(", "GCD");
    ("lcm(", "LCM"); ("generate random int", "RANDOM_INT");
    ("create list", "CREATE_LIST"); ("containing contents", "CONTENTS");
    ("add", "ADD"); ("remove", "REMOVE"); ("create dictionary", "CREATE_DICT");
    ("containing", "CONTAINING");
    ("create object", "CREATE_OBJECT"); ("delete", "DELETE");
    ("add function", "ADD_FUNCTION");
    ("create new file", "FILE_CREATE"); ("delete file", "FILE_DELETE");
    ("write", "FILE_WRITE"); ("find", "FILE_FIND"); ("replace", "FILE_REPLACE");
    ("rename file", "FILE_RENAME"); ("access file", "FILE_ACCESS");
    ("at first line", "AT_FIRST");
    ("get length of", "GET_LENGTH"); ("get case of", "GET_CASE");
    ("get data type of", "GET_TYPE"); ("get data type", "GET_TYPE");
    ("import", "IMPORT"); ("exports are", "EXPORTS"); ("exports", "EXPORTS");
    ("true", "BOOLEAN"); ("false", "BOOLEAN"); ("null", "NULL");
    ("undefined", "NULL");
    ("and", "AND"); ("or", "OR"); ("except", "EXCEPT"); ("is equal to", "EQ");
    ("is greater than", "GT"); ("is less than", "LT");
    ("==", "EQSYM"); ("!==", "NEQSYM"); ("!=", "NEQSYM"); ("~==", "CLOSEEST");
    ("~", "ESTIMATE") ].

Definition caml_keywords : list (string * string) :=
  [ ("display", "DISPLAY"); ("interact", "INTERACT"); ("plus bold", "PLUS_BOLD");
    ("assign", "ASSIGN"); ("set variable", "SET"); ("set", "SET");
    ("change", "CHANGE"); ("increase", "INCREASE"); ("decrease", "DECREASE");
    ("multiply", "MULTIPLY"); ("divide", "DIVIDE"); ("exponentiate", "EXPONENTIATE");
    ("block", "BLOCK"); ("to", "TO"); ("by", "BY");
    ("define function", "DEFINE_FUNCTION"); ("which takes", "WHICH_TAKES");
    ("which does", "WHICH_DOES"); ("call function", "CALL_FUNCTION");
    ("call", "CALL_FUNCTION"); ("abbreviate function", "ABBREV_FUNCTION");
    ("abbreviate", "ABBREV_FUNCTION");
    ("if", "IF"); ("or if", "ORIF"); ("otherwise", "OTHERWISE");
    ("repeat this", "REPEAT"); ("times", "TIMES"); ("do this until", "DOUNTIL");
    ("for each", "FOREACH"); ("in", "IN"); ("do", "DO");
    ("square of", "SQUARE"); ("squareroot of", "SQUAREROOT"); ("gcd(", "GCD");
    ("lcm(", "LCM"); ("generate random int", "RANDOM_INT");
    ("create list", "CREATE_LIST"); ("containing contents", "CONTENTS");
    ("add", "ADD"); ("remove", "REMOVE"); ("create dictionary", "CREATE_DICT");
    ("containing", "CONTAINING");
    ("create object", "CREATE_OBJECT"); ("create window", "CREATE_WINDOW");
    ("create a new button", "CREATE_BUTTON"); ("create button", "CREATE_BUTTON");
    ("window", "WINDOW"); ("button", "BUTTON"); ("delete", "DELETE");
    ("add function", "ADD_FUNCTION");
    ("create new file", "FILE_CREATE"); ("delete file", "FILE_DELETE");
    ("write", "FILE_WRITE"); ("find", "FILE_FIND"); ("replace", "FILE_REPLACE");
    ("rename file", "FILE_RENAME"); ("access file", "FILE_ACCESS");
    ("at first line", "AT_FIRST");
    ("get length of", "GET_LENGTH"); ("get case of", "GET_CASE");
    ("get data type of", "GET_TYPE");
    ("import", "IMPORT"); ("exports are", "EXPORTS"); ("exports", "EXPORTS");
    ("true", "BOOLEAN"); ("false", "BOOLEAN"); ("null", "NULL");
    ("undefined", "NULL");
    ("and", "AND"); ("or", "OR"); ("except", "EXCEPT"); ("is equal to", "EQ");
    ("is greater than", "GT"); ("is less than", "LT"); ("return", "RETURN") ].

(** [self.keywords.get(phrase)] *)
Definition keyword (table : list (string * string)) (phrase : string) : option string :=
  option_map snd (find (fun kv => String.eqb (fst kv) phrase) table).

(** [self.filler_words] *)
Definition filler_words : list string := ["the"; "a"; "an"].

(** ** Scans of one line *)

(** The characters of [' ,:()'], stripped from a candidate phrase. *)
Definition phrase_trim (c : ascii) : bool :=
  existsb (Ascii.eqb c) [" "; ","; ":"; "("; ")"]%char.

(** The python_code scan of a string literal, from just after the opening
    quote: it ends at the first quote whose previous character is not a
    backslash. *)
Fixpoint py_string_end (s : string) (prev : ascii) (acc : string)
    : option (string * string) :=
  match s with
  | EmptyString => None
  | String c rest =>
      if Ascii.eqb c quote && negb (Ascii.eqb prev backslash) then Some (acc, rest)
      else py_string_end rest c (acc +:+ String c "")
  end.

(** The caml-code scan, with its [escaped] flag. *)
Fixpoint caml_string_end (s : string) (escaped : bool) (acc : string)
    : option (string * string) :=
  match s with
  | EmptyString => None
  | String c rest =>
      if Ascii.eqb c quote && negb escaped then Some (acc, rest)
      else caml_string_end rest (Ascii.eqb c backslash && negb escaped)
             (acc +:+ String c "")
  end.

(** The contents of the literal, and the rest of the line; an unterminated
    literal runs to the end of the line. *)
Definition string_literal (d : dialect) (after_quote : string) : string * string :=
  match (match d with
         | python_code => py_string_end after_quote quote ""
         | caml_code => caml_string_end after_quote false ""
         end) with
  | Some r => r
  | None => (after_quote, EmptyString)
  end.

(** The pattern [-?\d+(\.\d+)?] at the start of [s]: the sign, the integer
    digits, the fraction digits if any, and the rest. *)
Definition match_number (s : string) : option (bool * string * option string * string) :=
  let '(neg, s1) := match s with
                    | String "-" r => (true, r)
                    | _ => (false, s)
                    end in
  let '(ip, s2) := span_digits s1 in
  if String.eqb ip "" then None
  else match s2 with
       | String "." r =>
           let '(fp, s3) := span_digits r in
           if String.eqb fp "" then Some (neg, ip, None, s2)
           else Some (neg, ip, Some fp, s3)
       | _ => Some (neg, ip, None, s2)
       end.

(** [float(num)] for a decimal numeral: the nearest double to
    [digits / 10^k], ties to even. *)
Definition float_of_decimal (neg : bool) (ip fp : string) : float :=
  match digits_value (ip +:+ fp) 0 with
  | Zpos m =>
      SF2Prim (SFdiv prec emax (S754_finite neg m 0)
                 (S754_finite false (Pos.pow 10 (Pos.of_nat (String.length fp))) 0))
  | _ => if neg then PrimFloat.opp PrimFloat.zero else PrimFloat.zero
  end.

Definition number_token (neg : bool) (ip : string) (fp : option string) : Token :=
  match fp with
  | Some f => tok "FLOAT" (VFloat (float_of_decimal neg ip f))
  | None =>
      tok "INTEGER" (VInt (if neg then - digits_value ip 0 else digits_value ip 0)%Z)
  end.

(** The number branch: entered on a digit, or on a minus sign followed by
    a digit. *)
Definition scan_number (s : string) : option (Token * string) :=
  match s with
  | String ch rest =>
      if isdigit ch
         || (Ascii.eqb ch "-"
             && match rest with String c2 _ => isdigit c2 | EmptyString => false end)
      then match match_number s with
           | Some (neg, ip, fp, after) => Some (number_token neg ip fp, after)
           | None => None
           end
      else None
  | EmptyString => None
  end.

(** The leading run of characters that satisfy [p]. *)
Fixpoint span_chars (p : ascii -> bool) (s : string) : string :=
  match s with
  | String c rest => if p c then String c (span_chars p rest) else EmptyString
  | EmptyString => EmptyString
  end.

(** The word patterns: a run of characters other than white space and the
    delimiters of the copy. *)
Definition word_char (d : dialect) (c : ascii) : bool :=
  negb (isspace c)
  && negb (existsb (Ascii.eqb c)
             match d with
             | python_code => [","; "("; ")"; ":"]%char
             | caml_code => [","; "("; ")"; ":"; "+"; "*"; "/"; "^"]%char
             end).

(** The longest keyword phrase at the start of the line: the candidate
    window lengths are tried from the longest down. *)
Fixpoint longest_phrase (table : list (string * string)) (parts : list string)
    (lengths : list nat) : option (string * nat) :=
  match lengths with
  | [] => None
  | n :: shorter =>
      if Nat.leb n (length parts) then
        let cand := lower (strip_p phrase_trim (join " " (take n parts))) in
        match keyword table cand with
        | Some _ => Some (cand, n)
        | None => longest_phrase table parts shorter
        end
      else longest_phrase table parts shorter
  end.

(** The word branch of the python_code tokenizer: the token, and the number
    of characters of the line it consumes. *)
Definition py_scan_word (line : string) : option (Token * nat) :=
  let word := span_chars (word_char python_code) line in
  if String.eqb word "" then None
  else
    let lw := lower word in
    let parts := split_ws (lower line) in
    match longest_phrase py_keywords parts [3; 2; 1] with
    | Some (chosen, _) =>
        Some (tok (default "" (keyword py_keywords chosen)) (VStr chosen),
              String.length (join " " (take (length (split_ws chosen)) parts)))
    | None =>
        match keyword py_keywords lw with
        | Some ty => Some (tok ty (VStr lw), String.length word)
        | None => Some (tok "IDENTIFIER" (VStr word), String.length word)
        end
    end.

(** The word branch of the caml-code tokenizer. *)
Definition caml_scan_word (line : string) : option (Token * nat) :=
  let word := span_chars (word_char caml_code) line in
  if String.eqb word "" then None
  else
    let lw := lower word in
    let parts := split_ws (strip line) in
    match longest_phrase caml_keywords parts [4; 3; 2; 1] with
    | Some (chosen, plen) =>
        Some (tok (default "" (keyword caml_keywords chosen)) (VStr chosen),
              String.length (join " " (take plen parts)))
    | None =>
        if existsb (String.eqb lw) filler_words
        then Some (tok "IGNORED" (VStr lw), String.length word)
        else match keyword caml_keywords lw with
             | Some ty => Some (tok ty (VStr lw), String.length word)
             | None => Some (tok "IDENTIFIER" (VStr word), String.length word)
             end
    end.

Definition char_token (ch : ascii) : Token :=
  tok (String ch "") (VStr (String ch "")).

(** The [while i < len(line)] loop of the python_code tokenizer, on the
    rest of the line [line[i:]]. *)
Fixpoint py_scan (fuel : nat) (line : string) : list Token :=
  match fuel with
  | O => []
  | S fuel' =>
      match line with
      | EmptyString => []
      | String ch rest =>
          if Ascii.eqb ch quote then
            let '(s, after) := string_literal python_code rest in
            tok "STRING" (VStr s) :: py_scan fuel' (lstrip_p is_space_char after)
          else
            match scan_number line with
            | Some (t, after) => t :: py_scan fuel' (lstrip_p is_space_char after)
            | None =>
                if existsb (Ascii.eqb ch) ["("; ")"; ","; ":"]%char
                then char_token ch :: py_scan fuel' rest
                else
                  match py_scan_word line with
                  | Some (t, consumed) =>
                      t :: py_scan fuel' (lstrip_p is_space_char (drop_str consumed line))
                  | None => py_scan fuel' rest
                  end
            end
      end
  end.

(** The loop of the caml-code tokenizer. *)
Fixpoint caml_scan (fuel : nat) (line : string) : list Token :=
  match fuel with
  | O => []
  | S fuel' =>
      match line with
      | EmptyString => []
      | String ch rest =>
          if Ascii.eqb ch quote then
            let '(s, after) := string_literal caml_code rest in
            tok "STRING" (VStr s) :: caml_scan fuel' (lstrip_p isspace after)
          else if existsb (Ascii.eqb ch) ["("; ")"; ","; ":"; "+"; "-"; "*"; "/"; "^"]%char
          then char_token ch :: caml_scan fuel' rest
          else if Ascii.eqb ch "."
          then tok "DOT" (VStr ".") :: caml_scan fuel' rest
          else
            match scan_number line with
            | Some (t, after) => t :: caml_scan fuel' (lstrip_p isspace after)
            | None =>
                match caml_scan_word line with
                | Some (t, consumed) =>
                    t :: caml_scan fuel' (lstrip_p isspace (drop_str consumed line))
                | None => caml_scan fuel' rest
                end
            end
      end
  end.

Definition scan_line (d : dialect) (line : string) : list Token :=
  match d with
  | python_code => py_scan (String.length line) line
  | caml_code => caml_scan (String.length line) line
  end.

(** The loop over the lines: blank lines are skipped, the indentation is
    the number of leading spaces, and the stripped line is scanned. *)
Fixpoint tokenize_lines (d : dialect) (lines : list string) : list token_line :=
  match lines with
  | [] => []
  | raw_line :: rest =>
      if String.eqb (strip raw_line) "" then tokenize_lines d rest
      else (leading_spaces raw_line, scan_line d (strip raw_line))
           :: tokenize_lines d rest
  end.

(** [Lexer(code).tokenize()]; [None] stands for the [IndexError] of the
    restoring step. *)
Definition tokenize (d : dialect) (code : string) : option (list token_line) :=
  option_map (tokenize_lines d) (_preprocess d code).

(** ** The whole pipeline ([run_file]) *)

Inductive run_result : Type :=
| LexerIndexError
| ParserOutOfFuel
| Ran (ast : list stmt) (o : outcome unit).

(** [Interpreter().execute(Parser(Lexer(code).tokenize()).parse())], on a
    console that answers with [input]. *)
Definition run (d : dialect) (fuel : nat) (code : string) (input : list in_event)
    : run_result :=
  match tokenize d code with
  | None => LexerIndexError
  | Some token_lines =>
      match parse d token_lines fuel with
      | None => ParserOutOfFuel
      | Some ast => Ran ast (execute d fuel ast (initial_state input))
      end
  end.

(** ** Readings of the specification used in the comparison with the code *)

(** The search order as the data-model section of the specification words
    it: the scalar namespace first, then the lists, then the dicts. *)
Definition lookup_scalar_first (st : state) (s : string) : value :=
  match variables st !! Some s with
  | Some x => x
  | None =>
      match lists st !! Some s with
      | Some l => VList l
      | None =>
          match dicts st !! Some s with
          | Some l => VDict l
          | None => VStr s
          end
      end
  end.

(** A state in which [x] names both a scalar and a list. *)
Definition shadowed_state : state :=
  set_variables (fun vars => <[Some "x" := VInt 1]> vars)
    (set_lists (fun ls => <[Some "x" := 0]> ls)
      (set_list_store (fun _ => [[VInt 2]]) (initial_state []))).

(** The program of scenario E: [If true] with the body [Display "a"],
    then [OrIf true] with the body [Display "b"]. *)
Definition if_orif_program : list stmt :=
  [ IfNode (Lit (VStr "true")) [DisplayNode (Lit (VStr "a")) false];
    OrIfNode (Lit (VStr "true")) [DisplayNode (Lit (VStr "b")) false] ].

(** The first two statements of scenario C: [Assign 10 to x], [Divide x by 0]. *)
Definition assign_x : stmt := AssignNode (Some "x") (Lit (VInt 10)).
Definition divide_x_by_zero : stmt := DivideNode (Some "x") (Lit (VInt 0)).

(** The state after [ListAdd] created the list [n] holding just [val]. *)
Definition with_new_list (n : name) (val : value) (st : state) : state :=
  set_list_store (fun h => h ++ [[val]])
    (set_lists (fun ls => <[n := length (list_store st)]> ls) st).


(** A state with the list [nums] = [1, 2]. *)
Definition nums_state : state :=
  set_lists (fun ls => <[Some "nums" := 0]> ls)
    (set_list_store (fun _ => [[VInt 1; VInt 2]]) (initial_state [])).

(** A state with the scalar [n] = 5. *)
Definition scalar_state : state :=
  set_variables (fun vars => <[Some "n" := VInt 5]> vars) (initial_state []).

(** A function with the parameter [x] whose only body statement is the
    math call [Square of x]. *)
Definition square_body : list stmt :=
  [MathFuncNode (Some "SQUARE") [Lit (VStr "x")]].

Definition square_function (fname : name) : funcdef :=
  {| fd_name := fname; fd_args := ["x"]; fd_body := square_body |}.

(** A state that holds that function under the name [sq] and in which the
    caller has its own scalar [x]. *)
Definition caller_state : state :=
  set_variables (fun vars => <[Some "x" := VStr "mine"]> vars)
    (set_functions (fun fs => <[Some "sq" := square_function (Some "sq")]> fs)
       (initial_state [])).

(** The number of leading lines whose indentation is at least [base]. *)
Fixpoint run_length (base : nat) (lines : list token_line) : nat :=
  match lines with
  | [] => 0
  | l :: rest => if Nat.leb base (fst l) then S (run_length base rest) else 0
  end.

(** The index of the first line at or after [pos] whose indentation is
    less than [base]; the number of lines when there is none. *)
Definition block_end (token_lines : list token_line) (base pos : nat) : nat :=
  pos + run_length base (drop pos token_lines).



(** The token lines of
<<
If true
    Display "a"
    Repeat this 2 times
        Display "b"
    Display "c"
Or if true
  Display "d"
>> *)
Definition nested_lines : list token_line :=
  [ (0, [tok "IF" (VStr "if"); tok "BOOLEAN" (VStr "true")]);
    (4, [tok "DISPLAY" (VStr "display"); tok "STRING" (VStr "a")]);
    (4, [tok "REPEAT" (VStr "repeat this"); tok "INTEGER" (VInt 2);
         tok "TIMES" (VStr "times")]);
    (8, [tok "DISPLAY" (VStr "display"); tok "STRING" (VStr "b")]);
    (4, [tok "DISPLAY" (VStr "display"); tok "STRING" (VStr "c")]);
    (0, [tok "ORIF" (VStr "or if"); tok "BOOLEAN" (VStr "true")]);
    (2, [tok "DISPLAY" (VStr "display"); tok "STRING" (VStr "d")]) ].


(** ** Program texts *)

(** [s] between double quotes. *)
Definition quoted (s : string) : string := String quote s +:+ String quote "".

Definition newline : string := String LF "".

(** The lines of a program text. *)
Definition program (lines : list string) : string := join newline lines.

(** A line that displays a literal holding a comment marker. *)
Definition display_dollar : string := "Display " +:+ quoted "a$b".

(** A line that displays a literal holding an article and a period. *)
Definition display_article : string := "Display " +:+ quoted "the end. a cat".

(** Scenario D, with the parameters [(a, b)]. *)
Definition scenario_D : string :=
  program
    [ "Define function " +:+ quoted "plus" +:+ " which takes (a, b) and does:";
      "    Call function " +:+ quoted "add" +:+ " with arguments (a, b)";
      "Display (Call function " +:+ quoted "plus" +:+ " with arguments (5, 7))" ].

(** Scenario E. *)
Definition scenario_E : string :=
  program
    [ "If true";
      "    Display " +:+ quoted "a";
      "Or if true";
      "    Display " +:+ quoted "b" ].

(** Scenario C, followed by one more statement. *)
Definition scenario_C : string :=
  program [ "Assign 10 to x"; "Divide x by 0"; "Display x" ].

(** A function stored with no parameter and an empty body. *)
Definition empty_function (fname : name) : funcdef :=
  {| fd_name := fname; fd_args := []; fd_body := [] |}.

(** A character that may stand inside a one-line literal without an
    escape: not a double quote, a backslash, a line feed or a carriage
    return. *)
Definition plain_char (c : ascii) : bool :=
  negb (Ascii.eqb c quote) && negb (Ascii.eqb c backslash)
  && negb (Ascii.eqb c LF) && negb (Ascii.eqb c CR).

(** A line, cut at its first comment marker. *)
Definition cut_comment (ln : string) : string :=
  if contains_char dollar ln then before_char dollar ln else ln.

(** ** Notions used to state further properties of the code *)

(** What [_resolve_value] returns for a literal or an identifier that the
    parser stored in a node: a string is looked up as a name, any other
    value stands for itself. *)
Definition resolved (st : state) (v : value) : value :=
  match v with
  | VStr s => lookup_name st s
  | _ => v
  end.

(** The five statements that update a variable by an arithmetic operation. *)
Inductive arith_kind : Type := Increase | Decrease | Multiply | Divide | Exponentiate.

Definition arith_stmt (k : arith_kind) : name -> expr -> stmt :=
  match k with
  | Increase => IncreaseNode
  | Decrease => DecreaseNode
  | Multiply => MultiplyNode
  | Divide => DivideNode
  | Exponentiate => ExponentiateNode
  end.

(** A name that is bound in none of the three namespaces. *)
Definition unbound (st : state) (s : string) : Prop :=
  lists st !! Some s = None /\ dicts st !! Some s = None
  /\ variables st !! Some s = None.

(** A list of integers without the first occurrence of [k]. *)
Fixpoint remove_first (k : Z) (zs : list Z) : list Z :=
  match zs with
  | [] => []
  | z :: rest => if (z =? k)%Z then rest else z :: remove_first k rest
  end.

(** The keys of a dict object. *)
Definition dict_keys (entries : list (name * value)) : list name := map fst entries.

(** A state with the dictionary [ages] = [{'ann': 30}]. *)
Definition ages_state : state :=
  set_dicts (fun ds => <[Some "ages" := 0]> ds)
    (set_dict_store (fun _ => [[(Some "ann", VInt 30)]]) (initial_state [])).

(** A line that the python_code parser hands to [parse_function_def]: it
    holds a [DEFINE_FUNCTION] token and no token of a statement kind that
    [parse_statement] tests earlier. *)
Definition py_function_header (tokens : list Token) : bool :=
  has_type "DEFINE_FUNCTION" tokens
  && negb (has_type "DISPLAY" tokens) && negb (has_type "INTERACT" tokens)
  && negb (has_type "CREATE_LIST" tokens) && negb (has_type "ADD" tokens)
  && negb (has_type "FOREACH" tokens) && negb (has_any_type variable_types tokens).

(** The tokens of [Define function "plus" which takes (x, y) and does:]. *)
Definition plus_header : list Token :=
  [ tok "DEFINE_FUNCTION" (VStr "define function"); tok "STRING" (VStr "plus");
    tok "WHICH_TAKES" (VStr "which takes"); tok "(" (VStr "(");
    tok "IDENTIFIER" (VStr "x"); tok "," (VStr ","); tok "IDENTIFIER" (VStr "y");
    tok ")" (VStr ")"); tok "AND" (VStr "and"); tok "IDENTIFIER" (VStr "does");
    tok ":" (VStr ":") ].

(** The token lines of that header followed by an indented [Display x]. *)
Definition plus_lines : list token_line :=
  [ (0, plus_header);
    (4, [tok "DISPLAY" (VStr "display"); tok "IDENTIFIER" (VStr "x")]) ].

(** A line that opens or closes a block comment: stripped of white space,
    it starts with [$$$]. *)
Definition block_marker (ln : string) : bool := String.prefix "$$$" (strip ln).

(** What the python_code tokenizer reads as the contents of a literal that
    holds no quote and no backslash: the text before the first comment
    marker, without the white space at its end, when there is a marker. *)
Definition py_literal_read (body : string) : string :=
  if contains_char dollar body then rstrip_p isspace (before_char dollar body)
  else body.

(** A text none of whose characters is in [cs]. *)
Definition free_of (cs : list ascii) (s : string) : bool :=
  all_chars (fun c => negb (existsb (Ascii.eqb c) cs)) s.

(** A text that holds, between [pre] and [post], what the lexer writes in
    the place of a hidden literal: [__STR_<digits>__]. *)
Definition placeholder_text (pre ds post : string) : string :=
  pre +:+ "__STR_" +:+ ds +:+ "__" +:+ post.

(** The tokens of a parameter list [p1, p2, ...] without its parentheses. *)
Fixpoint more_params (params : list string) : list Token :=
  match params with
  | [] => []
  | p :: rest => tok "," (VStr ",") :: tok "IDENTIFIER" (VStr p) :: more_params rest
  end.

Definition param_tokens (params : list string) : list Token :=
  match params with
  | [] => []
  | p :: rest => tok "IDENTIFIER" (VStr p) :: more_params rest
  end.

(** The tokens of [Define function "<fname>" which takes (<params>) and does:]. *)
Definition function_header (fname : string) (params : list string) : list Token :=
  [ tok "DEFINE_FUNCTION" (VStr "define function"); tok "STRING" (VStr fname);
    tok "WHICH_TAKES" (VStr "which takes"); tok "(" (VStr "(") ]
  ++ param_tokens params
  ++ [ tok ")" (VStr ")"); tok "AND" (VStr "and"); tok "IDENTIFIER" (VStr "does");
       tok ":" (VStr ":") ].

(** * Properties of the evaluator *)

(** ** Value resolution *)

Lemma resolve_literal_string d sv s st :
  _resolve_value d sv (Lit (VStr s)) st = Ok (lookup_name st s) st.
Proof. reflexivity. Qed.

Lemma resolve_literal d sv v st :
  exists val, _resolve_value d sv (Lit v) st = Ok val st.
Proof. destruct v; eexists; reflexivity. Qed.

(** C1, as the claim words it, fails: with [x] bound both as a scalar (1)
    and as a list, resolving ["x"] yields the list in both copies of the
    interpreter, not the scalar that a scalar-first search would return. *)
Lemma resolve_scalar_first_refuted :
  lookup_scalar_first shadowed_state "x" = VInt 1
  /\ _resolve_value python_code (visit python_code 1) (Lit (VStr "x")) shadowed_state
     = Ok (VList 0) shadowed_state
  /\ _resolve_value caml_code (visit caml_code 1) (Lit (VStr "x")) shadowed_state
     = Ok (VList 0) shadowed_state
  /\ _resolve_value python_code (visit python_code 1) (Lit (VStr "x")) shadowed_state
     <> Ok (lookup_scalar_first shadowed_state "x") shadowed_state.
Proof.
  assert (E : lookup_scalar_first shadowed_state "x" = VInt 1) by reflexivity.
  assert (L : lookup_name shadowed_state "x" = VList 0) by reflexivity.
  split; [exact E|].
  rewrite !resolve_literal_string, L, E.
  split; [reflexivity|]. split; [reflexivity|]. discriminate.
Qed.

(** C1 (amended): a string value is searched in the list namespace first,
    then in the dict namespace, then in the scalar namespace; the first
    namespace that has the name yields its stored value, the state is left
    as it was, and a string that no namespace has is returned verbatim. *)
Theorem resolve_value_order (d : dialect) (sv : stmt -> M value) (s : string)
    (st : state) :
  exists v,
    _resolve_value d sv (Lit (VStr s)) st = Ok v st
    /\ (forall l, lists st !! Some s = Some l -> v = VList l)
    /\ (forall l, lists st !! Some s = None -> dicts st !! Some s = Some l ->
          v = VDict l)
    /\ (forall x, lists st !! Some s = None -> dicts st !! Some s = None ->
          variables st !! Some s = Some x -> v = x)
    /\ (lists st !! Some s = None -> dicts st !! Some s = None ->
          variables st !! Some s = None -> v = VStr s).
Proof.
  exists (lookup_name st s). split; [reflexivity|].
  unfold lookup_name.
  destruct (lists st !! Some s) as [l|] eqn:HL;
    destruct (dicts st !! Some s) as [k|] eqn:HD;
    destruct (variables st !! Some s) as [x|] eqn:HV;
    repeat split; intros; congruence.
Qed.

(** ** Calls of a name that is neither a user function nor a global callable *)

Lemma visit_unfold d fuel node :
  visit d (S fuel) node = dispatch d (visit d fuel) fuel node.
Proof. reflexivity. Qed.

Lemma call_global_unmatched_caml sv n args st :
  global_callable caml_code n = GNotCallable ->
  call_global caml_code sv n args st = Ok (name_value n) st.
Proof. intros H. unfold call_global. rewrite H. reflexivity. Qed.

Lemma call_global_unmatched_python sv n args st :
  global_callable python_code n = GNotCallable ->
  call_global python_code sv n args st = Raise (FunctionNotDefined n) st.
Proof. intros H. unfold call_global. rewrite H. reflexivity. Qed.

(** C4, as the claim words it, fails for the python_code copy: the call of
    the unknown name [nosuch] raises [Exception("Function 'nosuch' not
    defined")] instead of returning the name. *)
Lemma unmatched_call_raises_in_python_code :
  functions (initial_state []) !! Some "nosuch" = None
  /\ global_callable python_code (Some "nosuch") = GNotCallable
  /\ visit python_code 1 (FunctionCallNode (Some "nosuch") []) (initial_state [])
     = Raise (FunctionNotDefined (Some "nosuch")) (initial_state [])
  /\ visit python_code 1 (FunctionCallNode (Some "nosuch") []) (initial_state [])
     <> Ok (VStr "nosuch") (initial_state []).
Proof.
  assert (R : visit python_code 1 (FunctionCallNode (Some "nosuch") []) (initial_state [])
              = Raise (FunctionNotDefined (Some "nosuch")) (initial_state []))
    by reflexivity.
  split; [reflexivity|]. split; [reflexivity|]. split; [exact R|].
  rewrite R. discriminate.
Qed.

(** C4 (amended): a call whose name is neither a user function nor bound to
    a callable of the module returns the bare name and leaves the state as
    it was in the caml-code copy of the interpreter, and raises
    [Exception("Function '<name>' not defined")] in the python_code copy. *)
Theorem unmatched_call (fuel : nat) (n : name) (args : list expr) (st : state) :
  functions st !! n = None ->
  (global_callable caml_code n = GNotCallable ->
     visit caml_code (S fuel) (FunctionCallNode n args) st = Ok (name_value n) st)
  /\ (global_callable python_code n = GNotCallable ->
     visit python_code (S fuel) (FunctionCallNode n args) st
       = Raise (FunctionNotDefined n) st).
Proof.
  intros HF. split; intros HG; rewrite visit_unfold; cbn [dispatch];
    unfold visit_FunctionCallNode, bind, get_state; rewrite HF.
  - apply call_global_unmatched_caml, HG.
  - apply call_global_unmatched_python, HG.
Qed.

Lemma unmatched_call_witness :
  visit caml_code 1 (FunctionCallNode (Some "nosuch") [Lit (VInt 3)]) (initial_state [])
    = Ok (VStr "nosuch") (initial_state [])
  /\ visit python_code 1 (FunctionCallNode (Some "nosuch") [Lit (VInt 3)]) (initial_state [])
    = Raise (FunctionNotDefined (Some "nosuch")) (initial_state []).
Proof.
  destruct (unmatched_call 0 (Some "nosuch") [Lit (VInt 3)] (initial_state []))
    as [HC HP]; [reflexivity|].
  split; [apply HC | apply HP]; reflexivity.
Defined.

(** ** If and OrIf *)


(** ** Division by zero *)

Lemma forM_cons {A B} (f : A -> M B) x xs st :
  forM_ f (x :: xs) st =
  match f x st with
  | Ok _ st' => forM_ f xs st'
  | Raise e st' => Raise e st'
  | Unmodelled => Unmodelled
  | OutOfFuel => OutOfFuel
  end.
Proof. reflexivity. Qed.

Lemma visit_assign d fuel n v st :
  visit d (S fuel) (AssignNode n (Lit (VInt v))) st
  = Ok VNone (set_variables (fun vars => <[n := VInt v]> vars) st).
Proof. destruct d; reflexivity. Qed.

Lemma visit_divide_by_zero d fuel n z st :
  variables st !! n = Some (VInt z) ->
  visit d (S fuel) (DivideNode n (Lit (VInt 0))) st = Raise ZeroDivisionError st.
Proof.
  intros H. rewrite visit_unfold.
  destruct d; cbn [dispatch]; unfold visit_DivideNode, arith_update, _get_var,
    _resolve_value, bind, ret, get_state; rewrite H; reflexivity.
Qed.

(** C8: the program [Assign 10 to x], [Divide x by 0], followed by any
    further statements, stops with [ZeroDivisionError] in the state that the
    assignment left: whatever the statements after the division are, none of
    them runs.  This holds from every starting state, in both copies. *)
Theorem division_by_zero_halts :
  forall (d : dialect) (fuel : nat) (rest : list stmt) (st : state),
    execute d (S fuel) (assign_x :: divide_x_by_zero :: rest) st
    = Raise ZeroDivisionError
        (set_variables (fun vars => <[Some "x" := VInt 10]> vars) st).
Proof.
  intros d fuel rest st. unfold execute, assign_x, divide_x_by_zero.
  rewrite forM_cons, visit_assign, forM_cons.
  rewrite (visit_divide_by_zero d fuel (Some "x") 10); [reflexivity|].
  cbn. apply lookup_insert_eq.
Qed.

(** ** Interact *)

(** With an answer on the console: the prompt is written, the answer is
    consumed, a line is returned as it is and an interrupt gives the empty
    string. *)
Lemma interact_with_answer d fuel p bold st text answer rest :
  py_str (match p with VStr s => lookup_name st s | _ => p end) = PRet text ->
  stdin st = answer :: rest ->
  visit d (S fuel) (InteractNode (Lit p) bold) st
  = Ok (match answer with Line s => VStr s | Interrupt => VStr "" end)
       (set_stdin (fun _ => rest)
          (set_stdout (fun o =>
             o ++ [Prompted ((if bold then "**" +:+ text +:+ "**" else text) +:+ ": ")])
             st)).
Proof.
  intros Hstr Hin.
  rewrite visit_unfold. cbn [dispatch].
  unfold visit_InteractNode.
  assert (Hres : _resolve_value d (visit d fuel) (Lit p) st
                 = Ok (match p with VStr s => lookup_name st s | _ => p end) st).
  { destruct p; reflexivity. }
  unfold bind at 1. rewrite Hres.
  set (v := match p with VStr s => lookup_name st s | _ => p end) in *.
  destruct bold.
  - unfold bind at 1. unfold bold_text. unfold bind at 1. rewrite Hstr. cbn [lift ret].
    unfold except_KeyboardInterrupt, bind. cbn [py_str lift ret].
    unfold py_input. cbn [stdin set_stdout]. rewrite Hin.
    destruct answer; unfold set_stdin, set_stdout; cbn; rewrite Hin; reflexivity.
  - unfold bind at 1. cbn [ret].
    unfold except_KeyboardInterrupt, bind. rewrite Hstr. cbn [lift ret].
    unfold py_input. cbn [stdin set_stdout]. rewrite Hin.
    destruct answer; unfold set_stdin, set_stdout; cbn; rewrite Hin; reflexivity.
Qed.

(** At the end of the input stream no line arrives: [input] raises
    [EOFError] after the prompt was written, and the handler lets it pass. *)
Lemma interact_at_end_of_input d fuel p bold st text :
  py_str (match p with VStr s => lookup_name st s | _ => p end) = PRet text ->
  stdin st = [] ->
  visit d (S fuel) (InteractNode (Lit p) bold) st
  = Raise EOFError
      (set_stdout (fun o =>
         o ++ [Prompted ((if bold then "**" +:+ text +:+ "**" else text) +:+ ": ")])
         st).
Proof.
  intros Hstr Hin. rewrite visit_unfold. cbn [dispatch]. unfold visit_InteractNode.
  assert (Hres : _resolve_value d (visit d fuel) (Lit p) st
                 = Ok (match p with VStr s => lookup_name st s | _ => p end) st).
  { destruct p; reflexivity. }
  unfold bind at 1. rewrite Hres.
  destruct bold.
  - unfold bind at 1. unfold bold_text. unfold bind at 1. rewrite Hstr. cbn [lift ret].
    unfold except_KeyboardInterrupt, bind. cbn [py_str lift ret].
    unfold py_input. cbn [stdin set_stdout]. rewrite Hin. reflexivity.
  - unfold bind at 1. cbn [ret].
    unfold except_KeyboardInterrupt, bind. rewrite Hstr. cbn [lift ret].
    unfold py_input. cbn [stdin set_stdout]. rewrite Hin. reflexivity.
Qed.

(** C9 (amended): an [Interact] statement whose prompt is a literal or an
    identifier writes the text of the resolved prompt followed by [": "]; a
    bold prompt
    is wrapped in [**] before it is written.  When the console has an
    answer, the statement consumes it and returns it as it is, and returns
    the empty string when the answer is an interrupt.  At the end of the
    input stream it does not return: [input] raises [EOFError] after the
    prompt was written, and the handler, which catches the interrupt only,
    lets it pass. *)
Theorem interact_prompts_and_reads :
  forall (d : dialect) (fuel : nat) (p : value) (bold : bool) (st : state)
         (text : string),
    py_str (match p with VStr s => lookup_name st s | _ => p end) = PRet text ->
    (forall (answer : in_event) (rest : list in_event),
        stdin st = answer :: rest ->
        visit d (S fuel) (InteractNode (Lit p) bold) st
        = Ok (match answer with Line s => VStr s | Interrupt => VStr "" end)
             (set_stdin (fun _ => rest)
                (set_stdout (fun o =>
                   o ++ [Prompted ((if bold then "**" +:+ text +:+ "**" else text)
                                   +:+ ": ")])
                   st)))
    /\ (stdin st = [] ->
        visit d (S fuel) (InteractNode (Lit p) bold) st
        = Raise EOFError
            (set_stdout (fun o =>
               o ++ [Prompted ((if bold then "**" +:+ text +:+ "**" else text)
                               +:+ ": ")])
               st)).
Proof.
  intros d fuel p bold st text Hstr. split.
  - intros answer rest Hin. now apply interact_with_answer.
  - intros Hin. now apply interact_at_end_of_input.
Qed.

(** C9, as the claim words it, fails at the end of the input stream: with
    no input left, [Interact "Your name"] writes its prompt and raises
    [EOFError] in both copies; it returns nothing. *)
Lemma interact_does_not_return_at_end_of_input :
  visit python_code 1 (InteractNode (Lit (VStr "Your name")) false) (initial_state [])
  = Raise EOFError
      (set_stdout (fun o => o ++ [Prompted "Your name: "]) (initial_state []))
  /\ visit caml_code 1 (InteractNode (Lit (VStr "Your name")) false) (initial_state [])
     = Raise EOFError
         (set_stdout (fun o => o ++ [Prompted "Your name: "]) (initial_state [])).
Proof. split; reflexivity. Qed.

(** ** ListAdd *)

Lemma insert_last {A} (h : list A) (x y : A) :
  <[length h := x]> (h ++ [y]) = h ++ [x].
Proof.
  rewrite <- (Nat.add_0_r (length h)) at 1. rewrite insert_app_r. reflexivity.
Qed.

Lemma lookup_last {A} (h : list A) (x : A) : (h ++ [x]) !! length h = Some x.
Proof. apply list_lookup_middle. reflexivity. Qed.

Lemma list_add_missing_resolved d fuel n e val st st1 :
  _resolve_value d (visit d fuel) e st = Ok val st1 ->
  lists st1 !! n = None ->
  visit d (S fuel) (ListAddNode n e) st = Ok VNone (with_new_list n val st1).
Proof.
  intros Hres Hmiss. rewrite visit_unfold. cbn [dispatch].
  unfold visit_ListAddNode. unfold bind at 1. rewrite Hres.
  unfold bind at 1. unfold get_state at 1. rewrite Hmiss.
  unfold bind, new_list, modify, ret, list_append, list_items, bind, modify.
  cbn [list_store set_lists set_list_store].
  rewrite lookup_last. unfold with_new_list, set_list_store, set_lists. cbn.
  rewrite insert_last. reflexivity.
Qed.

(** C10: a [ListAdd] that names a list absent from the list namespace, with
    a literal or an identifier as its value, never raises: it returns, and
    in the state it leaves the name is bound to a fresh list object that
    holds exactly the resolved value; nothing else of the state changes. *)
Theorem list_add_creates_missing_list :
  forall (d : dialect) (fuel : nat) (n : name) (v : value) (st : state),
    lists st !! n = None ->
    exists (val : value) (st' : state),
      _resolve_value d (visit d fuel) (Lit v) st = Ok val st
      /\ visit d (S fuel) (ListAddNode n (Lit v)) st = Ok VNone st'
      /\ st' = with_new_list n val st
      /\ lists st' !! n = Some (length (list_store st))
      /\ list_store st' !! length (list_store st) = Some [val]
      /\ last [val] = Some val.
Proof.
  intros d fuel n v st Hmiss.
  destruct (resolve_literal d (visit d fuel) v st) as [val Hval].
  exists val, (with_new_list n val st).
  split; [exact Hval|]. split; [exact (list_add_missing_resolved _ _ _ _ _ _ _ Hval Hmiss)|].
  split; [reflexivity|]. split; [|split; [|reflexivity]].
  - unfold with_new_list; cbn. apply lookup_insert_eq.
  - unfold with_new_list; cbn. apply lookup_last.
Qed.

(** ** ForEach *)


Lemma py_bool_nonempty_list l items st :
  list_store st !! l = Some items -> items <> [] ->
  py_bool (VList l) st = Ok true st.
Proof.
  intros Hl Hne. unfold py_bool, bind, list_items. rewrite Hl.
  destruct items; [congruence | reflexivity].
Qed.

Lemma foreach_iterable_list d it l items st :
  lists st !! it = Some l -> list_store st !! l = Some items -> items <> [] ->
  foreach_iterable d it st = Ok (IterList l) st.
Proof.
  intros Hit Hl Hne. unfold foreach_iterable, bind, get_state.
  destruct d; rewrite Hit; [|reflexivity].
  rewrite (py_bool_nonempty_list _ _ _ Hl Hne). reflexivity.
Qed.






Lemma interact_prompts_and_reads_witness :
  visit python_code 1 (InteractNode (Lit (VStr "Your name")) false)
    (initial_state [Interrupt; Line "Ann"])
  = Ok (VStr "")
      (set_stdin (fun _ => [Line "Ann"])
         (set_stdout (fun o => o ++ [Prompted "Your name: "])
            (initial_state [Interrupt; Line "Ann"]))).
Proof.
  destruct (interact_prompts_and_reads python_code 0 (VStr "Your name") false
              (initial_state [Interrupt; Line "Ann"]) "Your name" eq_refl)
    as [H _].
  exact (H Interrupt [Line "Ann"] eq_refl).
Defined.

Lemma list_add_creates_missing_list_witness :
  exists (val : value) (st' : state),
    _resolve_value caml_code (visit caml_code 0) (Lit (VInt 4)) (initial_state [])
      = Ok val (initial_state [])
    /\ visit caml_code 1 (ListAddNode (Some "mylist") (Lit (VInt 4))) (initial_state [])
       = Ok VNone st'
    /\ st' = with_new_list (Some "mylist") val (initial_state [])
    /\ lists st' !! Some "mylist" = Some (length (list_store (initial_state [])))
    /\ list_store st' !! length (list_store (initial_state [])) = Some [val]
    /\ last [val] = Some val.
Proof.
  apply (list_add_creates_missing_list caml_code 0 (Some "mylist") (VInt 4)
           (initial_state [])).
  reflexivity.
Defined.

(** ** Calls of a user function *)

Lemma removelast_snoc {A} (l : list A) (x : A) : removelast (l ++ [x]) = l.
Proof. apply removelast_last. Qed.

Lemma state_eta (st : state) :
  {| variables := variables st; functions := functions st; objects := objects st;
     lists := lists st; dicts := dicts st; modules := modules st;
     call_stack := call_stack st; list_store := list_store st;
     dict_store := dict_store st; stdout := stdout st; stdin := stdin st |} = st.
Proof. destruct st; reflexivity. Qed.

(** In the python_code copy the arguments of a call are literals and
    identifiers, and resolving them leaves the state as it is. *)
Lemma bind_args_python sv params args local st l st1 :
  bind_args python_code sv params args local st = Ok l st1 -> st1 = st.
Proof.
  revert args local. induction params as [|p ps IH]; intros [|a rest] local;
    cbn [bind_args]; try (intros [= _ <-]; reflexivity).
  unfold bind at 1. destruct a as [v|f fargs]; [|discriminate].
  assert (E : exists val, _resolve_value python_code sv (Lit v) st = Ok val st)
    by apply resolve_literal.
  destruct E as [val ->]. apply IH.
Qed.

(** X2: a call of a user function that returns leaves the caller's scalar
    namespace exactly as it was before the call: the bindings of the
    parameters and every assignment of the body are undone. *)
Lemma call_restores_variables d fuel n args func st r st' :
  functions st !! n = Some func ->
  visit d (S fuel) (FunctionCallNode n args) st = Ok r st' ->
  variables st' = variables st.
Proof.
  intros HF. rewrite visit_unfold. cbn [dispatch]. unfold visit_FunctionCallNode.
  unfold bind at 1, get_state at 1. rewrite HF. destruct d.
  - unfold bind at 1.
    destruct (bind_args _ _ _ _ _ _) as [local st1| | |] eqn:HB; try discriminate.
    apply bind_args_python in HB. subst st1.
    cbv [bind get_state modify ret].
    destruct (run_body _ _ _ _) as [res st2| | |]; try discriminate.
    intros [= _ <-]. reflexivity.
  - unfold bind at 1.
    destruct (bind_args _ _ _ _ _ _) as [local st1| | |] eqn:HB; try discriminate.
    cbv [bind get_state modify ret].
    destruct (run_body _ _ _ _) as [res st2| | |]; try discriminate.
    intros [= _ <-]. reflexivity.
Qed.

(** On a caller that has its own scalar [x], the call of the squaring
    function with the argument 4 returns 16, and the caller's [x] and the rest
    of the state are what they were. *)
Lemma square_call_example :
  forall d,
    visit d 2 (FunctionCallNode (Some "sq") [Lit (VInt 4)]) caller_state
    = Ok (VInt 16) caller_state.
Proof. intros []; vm_compute; reflexivity. Qed.

(** No function of builtins.py can be called by name: none of them is in
    the namespace of the interpreter module. *)
Lemma repository_builtins_not_callable d s :
  In s repository_builtins -> global_callable d (Some s) = GNotCallable.
Proof.
  intros H. cbn in H. destruct d;
    repeat (destruct H as [<-|H]; [reflexivity|]); destruct H.
Qed.

(** * Properties of the parser *)

Section BlockCollection.

Variable p : dialect.
Variable L : list token_line.












End BlockCollection.

(** ** The cursor only moves forward *)

Section Monotone.
Variable p : dialect.
Variable L : list token_line.


End Monotone.

(** ** The block is the program of its lines *)

Section Slice.
Variable p : dialect.
Variable L : list token_line.
Variables (base from : nat).
Hypothesis Hfrom : from <= length L.








End Slice.


(** The block under the first line of [nested_lines]: lines 1 to 4 of the
    seven lines, with the
    line indented by 8 inside the [Repeat] of the line above it. *)
Lemma nested_lines_block :
  block_end nested_lines 4 1 = 5
  /\ _collect_block nested_lines (parse_statement caml_code nested_lines 8) 8 (Some 0) 1
     = Some ([ DisplayNode (Lit (VStr "a")) false;
               RepeatNode (Lit (VInt 2)) [DisplayNode (Lit (VStr "b")) false];
               DisplayNode (Lit (VStr "c")) false ], 5)
  /\ _collect_block nested_lines (parse_statement python_code nested_lines 8) 8 (Some 0) 1
     = Some ([ DisplayNode (Lit (VStr "a")) false;
               RepeatNode (Lit (VInt 2)) [DisplayNode (Lit (VStr "b")) false];
               DisplayNode (Lit (VStr "c")) false ], 5).
Proof. repeat split; reflexivity. Qed.

(** ** Block headers

    Which indentation each header's parser passes to [_collect_block]. *)












(** * Properties of the lexer, and the pipeline on the scenarios *)

(** ** String literals *)

(** C6 at its failing input: the python_code copy restores the string
    literals before it cuts line comments, so the comment marker inside the
    literal of [Display "a$b"] cuts the line; the [STRING] token carries [a],
    not [a$b].  The caml-code copy cuts comments while the literals are
    hidden and emits the literal as it was written.  An article and a period
    inside a literal survive in both copies. *)
Theorem dollar_in_literal_is_cut_by_python_code :
  _preprocess python_code display_dollar = Some ["Display " +:+ String quote "a"]
  /\ tokenize python_code display_dollar
     = Some [(0, [tok "DISPLAY" (VStr "display"); tok "STRING" (VStr "a")])]
  /\ tokenize caml_code display_dollar
     = Some [(0, [tok "DISPLAY" (VStr "display"); tok "STRING" (VStr "a$b")])]
  /\ tokenize python_code display_article
     = Some [(0, [tok "DISPLAY" (VStr "display"); tok "STRING" (VStr "the end. a cat")])]
  /\ tokenize caml_code display_article
     = Some [(0, [tok "DISPLAY" (VStr "display"); tok "STRING" (VStr "the end. a cat")])].
Proof. repeat split; vm_compute; reflexivity. Qed.

(** ** One-line literals through [_preprocess] *)

Lemma append_cons c a b : String c a +:+ b = String c (a +:+ b).
Proof. reflexivity. Qed.

Lemma append_empty_l s : "" +:+ s = s.
Proof. reflexivity. Qed.

Lemma append_empty_r s : s +:+ "" = s.
Proof.
  induction s as [|c s IH]; [reflexivity|]. rewrite append_cons, IH. reflexivity.
Qed.

Lemma append_assoc a b c : (a +:+ b) +:+ c = a +:+ (b +:+ c).
Proof.
  induction a as [|x a IH]; [reflexivity|]. rewrite !append_cons, IH. reflexivity.
Qed.

Lemma plain_char_spec c :
  plain_char c = true ->
  Ascii.eqb c quote = false /\ Ascii.eqb c backslash = false
  /\ Ascii.eqb c LF = false /\ Ascii.eqb c CR = false.
Proof.
  unfold plain_char. intros H.
  destruct (Ascii.eqb c quote), (Ascii.eqb c backslash), (Ascii.eqb c LF),
    (Ascii.eqb c CR); cbn in H; try discriminate; auto.
Qed.

Lemma match_string_body_plain body rest acc :
  all_chars plain_char body = true ->
  match_string_body (body +:+ String quote rest) acc
  = Some (acc +:+ body +:+ String quote "", rest).
Proof.
  revert acc. induction body as [|c body IH]; intros acc H.
  - rewrite append_empty_l. cbn [match_string_body]. rewrite Ascii.eqb_refl.
    reflexivity.
  - cbn in H. apply andb_prop in H as [Hc Hb].
    destruct (plain_char_spec _ Hc) as (Hq & Hbs & _ & _).
    rewrite append_cons. cbn [match_string_body]. rewrite Hq, Hbs.
    rewrite (IH _ Hb). rewrite !append_assoc. reflexivity.
Qed.

Lemma replace_crlf_plain s :
  all_chars (fun c => negb (Ascii.eqb c CR)) s = true -> replace_crlf s = s.
Proof.
  induction s as [|c s IH]; intros H; [reflexivity|].
  cbn in H. apply andb_prop in H as [Hc Hs].
  cbn [replace_crlf]. destruct s as [|c2 s2]; [reflexivity|].
  apply negb_true_iff in Hc. rewrite Hc. cbn [andb]. rewrite (IH Hs). reflexivity.
Qed.

Lemma normalize_newlines_plain s :
  all_chars (fun c => negb (Ascii.eqb c CR)) s = true -> normalize_newlines s = s.
Proof.
  intros H. unfold normalize_newlines. rewrite (replace_crlf_plain _ H).
  induction s as [|c s IH]; [reflexivity|].
  cbn in H. apply andb_prop in H as [Hc Hs]. apply negb_true_iff in Hc.
  cbn [str_map]. rewrite Hc, (IH Hs). reflexivity.
Qed.

Lemma split_char_plain s cur :
  all_chars (fun c => negb (Ascii.eqb c LF)) s = true ->
  split_char LF s cur = [cur +:+ s].
Proof.
  revert cur. induction s as [|c s IH]; intros cur H.
  - cbn. now rewrite append_empty_r.
  - cbn in H. apply andb_prop in H as [Hc Hs]. apply negb_true_iff in Hc.
    cbn [split_char]. rewrite Hc, (IH _ Hs), append_assoc. reflexivity.
Qed.

Lemma all_chars_app p a b :
  all_chars p (a +:+ b) = all_chars p a && all_chars p b.
Proof.
  induction a as [|c a IH]; [reflexivity|].
  rewrite append_cons. cbn [all_chars]. now rewrite IH, andb_assoc.
Qed.

Lemma all_chars_weaken (p r : ascii -> bool) s :
  (forall c, p c = true -> r c = true) -> all_chars p s = true -> all_chars r s = true.
Proof.
  intros Hpr. induction s as [|c s IH]; cbn; [reflexivity|].
  intros H. apply andb_prop in H as [Hc Hs]. now rewrite (Hpr _ Hc), (IH Hs).
Qed.

Lemma all_chars_quoted r body :
  all_chars r (quoted body) = r quote && (all_chars r body && (r quote && true)).
Proof.
  unfold quoted. rewrite append_cons. cbn [all_chars]. rewrite all_chars_app.
  reflexivity.
Qed.

Lemma literal_no_CR body :
  all_chars plain_char body = true ->
  all_chars (fun c => negb (Ascii.eqb c CR)) ("Display " +:+ quoted body) = true.
Proof.
  intros H. rewrite all_chars_app, all_chars_quoted.
  rewrite (all_chars_weaken plain_char _ body); [reflexivity | | exact H].
  intros c Hc. destruct (plain_char_spec _ Hc) as (_ & _ & _ & ->). reflexivity.
Qed.

Lemma literal_no_LF body :
  all_chars plain_char body = true ->
  all_chars (fun c => negb (Ascii.eqb c LF)) ("Display " +:+ quoted body) = true.
Proof.
  intros H. rewrite all_chars_app, all_chars_quoted.
  rewrite (all_chars_weaken plain_char _ body); [reflexivity | | exact H].
  intros c Hc. destruct (plain_char_spec _ Hc) as (_ & _ & -> & _). reflexivity.
Qed.

Lemma length_append a b : String.length (a +:+ b) = String.length a + String.length b.
Proof.
  induction a as [|c a IH]; [reflexivity|].
  rewrite append_cons. cbn [String.length]. now rewrite IH.
Qed.

Lemma hide_strings_empty fuel strings : hide_strings fuel "" strings = ("", strings).
Proof. destruct fuel; reflexivity. Qed.

Lemma hide_strings_other fuel c rest strings :
  Ascii.eqb c quote = false ->
  hide_strings (S fuel) (String c rest) strings
  = let '(out, strs) := hide_strings fuel rest strings in (String c out, strs).
Proof. intros H. cbn [hide_strings]. rewrite H. reflexivity. Qed.

Lemma hide_strings_literal fuel body after strings :
  all_chars plain_char body = true ->
  hide_strings (S fuel) (quoted body +:+ after) strings
  = let '(out, strs) := hide_strings fuel after (strings ++ [quoted body]) in
    (placeholder (length strings) +:+ out, strs).
Proof.
  intros H. unfold quoted. rewrite append_assoc, !append_cons, append_empty_l.
  cbn [hide_strings]. rewrite Ascii.eqb_refl.
  rewrite (match_string_body_plain body after (String quote "") H).
  rewrite append_cons. reflexivity.
Qed.

(** Hiding the literal of [Display "..."]. *)
Lemma hide_display_literal body :
  all_chars plain_char body = true ->
  hide ("Display " +:+ quoted body) = ("Display __STR_0__", [quoted body]).
Proof.
  intros H. unfold hide. rewrite length_append.
  assert (Hlen : exists n, String.length (quoted body) = S n).
  { unfold quoted. rewrite append_cons. cbn [String.length]. eauto. }
  destruct Hlen as [n ->].
  change (String.length "Display ") with 8. cbn [Nat.add].
  rewrite !append_cons, append_empty_l.
  do 8 (rewrite hide_strings_other by reflexivity).
  rewrite <- (append_empty_r (quoted body)) at 1.
  rewrite (hide_strings_literal _ body "" [] H), hide_strings_empty.
  reflexivity.
Qed.

Lemma restore_display_literal lit :
  restore [lit] "Display __STR_0__" = Some ("Display " +:+ lit).
Proof.
  transitivity (Some ("Display " +:+ (lit +:+ ""))); [|now rewrite append_empty_r].
  unfold restore. vm_compute. reflexivity.
Qed.

Lemma strip_keeps_head p c rest :
  p c = false -> exists kept, strip_p p (String c rest) = String c kept.
Proof.
  intros H. unfold strip_p. cbn [lstrip_p]. rewrite H. cbn [rstrip_p].
  destruct (rstrip_p p rest); [rewrite H|]; eauto.
Qed.

Lemma strip_comments_display ln :
  strip_comments ["Display " +:+ ln] false = [cut_comment ("Display " +:+ ln)].
Proof.
  unfold strip_comments, strip. rewrite append_cons.
  destruct (strip_keeps_head isspace "D" ("isplay " +:+ ln) eq_refl) as [kept ->].
  reflexivity.
Qed.

(** In the caml-code copy a one-line literal comes out of [_preprocess]
    as it went in, whatever comment markers, articles and periods it holds. *)
Lemma caml_preprocess_keeps_literal body :
  all_chars plain_char body = true ->
  _preprocess caml_code ("Display " +:+ quoted body)
  = Some ["Display " +:+ quoted body].
Proof.
  intros H. cbn [_preprocess]. unfold caml_preprocess.
  rewrite (normalize_newlines_plain _ (literal_no_CR body H)).
  rewrite (hide_display_literal body H).
  change (strip_comments (split_char LF "Display __STR_0__" "") false)
    with ["Display __STR_0__"].
  change (join (String LF "") ["Display __STR_0__"]) with "Display __STR_0__".
  rewrite restore_display_literal.
  rewrite (split_char_plain _ "" (literal_no_LF body H)). reflexivity.
Qed.

(** In the python_code copy the line comes out cut at its first comment
    marker, inside the literal or not; articles and periods of the literal
    stay. *)
Lemma py_preprocess_cuts_literal body :
  all_chars plain_char body = true ->
  _preprocess python_code ("Display " +:+ quoted body)
  = Some [cut_comment ("Display " +:+ quoted body)].
Proof.
  intros H. cbn [_preprocess]. unfold py_preprocess.
  rewrite (normalize_newlines_plain _ (literal_no_CR body H)).
  rewrite (hide_display_literal body H).
  change (remove_periods
            (remove_articles (S (String.length "Display __STR_0__")) None
               "Display __STR_0__")) with "Display __STR_0__".
  rewrite restore_display_literal.
  rewrite (split_char_plain _ "" (literal_no_LF body H)).
  rewrite append_empty_l. apply f_equal, strip_comments_display.
Qed.

Lemma contains_char_app c a b :
  contains_char c (a +:+ b) = contains_char c a || contains_char c b.
Proof.
  unfold contains_char. induction a as [|x a IH]; [reflexivity|].
  rewrite append_cons. cbn [any_char]. now rewrite IH, orb_assoc.
Qed.

Lemma before_char_app c a b :
  before_char c (a +:+ b)
  = if contains_char c a then before_char c a else a +:+ before_char c b.
Proof.
  unfold contains_char. induction a as [|x a IH]; [reflexivity|].
  rewrite append_cons. cbn [before_char any_char].
  rewrite (Ascii.eqb_sym c x). destruct (Ascii.eqb x c); [reflexivity|].
  cbn [orb]. rewrite IH. destruct (any_char (Ascii.eqb c) a); reflexivity.
Qed.

(** A comment marker inside the literal: the python_code copy keeps the
    literal only up to the marker, and loses the closing quote. *)
Lemma py_preprocess_literal_with_dollar body :
  all_chars plain_char body = true ->
  contains_char dollar body = true ->
  _preprocess python_code ("Display " +:+ quoted body)
  = Some ["Display " +:+ String quote (before_char dollar body)].
Proof.
  intros H Hd. rewrite (py_preprocess_cuts_literal body H). unfold cut_comment.
  assert (Hq : quoted body = String quote "" +:+ (body +:+ String quote "")).
  { unfold quoted. rewrite !append_cons, append_empty_l. reflexivity. }
  rewrite Hq, !contains_char_app, Hd, !before_char_app, Hd.
  change (contains_char dollar "Display ") with false.
  change (contains_char dollar (String quote "")) with false.
  reflexivity.
Qed.

(** No comment marker inside the literal: the line is kept whole. *)
Lemma py_preprocess_literal_without_dollar body :
  all_chars plain_char body = true ->
  contains_char dollar body = false ->
  _preprocess python_code ("Display " +:+ quoted body)
  = Some ["Display " +:+ quoted body].
Proof.
  intros H Hd. rewrite (py_preprocess_cuts_literal body H). unfold cut_comment.
  assert (Hq : quoted body = String quote "" +:+ (body +:+ String quote "")).
  { unfold quoted. rewrite !append_cons, append_empty_l. reflexivity. }
  rewrite Hq, !contains_char_app, Hd.
  change (contains_char dollar "Display ") with false.
  change (contains_char dollar (String quote "")) with false.
  reflexivity.
Qed.

(** ** Function definitions in the python_code parser *)

(** Whatever the header line says and whatever follows it, the python_code
    parser turns a line that it dispatches to [parse_function_def] into a
    function with no parameter and an empty body, and moves the cursor past
    the header only. *)
Lemma py_function_def_has_no_body L fuel pos ind toks :
  L !! pos = Some (ind, toks) ->
  PyParser.classify toks = PyParser.parse_function_def toks ->
  parse_statement python_code L (S fuel) pos
  = Some (Some (FunctionDefNode
                  (as_name (first_value ["STRING"; "IDENTIFIER"] toks)) [] []),
          S pos).
Proof.
  intros HL Hc. cbn [parse_statement]. unfold parse_statement_step.
  rewrite HL. cbn [classify_of]. rewrite Hc. unfold PyParser.parse_function_def.
  unfold _collect_block.
  destruct (indent_at L (S pos)) as [next|]; [|reflexivity].
  cbn [default from_option id]. rewrite Nat.leb_refl. reflexivity.
Qed.

(** A call of a function stored with no parameter and an empty body
    returns [None], whatever the arguments. *)
Lemma call_of_empty_function d fuel n args st :
  functions st !! n = Some (empty_function n) ->
  visit d (S fuel) (FunctionCallNode n args) st = Ok VNone st.
Proof.
  intros HF. rewrite visit_unfold. cbn [dispatch].
  unfold visit_FunctionCallNode. unfold bind at 1, get_state at 1. rewrite HF.
  destruct d; cbn [empty_function fd_args fd_body fd_name bind_args run_body];
    cbv [bind ret modify get_state set_call_stack set_variables];
    cbn [variables functions objects lists dicts modules call_stack list_store
         dict_store stdout stdin];
    rewrite removelast_snoc; f_equal; apply state_eta.
Qed.

(** C2 at its failing input: from the text of scenario D the python_code
    pipeline stores [plus] with no parameter and no body, and parses the body
    line as a statement of the program, which runs at once and stops the run
    with [Exception("Function 'add' not defined")]; nothing is displayed, and
    a call of the stored function with [(5, 7)] returns [None], not 12.  The
    caml-code pipeline loses the parameter [a], reads the words before the
    arguments as arguments, and displays the name [add] that its unmatched
    call returns. *)
Theorem scenario_D_does_not_return_12 :
  parse python_code (default [] (tokenize python_code scenario_D)) 10
  = Some [ FunctionDefNode (Some "plus") [] [];
           FunctionCallNode (Some "add") [Lit (VStr "add")];
           DisplayNode (Lit (VStr "plus")) false ]
  /\ run python_code 10 scenario_D []
     = Ran [ FunctionDefNode (Some "plus") [] [];
             FunctionCallNode (Some "add") [Lit (VStr "add")];
             DisplayNode (Lit (VStr "plus")) false ]
         (Raise (FunctionNotDefined (Some "add"))
            (set_functions (fun fs => <[Some "plus" := empty_function (Some "plus")]> fs)
               (initial_state [])))
  /\ visit python_code 1 (FunctionCallNode (Some "plus") [Lit (VInt 5); Lit (VInt 7)])
       (set_functions (fun fs => <[Some "plus" := empty_function (Some "plus")]> fs)
          (initial_state []))
     = Ok VNone
         (set_functions (fun fs => <[Some "plus" := empty_function (Some "plus")]> fs)
            (initial_state []))
  /\ run caml_code 10 scenario_D []
     = Ran [ FunctionDefNode (Some "plus") ["b"]
               [FunctionCallNode (Some "add")
                  [Lit (VStr "with"); Lit (VStr "arguments"); Lit (VStr "b")]];
             DisplayNode (Call (Some "plus")
                            [Lit (VStr "with"); Lit (VStr "arguments");
                             Lit (VInt 5); Lit (VInt 7)]) false ]
         (Ok tt
            (set_stdout (fun _ => [Printed (VStr "add")])
               (set_functions (fun fs =>
                  <[Some "plus" :=
                      {| fd_name := Some "plus"; fd_args := ["b"];
                         fd_body := [FunctionCallNode (Some "add")
                                       [Lit (VStr "with"); Lit (VStr "arguments");
                                        Lit (VStr "b")]] |}]> fs)
                  (initial_state [])))).
Proof. repeat split; vm_compute; reflexivity. Qed.

(** ** Scenarios C and E from their text *)

Lemma scenario_E_from_text d :
  run d 10 scenario_E []
  = Ran if_orif_program
      (Ok tt (set_stdout (fun _ => [Printed (VStr "a"); Printed (VStr "b")])
                (initial_state []))).
Proof. destruct d; vm_compute; reflexivity. Qed.

Lemma scenario_C_from_text d :
  run d 10 scenario_C []
  = Ran [assign_x; divide_x_by_zero; DisplayNode (Lit (VStr "x")) false]
      (Raise ZeroDivisionError
         (set_variables (fun vars => <[Some "x" := VInt 10]> vars) (initial_state []))).
Proof. destruct d; vm_compute; reflexivity. Qed.

(** * Further properties of the evaluator *)

Lemma resolve_lit d sv v st :
  _resolve_value d sv (Lit v) st = Ok (resolved st v) st.
Proof. destruct v; reflexivity. Qed.

Lemma resolved_unbound st s : unbound st s -> resolved st (VStr s) = VStr s.
Proof.
  intros (HL & HD & HV). cbn [resolved]. unfold lookup_name.
  rewrite HL, HD, HV. reflexivity.
Qed.

Lemma get_var_eq n st : _get_var n st = Ok (default VNone (variables st !! n)) st.
Proof. reflexivity. Qed.

(** ** Arithmetic updates *)

(** X1: an arithmetic update ([Increase], [Decrease], [Multiply],
    [Divide], [Exponentiate]) of a variable that is unbound, or bound to a
    value that is not a number, raises [TypeError] and leaves the state as it
    was, in both copies; in the caml-code copy the same holds when the
    operand does not resolve to a number, whatever the variable holds. *)
Theorem arith_update_needs_numbers :
  (forall d fuel k n v st,
      is_number (default VNone (variables st !! n)) = false ->
      visit d (S fuel) (arith_stmt k n (Lit v)) st = Raise TypeError st)
  /\ (forall fuel k n v st,
      is_number (resolved st v) = false ->
      visit caml_code (S fuel) (arith_stmt k n (Lit v)) st = Raise TypeError st).
Proof.
  split.
  - intros d fuel k n v st H. rewrite visit_unfold.
    destruct k, d; cbn [arith_stmt dispatch];
      unfold visit_IncreaseNode, visit_DecreaseNode, visit_MultiplyNode,
        visit_DivideNode, visit_ExponentiateNode, arith_update;
      unfold bind at 1; rewrite ?resolve_lit, ?get_var_eq;
      unfold bind at 1; rewrite ?resolve_lit, ?get_var_eq;
      rewrite H; reflexivity.
  - intros fuel k n v st H. rewrite visit_unfold.
    destruct k; cbn [arith_stmt dispatch];
      unfold visit_IncreaseNode, visit_DecreaseNode, visit_MultiplyNode,
        visit_DivideNode, visit_ExponentiateNode, arith_update;
      unfold bind at 1; rewrite get_var_eq;
      unfold bind at 1; rewrite resolve_lit;
      rewrite H, andb_false_r; reflexivity.
Qed.

Lemma arith_update_needs_numbers_witness :
  visit python_code 1 (arith_stmt Multiply (Some "x") (Lit (VInt 2))) (initial_state [])
    = Raise TypeError (initial_state [])
  /\ visit caml_code 1 (arith_stmt Increase (Some "n") (Lit (VStr "text"))) scalar_state
    = Raise TypeError scalar_state.
Proof.
  destruct arith_update_needs_numbers as [H1 H2]. split.
  - apply H1. reflexivity.
  - apply H2. reflexivity.
Defined.

Lemma int_updates d fuel n a b st :
  variables st !! n = Some (VInt a) ->
  visit d (S fuel) (IncreaseNode n (Lit (VInt b))) st
    = Ok VNone (set_variables (fun vars => <[n := VInt (a + b)]> vars) st)
  /\ visit d (S fuel) (DecreaseNode n (Lit (VInt b))) st
    = Ok VNone (set_variables (fun vars => <[n := VInt (a - b)]> vars) st)
  /\ visit d (S fuel) (MultiplyNode n (Lit (VInt b))) st
    = Ok VNone (set_variables (fun vars => <[n := VInt (a * b)]> vars) st)
  /\ ((0 <= b)%Z ->
      visit d (S fuel) (ExponentiateNode n (Lit (VInt b))) st
      = Ok VNone (set_variables (fun vars => <[n := VInt (a ^ b)]> vars) st)).
Proof.
  intros H.
  repeat split; try intros Hb; rewrite visit_unfold; destruct d; cbn [dispatch];
    unfold visit_IncreaseNode, visit_DecreaseNode, visit_MultiplyNode,
      visit_ExponentiateNode, arith_update, _get_var, _set_var, _resolve_value,
      bind, ret, get_state, modify; rewrite H; cbn;
    try (apply Z.leb_le in Hb; rewrite Hb); reflexivity.
Qed.

(** X3: on a variable that holds an integer, [Increase], [Decrease] and
    [Multiply] by an integer store the exact sum, difference and product
    (integers are unbounded), and [Exponentiate] by a non-negative integer
    the exact power, in both copies; nothing else of the state changes.  So
    increasing a variable and then decreasing it by the same integer gives
    back the state the two statements started from. *)
Theorem integer_updates_are_exact :
  forall d fuel n a b st,
    variables st !! n = Some (VInt a) ->
    visit d (S fuel) (IncreaseNode n (Lit (VInt b))) st
      = Ok VNone (set_variables (fun vars => <[n := VInt (a + b)]> vars) st)
    /\ visit d (S fuel) (DecreaseNode n (Lit (VInt b))) st
      = Ok VNone (set_variables (fun vars => <[n := VInt (a - b)]> vars) st)
    /\ visit d (S fuel) (MultiplyNode n (Lit (VInt b))) st
      = Ok VNone (set_variables (fun vars => <[n := VInt (a * b)]> vars) st)
    /\ ((0 <= b)%Z ->
        visit d (S fuel) (ExponentiateNode n (Lit (VInt b))) st
        = Ok VNone (set_variables (fun vars => <[n := VInt (a ^ b)]> vars) st))
    /\ execute d (S fuel)
         [IncreaseNode n (Lit (VInt b)); DecreaseNode n (Lit (VInt b))] st
       = Ok tt st.
Proof.
  intros d fuel n a b st H.
  destruct (int_updates d fuel n a b st H) as (HI & HD & HM & HE).
  repeat (split; [assumption|]).
  unfold execute. rewrite forM_cons, HI.
  set (st1 := set_variables (fun vars => <[n := VInt (a + b)]> vars) st).
  assert (H1 : variables st1 !! n = Some (VInt (a + b))) by apply lookup_insert_eq.
  destruct (int_updates d fuel n (a + b) b st1 H1) as (_ & HD1 & _).
  rewrite forM_cons, HD1. cbn [forM_ ret]. f_equal.
  unfold st1, set_variables; cbn.
  rewrite insert_insert_eq.
  replace (a + b - b)%Z with a by lia.
  rewrite (insert_id _ _ _ H). apply state_eta.
Qed.

Lemma integer_updates_are_exact_witness :
  visit python_code 1 (MultiplyNode (Some "n") (Lit (VInt 12345678901234567890))) scalar_state
    = Ok VNone
        (set_variables (fun vars => <[Some "n" := VInt (5 * 12345678901234567890)]> vars)
           scalar_state)
  /\ execute caml_code 1
       [IncreaseNode (Some "n") (Lit (VInt 7)); DecreaseNode (Some "n") (Lit (VInt 7))]
       scalar_state
     = Ok tt scalar_state.
Proof.
  destruct (integer_updates_are_exact python_code 0 (Some "n") 5 12345678901234567890
              scalar_state eq_refl) as (_ & _ & HM & _).
  destruct (integer_updates_are_exact caml_code 0 (Some "n") 5 7 scalar_state eq_refl)
    as (_ & _ & _ & _ & HR).
  split; [exact HM | exact HR].
Defined.

(** ** Variables *)

(** X4: [Block] removes the variable from the scalar namespace and touches
    nothing else: afterwards the name is unbound there, every other name
    holds what it held, and blocking a name that is not bound changes
    nothing and raises nothing. *)
Theorem block_removes_only_its_variable :
  forall d fuel n st,
    exists st',
      visit d (S fuel) (BlockVarNode n) st = Ok VNone st'
      /\ variables st' !! n = None
      /\ (forall m, m <> n -> variables st' !! m = variables st !! m)
      /\ lists st' = lists st /\ dicts st' = dicts st /\ functions st' = functions st
      /\ stdout st' = stdout st
      /\ (variables st !! n = None -> st' = st).
Proof.
  intros d fuel n st.
  exists (set_variables (fun vars => delete n vars) st).
  split; [destruct d; reflexivity|].
  split; [apply lookup_delete_eq|].
  split; [intros m Hm; cbn; apply lookup_delete_ne; congruence|].
  repeat (split; [reflexivity|]).
  intros Hn. unfold set_variables. rewrite (delete_id _ _ Hn). apply state_eta.
Qed.

(** ** Functions *)

(** X5: abbreviating a function that is not defined changes nothing and
    raises nothing; abbreviating a defined one binds the new name to the
    same definition, after which a call through either name has the same
    outcome, whatever the arguments. *)
Theorem abbreviation_is_an_alias :
  (forall d fuel o nw st,
      functions st !! o = None ->
      visit d (S fuel) (FunctionAbbrevNode o nw) st = Ok VNone st)
  /\ (forall d fuel o nw func st,
      functions st !! o = Some func ->
      exists st',
        visit d (S fuel) (FunctionAbbrevNode o nw) st = Ok VNone st'
        /\ functions st' !! nw = Some func
        /\ functions st' !! o = Some func
        /\ forall fuel' args,
             visit d fuel' (FunctionCallNode nw args) st'
             = visit d fuel' (FunctionCallNode o args) st').
Proof.
  split.
  - intros d fuel o nw st H. rewrite visit_unfold. cbn [dispatch].
    unfold visit_FunctionAbbrevNode, bind, get_state. rewrite H. reflexivity.
  - intros d fuel o nw func st H.
    exists (set_functions (fun fs => <[nw := func]> fs) st).
    assert (Hn : functions (set_functions (fun fs => <[nw := func]> fs) st) !! nw
                 = Some func) by apply lookup_insert_eq.
    assert (Ho : functions (set_functions (fun fs => <[nw := func]> fs) st) !! o
                 = Some func).
    { cbn. destruct (decide (nw = o)) as [->|Hne];
        [apply lookup_insert_eq | rewrite lookup_insert_ne by exact Hne; exact H]. }
    split.
    { rewrite visit_unfold. cbn [dispatch].
      unfold visit_FunctionAbbrevNode, bind, get_state. rewrite H. reflexivity. }
    split; [exact Hn|]. split; [exact Ho|].
    intros [|fuel'] args; [reflexivity|].
    rewrite !visit_unfold. cbn [dispatch]. unfold visit_FunctionCallNode.
    unfold bind at 1, get_state at 1. symmetry.
    unfold bind at 1, get_state at 1. rewrite Hn, Ho. reflexivity.
Qed.

Lemma abbreviation_is_an_alias_witness :
  visit python_code 1 (FunctionAbbrevNode (Some "nosuch") (Some "short")) caller_state
    = Ok VNone caller_state
  /\ exists st',
       visit caml_code 1 (FunctionAbbrevNode (Some "sq") (Some "s2")) caller_state
         = Ok VNone st'
       /\ functions st' !! Some "s2" = Some (square_function (Some "sq"))
       /\ functions st' !! Some "sq" = Some (square_function (Some "sq"))
       /\ forall fuel' args,
            visit caml_code fuel' (FunctionCallNode (Some "s2") args) st'
            = visit caml_code fuel' (FunctionCallNode (Some "sq") args) st'.
Proof.
  destruct abbreviation_is_an_alias as [H1 H2]. split.
  - apply H1. reflexivity.
  - apply H2. reflexivity.
Defined.

Lemma call_restores_variables_witness :
  functions caller_state !! Some "sq" = Some (square_function (Some "sq"))
  /\ visit caml_code 2 (FunctionCallNode (Some "sq") [Lit (VInt 4)]) caller_state
     = Ok (VInt 16) caller_state
  /\ variables caller_state = variables caller_state.
Proof.
  assert (HF : functions caller_state !! Some "sq" = Some (square_function (Some "sq")))
    by reflexivity.
  assert (HV : visit caml_code 2 (FunctionCallNode (Some "sq") [Lit (VInt 4)]) caller_state
               = Ok (VInt 16) caller_state) by (vm_compute; reflexivity).
  split; [exact HF|]. split; [exact HV|].
  exact (call_restores_variables caml_code 1 (Some "sq") [Lit (VInt 4)]
           (square_function (Some "sq")) caller_state (VInt 16) caller_state HF HV).
Defined.

(** ** Lists *)

Lemma mapM_resolve_lits d sv vs st :
  mapM (_resolve_value d sv) (map Lit vs) st = Ok (map (resolved st) vs) st.
Proof.
  induction vs as [|v vs IH]; [reflexivity|].
  cbn [map mapM]. unfold bind at 1. rewrite resolve_lit.
  unfold bind at 1. rewrite IH. reflexivity.
Qed.

Lemma list_store_eta st h :
  list_store st = h -> set_list_store (fun _ => h) st = st.
Proof. intros <-. apply state_eta. Qed.

(** X6: assigning a list to a variable shares the list, it does not copy
    it: after [Assign l to m], where [l] names a list, [m] holds the very
    list object that [l] names, so an item added to the list [l] afterwards
    is an item of what [m] holds. *)
Theorem assigned_list_is_shared :
  forall d fuel m l loc items k st,
    lists st !! Some l = Some loc ->
    list_store st !! loc = Some items ->
    exists st',
      execute d (S fuel)
        [AssignNode m (Lit (VStr l)); ListAddNode (Some l) (Lit (VInt k))] st
      = Ok tt st'
      /\ variables st' !! m = Some (VList loc)
      /\ lists st' !! Some l = Some loc
      /\ list_store st' !! loc = Some (items ++ [VInt k]).
Proof.
  intros d fuel m l loc items k st HL HS.
  set (st1 := set_variables (fun vars => <[m := VList loc]> vars) st).
  exists (set_list_store (fun h => <[loc := items ++ [VInt k]]> h) st1).
  assert (HA : visit d (S fuel) (AssignNode m (Lit (VStr l))) st = Ok VNone st1).
  { rewrite visit_unfold. cbn [dispatch].
    unfold visit_AssignNode, _set_var. unfold bind at 1. unfold bind at 1.
    rewrite resolve_lit. cbn [resolved]. unfold lookup_name. rewrite HL. reflexivity. }
  assert (HB : visit d (S fuel) (ListAddNode (Some l) (Lit (VInt k))) st1
               = Ok VNone (set_list_store (fun h => <[loc := items ++ [VInt k]]> h) st1)).
  { rewrite visit_unfold. cbn [dispatch]. unfold visit_ListAddNode.
    unfold bind at 1. rewrite resolve_lit. unfold bind at 1, get_state at 1.
    replace (lists st1 !! Some l) with (Some loc) by (symmetry; exact HL).
    unfold bind, ret, list_append, list_items, bind, modify.
    replace (list_store st1 !! loc) with (Some items) by (symmetry; exact HS).
    reflexivity. }
  split.
  { unfold execute. rewrite forM_cons, HA, forM_cons, HB. reflexivity. }
  split; [apply lookup_insert_eq|]. split; [exact HL|].
  cbn. apply list_lookup_insert_eq. eapply lookup_lt_Some, HS.
Qed.

Lemma assigned_list_is_shared_witness :
  exists st',
    execute python_code 1
      [AssignNode (Some "copy") (Lit (VStr "nums")); ListAddNode (Some "nums") (Lit (VInt 3))]
      nums_state
    = Ok tt st'
    /\ variables st' !! Some "copy" = Some (VList 0)
    /\ lists st' !! Some "nums" = Some 0
    /\ list_store st' !! 0 = Some ([VInt 1; VInt 2] ++ [VInt 3]).
Proof.
  apply (assigned_list_is_shared python_code 0 (Some "copy") "nums" 0 [VInt 1; VInt 2] 3
           nums_state); reflexivity.
Defined.

(** X7: [Create list] binds its name to a new list object that holds the
    resolved elements in order.  No list object that existed before is
    changed, so whatever still refers to the list that the name stood for
    sees the old items; the other list names and the scalars stay. *)
Theorem create_list_makes_a_new_object :
  forall d fuel n vs st,
    exists st',
      visit d (S fuel) (ListNode n (map Lit vs)) st = Ok VNone st'
      /\ lists st' !! n = Some (length (list_store st))
      /\ list_store st' !! length (list_store st) = Some (map (resolved st) vs)
      /\ (forall l items, list_store st !! l = Some items ->
            list_store st' !! l = Some items)
      /\ (forall m, m <> n -> lists st' !! m = lists st !! m)
      /\ variables st' = variables st.
Proof.
  intros d fuel n vs st.
  exists (set_lists (fun ls => <[n := length (list_store st)]> ls)
            (set_list_store (fun h => h ++ [map (resolved st) vs]) st)).
  split.
  { rewrite visit_unfold. cbn [dispatch]. unfold visit_ListNode.
    unfold bind at 1. rewrite mapM_resolve_lits. reflexivity. }
  split; [apply lookup_insert_eq|].
  split; [cbn; apply lookup_last|].
  split; [intros l items H; cbn; apply lookup_app_l_Some, H|].
  split; [intros m Hm; cbn; apply lookup_insert_ne; congruence|].
  reflexivity.
Qed.

Lemma find_eq_ints k zs i :
  exists r,
    find_eq (VInt k) (map VInt zs) i = PRet r
    /\ match r with
       | None => remove_first k zs = zs
       | Some j => i <= j
                   /\ delete (j - i) (map VInt zs) = map VInt (remove_first k zs)
       end.
Proof.
  revert i. induction zs as [|z zs IH]; intros i.
  - exists None. split; reflexivity.
  - cbn [map find_eq remove_first]. cbn [py_eq as_num pyres_bind].
    destruct (z =? k)%Z.
    + exists (Some i). split; [reflexivity|]. split; [lia|].
      rewrite Nat.sub_diag. reflexivity.
    + destruct (IH (S i)) as (r & Hr & Hspec). exists r. split; [exact Hr|].
      destruct r as [j|].
      * destruct Hspec as (Hle & Hdel). split; [lia|].
        replace (j - i) with (S (j - S i)) by lia.
        change (delete (S (j - S i)) (VInt z :: map VInt zs))
          with (VInt z :: delete (j - S i) (map VInt zs)).
        now rewrite Hdel.
      * now rewrite Hspec.
Qed.

(** X8: [Remove] from a list name that is not bound changes nothing and
    raises nothing; from a list of integers it removes the first occurrence
    of the integer and keeps the later ones, and leaves the list as it is
    when the integer does not occur. *)
Theorem list_remove_first_occurrence :
  (forall d fuel n v st,
      lists st !! n = None ->
      visit d (S fuel) (ListRemoveNode n (Lit v)) st = Ok VNone st)
  /\ (forall d fuel n l zs k st,
      lists st !! n = Some l ->
      list_store st !! l = Some (map VInt zs) ->
      visit d (S fuel) (ListRemoveNode n (Lit (VInt k))) st
      = Ok VNone
          (set_list_store (fun h => <[l := map VInt (remove_first k zs)]> h) st)).
Proof.
  split.
  - intros d fuel n v st H. rewrite visit_unfold. cbn [dispatch].
    unfold visit_ListRemoveNode. unfold bind at 1. rewrite resolve_lit.
    unfold bind, get_state. rewrite H. reflexivity.
  - intros d fuel n l zs k st HL HS. rewrite visit_unfold. cbn [dispatch].
    unfold visit_ListRemoveNode. unfold bind at 1. rewrite resolve_lit.
    unfold bind at 1, get_state at 1. rewrite HL.
    unfold bind at 1, list_items. rewrite HS.
    destruct (find_eq_ints k zs 0) as (r & Hr & Hspec).
    unfold bind at 1. cbn [resolved]. rewrite Hr. cbn [lift ret].
    destruct r as [j|].
    + destruct Hspec as (_ & Hdel). rewrite Nat.sub_0_r in Hdel.
      unfold bind, modify, ret. rewrite Hdel. reflexivity.
    + rewrite Hspec. unfold ret. f_equal. symmetry.
      unfold set_list_store. rewrite (list_insert_id _ _ _ HS). apply state_eta.
Qed.

Lemma list_remove_first_occurrence_witness :
  visit python_code 1 (ListRemoveNode (Some "nosuch") (Lit (VInt 1))) nums_state
    = Ok VNone nums_state
  /\ visit caml_code 1 (ListRemoveNode (Some "nums") (Lit (VInt 1))) nums_state
    = Ok VNone
        (set_list_store (fun h => <[0 := map VInt (remove_first 1 [1; 2]%Z)]> h)
           nums_state).
Proof.
  destruct list_remove_first_occurrence as [H1 H2]. split.
  - apply H1. reflexivity.
  - apply (H2 caml_code 0 (Some "nums") 0 [1; 2]%Z 1%Z nums_state); reflexivity.
Defined.

(** ** Dictionaries *)

Lemma dict_get_set_eq k v es : dict_get k (dict_set k v es) = Some v.
Proof.
  induction es as [|[k' v'] es IH]; cbn [dict_set dict_get].
  - rewrite decide_True by reflexivity. reflexivity.
  - destruct (decide (k' = k)) as [->|Hne]; cbn [dict_get].
    + rewrite decide_True by reflexivity. reflexivity.
    + rewrite decide_False by exact Hne. exact IH.
Qed.

Lemma dict_get_set_ne k k' v es :
  k' <> k -> dict_get k' (dict_set k v es) = dict_get k' es.
Proof.
  intros Hne. induction es as [|[k0 v0] es IH]; cbn [dict_set dict_get].
  - rewrite decide_False by congruence. reflexivity.
  - destruct (decide (k0 = k)) as [->|Hk]; cbn [dict_get].
    + rewrite !decide_False by congruence. reflexivity.
    + destruct (decide (k0 = k')); [reflexivity | exact IH].
Qed.

Lemma dict_get_None_keys k es : dict_get k es = None <-> ~ In k (dict_keys es).
Proof.
  induction es as [|[k' v'] es IH]; cbn [dict_get dict_keys map fst In].
  - tauto.
  - destruct (decide (k' = k)) as [->|Hne].
    + split; [discriminate | intros H; exfalso; apply H; now left].
    + rewrite IH. unfold dict_keys. tauto.
Qed.

Lemma dict_keys_set k v es :
  dict_keys (dict_set k v es)
  = match dict_get k es with
    | Some _ => dict_keys es
    | None => dict_keys es ++ [k]
    end.
Proof.
  induction es as [|[k' v'] es IH]; cbn [dict_set dict_get dict_keys map fst app].
  - reflexivity.
  - destruct (decide (k' = k)) as [->|Hne]; cbn [map fst]; [reflexivity|].
    unfold dict_keys in IH. rewrite IH. destruct (dict_get k es); reflexivity.
Qed.

Lemma dict_del_set_fresh k v es :
  dict_get k es = None -> dict_del k (dict_set k v es) = es.
Proof.
  induction es as [|[k' v'] es IH]; cbn [dict_set dict_get dict_del]; intros H.
  - rewrite decide_True by reflexivity. reflexivity.
  - destruct (decide (k' = k)) as [->|Hne]; [discriminate|].
    cbn [dict_del]. rewrite decide_False by exact Hne. now rewrite IH.
Qed.

Lemma visit_dict_add_present d fuel n k v l es st :
  dicts st !! n = Some l ->
  dict_store st !! l = Some es ->
  visit d (S fuel) (DictAddNode n k (Lit v)) st
  = Ok VNone (set_dict_store (fun h => <[l := dict_set k (resolved st v) es]> h) st).
Proof.
  intros HD HS. rewrite visit_unfold. cbn [dispatch]. unfold visit_DictAddNode.
  unfold bind at 1. rewrite resolve_lit. unfold bind at 1, get_state at 1. rewrite HD.
  unfold bind, ret, dict_store_set, dict_entries, bind, modify. rewrite HS. reflexivity.
Qed.

(** X9: [Add] to a dictionary.  When the name is bound to no dictionary,
    a new one is created that holds just the new entry.  When it is, the
    entry is stored in that dictionary: the key then maps to the resolved
    value, every other key maps to what it did, a key that was present keeps
    its place in the order of the keys and a new key goes last. *)
Theorem dict_add_then_lookup :
  (forall d fuel n k v st,
      dicts st !! n = None ->
      exists st',
        visit d (S fuel) (DictAddNode n k (Lit v)) st = Ok VNone st'
        /\ dicts st' !! n = Some (length (dict_store st))
        /\ dict_store st' !! length (dict_store st) = Some [(k, resolved st v)])
  /\ (forall d fuel n k v l es st,
      dicts st !! n = Some l ->
      dict_store st !! l = Some es ->
      exists es',
        visit d (S fuel) (DictAddNode n k (Lit v)) st
        = Ok VNone (set_dict_store (fun h => <[l := es']> h) st)
        /\ dict_get k es' = Some (resolved st v)
        /\ (forall k', k' <> k -> dict_get k' es' = dict_get k' es)
        /\ (In k (dict_keys es) -> dict_keys es' = dict_keys es)
        /\ (~ In k (dict_keys es) -> dict_keys es' = dict_keys es ++ [k])).
Proof.
  split.
  - intros d fuel n k v st HD.
    exists (set_dict_store (fun h => h ++ [[(k, resolved st v)]])
              (set_dicts (fun ds => <[n := length (dict_store st)]> ds) st)).
    split.
    { rewrite visit_unfold. cbn [dispatch]. unfold visit_DictAddNode.
      unfold bind at 1. rewrite resolve_lit. unfold bind at 1, get_state at 1.
      rewrite HD.
      unfold bind, new_dict, modify, ret, dict_store_set, dict_entries, bind, modify.
      cbn [dict_store set_dicts set_dict_store].
      rewrite lookup_last. unfold set_dict_store, set_dicts. cbn.
      rewrite insert_last. reflexivity. }
    split; [apply lookup_insert_eq | cbn; apply lookup_last].
  - intros d fuel n k v l es st HD HS.
    exists (dict_set k (resolved st v) es).
    split; [apply visit_dict_add_present; assumption|].
    split; [apply dict_get_set_eq|].
    split; [intros k' Hk; apply dict_get_set_ne, Hk|].
    rewrite dict_keys_set.
    split; intros Hin.
    + destruct (dict_get k es) eqn:E; [reflexivity|].
      apply dict_get_None_keys in E. contradiction.
    + apply dict_get_None_keys in Hin. now rewrite Hin.
Qed.

Lemma dict_add_then_lookup_witness :
  (exists st',
     visit python_code 1 (DictAddNode (Some "ages") (Some "ann") (Lit (VInt 30)))
       (initial_state [])
     = Ok VNone st'
     /\ dicts st' !! Some "ages" = Some (length (dict_store (initial_state [])))
     /\ dict_store st' !! length (dict_store (initial_state []))
        = Some [(Some "ann", resolved (initial_state []) (VInt 30))])
  /\ (exists es',
     visit caml_code 1 (DictAddNode (Some "ages") (Some "bob") (Lit (VInt 41))) ages_state
     = Ok VNone (set_dict_store (fun h => <[0 := es']> h) ages_state)
     /\ dict_get (Some "bob") es' = Some (resolved ages_state (VInt 41))
     /\ (forall k', k' <> Some "bob" ->
           dict_get k' es' = dict_get k' [(Some "ann", VInt 30)])
     /\ (In (Some "bob") (dict_keys [(Some "ann", VInt 30)]) ->
           dict_keys es' = dict_keys [(Some "ann", VInt 30)])
     /\ (~ In (Some "bob") (dict_keys [(Some "ann", VInt 30)]) ->
           dict_keys es' = dict_keys [(Some "ann", VInt 30)] ++ [Some "bob"])).
Proof.
  destruct dict_add_then_lookup as [H1 H2]. split.
  - apply H1. reflexivity.
  - apply (H2 caml_code 0 (Some "ages") (Some "bob") (VInt 41) 0
             [(Some "ann", VInt 30)] ages_state); reflexivity.
Defined.

(** X10: [Remove] from a dictionary.  A name bound to no dictionary, or a
    key that the dictionary does not hold, changes nothing and raises
    nothing; and adding an entry under a new key and then removing that key
    gives back the state the two statements started from. *)
Theorem dict_remove_round_trip :
  (forall d fuel n k st,
      dicts st !! n = None ->
      visit d (S fuel) (DictRemoveNode n k) st = Ok VNone st)
  /\ (forall d fuel n k l es st,
      dicts st !! n = Some l ->
      dict_store st !! l = Some es ->
      dict_get k es = None ->
      visit d (S fuel) (DictRemoveNode n k) st = Ok VNone st
      /\ forall v,
           execute d (S fuel) [DictAddNode n k (Lit v); DictRemoveNode n k] st
           = Ok tt st).
Proof.
  split.
  - intros d fuel n k st HD. rewrite visit_unfold. cbn [dispatch].
    unfold visit_DictRemoveNode, bind, get_state. rewrite HD. reflexivity.
  - intros d fuel n k l es st HD HS HK.
    assert (Hl : l < length (dict_store st)) by (eapply lookup_lt_Some, HS).
    split.
    + rewrite visit_unfold. cbn [dispatch].
      unfold visit_DictRemoveNode. unfold bind at 1, get_state at 1. rewrite HD.
      unfold bind, dict_entries. rewrite HS, HK. reflexivity.
    + intros v. unfold execute.
      rewrite forM_cons, (visit_dict_add_present d fuel n k v l es st HD HS).
      set (es1 := dict_set k (resolved st v) es).
      set (st1 := set_dict_store (fun h => <[l := es1]> h) st).
      rewrite forM_cons.
      assert (HR : visit d (S fuel) (DictRemoveNode n k) st1
                   = Ok VNone (set_dict_store (fun h => <[l := dict_del k es1]> h) st1)).
      { rewrite visit_unfold. cbn [dispatch]. unfold visit_DictRemoveNode.
        unfold bind at 1, get_state at 1.
        replace (dicts st1 !! n) with (Some l) by (symmetry; exact HD).
        unfold bind at 1, dict_entries.
        replace (dict_store st1 !! l) with (Some es1)
          by (symmetry; cbn; apply list_lookup_insert_eq, Hl).
        unfold es1 at 1. rewrite dict_get_set_eq. reflexivity. }
      rewrite HR. cbn [forM_ ret]. f_equal.
      unfold es1. rewrite (dict_del_set_fresh _ _ _ HK).
      unfold st1, set_dict_store; cbn.
      rewrite list_insert_insert_eq, (list_insert_id _ _ _ HS). apply state_eta.
Qed.

Lemma dict_remove_round_trip_witness :
  visit caml_code 1 (DictRemoveNode (Some "ages") (Some "ann")) (initial_state [])
    = Ok VNone (initial_state [])
  /\ visit python_code 1 (DictRemoveNode (Some "ages") (Some "bob")) ages_state
      = Ok VNone ages_state
  /\ forall v,
       execute python_code 1
         [DictAddNode (Some "ages") (Some "bob") (Lit v);
          DictRemoveNode (Some "ages") (Some "bob")] ages_state
       = Ok tt ages_state.
Proof.
  destruct dict_remove_round_trip as [H1 H2]. split.
  - apply H1. reflexivity.
  - apply (H2 python_code 0 (Some "ages") (Some "bob") 0 [(Some "ann", VInt 30)]
             ages_state); reflexivity.
Defined.

(** ** Objects *)

Lemma pyobject_eta o :
  {| properties := properties o; obj_functions := obj_functions o |} = o.
Proof. destruct o; reflexivity. Qed.

Lemma objects_eta st os : objects st = os -> set_objects (fun _ => os) st = st.
Proof. intros <-. apply state_eta. Qed.

(** The state that [ObjectSetPropNode] leaves. *)
Lemma visit_object_set_prop d fuel n p v st :
  visit d (S fuel) (ObjectSetPropNode n p (Lit v)) st
  = Ok VNone
      (set_objects
         (fun os => alter (set_properties (fun ps => <[p := resolved st v]> ps)) n os)
         (match objects st !! n with
          | Some _ => st
          | None => set_objects (fun os => <[n := empty_object]> os) st
          end)).
Proof.
  rewrite visit_unfold. cbn [dispatch]. unfold visit_ObjectSetPropNode.
  unfold bind at 1. unfold get_or_create_object. unfold bind at 1, get_state at 1.
  destruct (objects st !! n) as [o0|].
  - cbn [ret]. unfold bind at 1. rewrite resolve_lit. reflexivity.
  - unfold bind at 1, modify at 1. cbn [ret].
    unfold bind at 1. rewrite resolve_lit. reflexivity.
Qed.

(** X11: setting a property of an object stores the resolved value under
    the property's name, creating the object first when it does not exist;
    the object's other properties, the other objects and the scalars are
    what they were. *)
Theorem object_property_set_then_read :
  forall d fuel n p v st,
    exists st' o,
      visit d (S fuel) (ObjectSetPropNode n p (Lit v)) st = Ok VNone st'
      /\ objects st' !! n = Some o
      /\ properties o !! p = Some (resolved st v)
      /\ (forall q, q <> p ->
            properties o !! q
            = match objects st !! n with
              | Some o0 => properties o0 !! q
              | None => None
              end)
      /\ (forall m, m <> n -> objects st' !! m = objects st !! m)
      /\ variables st' = variables st.
Proof.
  intros d fuel n p v st. eexists. 
  exists (set_properties (fun ps => <[p := resolved st v]> ps)
            (default empty_object (objects st !! n))).
  split; [apply visit_object_set_prop|].
  destruct (objects st !! n) as [o0|] eqn:HO.
  - split; [cbn; rewrite lookup_alter_eq, HO; reflexivity|].
    split; [cbn; apply lookup_insert_eq|].
    split; [intros q Hq; cbn; apply lookup_insert_ne; congruence|].
    split; [intros m Hm; cbn; apply lookup_alter_ne; congruence | reflexivity].
  - split; [cbn; rewrite lookup_alter_eq, lookup_insert_eq; reflexivity|].
    split; [cbn; apply lookup_insert_eq|].
    split; [intros q Hq; cbn; rewrite lookup_insert_ne by congruence; apply lookup_empty|].
    split; [|reflexivity].
    intros m Hm. cbn. rewrite lookup_alter_ne by congruence.
    apply lookup_insert_ne. congruence.
Qed.

(** X12: changing, deleting or blocking a property never creates
    anything: when the object does not exist, or exists without the
    property, each of the three statements leaves the state as it was and
    raises nothing; the new value of a [Change] is not even evaluated. *)
Theorem missing_property_is_left_alone :
  forall d fuel n p e st,
    (objects st !! n = None
     \/ exists o, objects st !! n = Some o /\ properties o !! p = None) ->
    visit d (S fuel) (ObjectChangePropNode n p e) st = Ok VNone st
    /\ visit d (S fuel) (ObjectDeletePropNode n p) st = Ok VNone st
    /\ visit d (S fuel) (ObjectBlockPropNode n p) st = Ok VNone st.
Proof.
  intros d fuel n p e st H. rewrite !visit_unfold. cbn [dispatch].
  split; [|split].
  - unfold visit_ObjectChangePropNode, bind, get_state.
    destruct H as [-> | (o & -> & ->)]; reflexivity.
  - unfold visit_ObjectDeletePropNode, update_object, bind, modify, ret. f_equal.
    apply objects_eta. symmetry. apply alter_id. intros o Ho.
    destruct H as [H | (o' & H & Hp)]; [congruence|].
    assert (o' = o) by congruence. subst o'.
    unfold set_properties. rewrite (delete_id _ _ Hp). apply pyobject_eta.
  - unfold visit_ObjectBlockPropNode, update_object, bind, modify, ret. f_equal.
    apply objects_eta. symmetry. apply alter_id. intros o Ho.
    destruct H as [H | (o' & H & Hp)]; [congruence|].
    assert (o' = o) by congruence. subst o'.
    unfold set_properties. rewrite alter_id; [apply pyobject_eta|].
    intros x Hx. congruence.
Qed.

Lemma missing_property_is_left_alone_witness :
  visit caml_code 1
    (ObjectChangePropNode (Some "car") (Some "color") (Call (Some "paint") []))
    (initial_state [])
  = Ok VNone (initial_state [])
  /\ visit caml_code 1 (ObjectDeletePropNode (Some "car") (Some "color")) (initial_state [])
     = Ok VNone (initial_state [])
  /\ visit caml_code 1 (ObjectBlockPropNode (Some "car") (Some "color")) (initial_state [])
     = Ok VNone (initial_state []).
Proof.
  apply missing_property_is_left_alone. left. reflexivity.
Defined.

(** X13: declaring an object that already exists.  The python_code copy
    replaces it by an object without properties, so a property set before
    the second declaration is gone after it; the caml-code copy keeps the
    object, and the property still holds its value. *)
Theorem object_redeclaration :
  forall fuel n p v st,
    (exists st',
       execute python_code (S fuel)
         [ObjectSetPropNode n p (Lit v); ObjectNode n [] false] st = Ok tt st'
       /\ objects st' !! n = Some empty_object)
    /\ (exists st' o,
       execute caml_code (S fuel)
         [ObjectSetPropNode n p (Lit v); ObjectNode n [] false] st = Ok tt st'
       /\ objects st' !! n = Some o
       /\ properties o !! p = Some (resolved st v)).
Proof.
  intros fuel n p v st.
  set (f := set_properties (fun ps => <[p := resolved st v]> ps)).
  set (st0 := match objects st !! n with
              | Some _ => st
              | None => set_objects (fun os => <[n := empty_object]> os) st
              end).
  set (st1 := set_objects (fun os => alter f n os) st0).
  assert (H1 : objects st1 !! n = Some (f (default empty_object (objects st !! n)))).
  { unfold st1, st0. destruct (objects st !! n) as [o0|] eqn:HO; cbn.
    - rewrite lookup_alter_eq, HO. reflexivity.
    - rewrite lookup_alter_eq, lookup_insert_eq. reflexivity. }
  split.
  - exists (set_objects (fun os => <[n := empty_object]> os) st1).
    split; [|apply lookup_insert_eq].
    unfold execute. rewrite forM_cons, visit_object_set_prop. reflexivity.
  - exists st1, (f (default empty_object (objects st !! n))).
    split; [|split; [exact H1 | apply lookup_insert_eq]].
    unfold execute. rewrite forM_cons, visit_object_set_prop. fold f st0 st1.
    rewrite forM_cons, visit_unfold. cbn [dispatch]. unfold visit_ObjectNode.
    unfold bind at 1. unfold get_or_create_object.
    unfold bind at 1, get_state at 1. rewrite H1. reflexivity.
Qed.

(** ** Getters *)

(** X14: [Get length] never raises on a literal or an identifier: it
    returns the number of characters of a string and the number of items of
    a list, and 0 for a number, a boolean or [None]; the state is left as it
    was. *)
Theorem get_length_never_raises :
  forall d fuel v st,
    (forall s, resolved st v = VStr s ->
       visit d (S fuel) (GetLengthNode (Lit v)) st
       = Ok (VInt (Z.of_nat (String.length s))) st)
    /\ (forall l items, resolved st v = VList l -> list_store st !! l = Some items ->
       visit d (S fuel) (GetLengthNode (Lit v)) st
       = Ok (VInt (Z.of_nat (length items))) st)
    /\ (is_number (resolved st v) = true \/ resolved st v = VNone ->
       visit d (S fuel) (GetLengthNode (Lit v)) st = Ok (VInt 0) st).
Proof.
  intros d fuel v st.
  assert (E : visit d (S fuel) (GetLengthNode (Lit v)) st
              = except_Exception (n <- py_len (resolved st v) ;; ret (VInt n))
                  (ret (VInt 0)) st).
  { rewrite visit_unfold. cbn [dispatch]. unfold visit_GetLengthNode.
    unfold bind at 1. rewrite resolve_lit. reflexivity. }
  rewrite E. split; [|split].
  - intros s ->. reflexivity.
  - intros l items -> Hl. unfold except_Exception, bind, py_len, bind, list_items.
    rewrite Hl. reflexivity.
  - intros [H | ->]; [|reflexivity].
    destruct (resolved st v); try discriminate; reflexivity.
Qed.

Lemma get_length_never_raises_witness :
  visit python_code 1 (GetLengthNode (Lit (VStr "n"))) scalar_state
  = Ok (VInt 0) scalar_state.
Proof.
  destruct (get_length_never_raises python_code 0 (VStr "n") scalar_state)
    as (_ & _ & H).
  apply H. left. reflexivity.
Defined.

(** X15: [Get case] on a value whose text is [text].  With no mode the
    python_code copy returns the text as it is and the caml-code copy
    returns it in lower case; the modes [camel] and [pascal] give the same
    result; and the named modes give the transformed text in both copies. *)
Theorem get_case_modes :
  forall d fuel v st text,
    py_str (resolved st v) = PRet text ->
    visit d (S fuel) (GetCaseNode (Lit v) None) st
      = Ok (VStr (match d with python_code => text | caml_code => lower text end)) st
    /\ visit d (S fuel) (GetCaseNode (Lit v) (Some "upper")) st
       = Ok (VStr (upper text)) st
    /\ visit d (S fuel) (GetCaseNode (Lit v) (Some "lower")) st
       = Ok (VStr (lower text)) st
    /\ visit d (S fuel) (GetCaseNode (Lit v) (Some "snake")) st
       = Ok (VStr (snake text)) st
    /\ visit d (S fuel) (GetCaseNode (Lit v) (Some "camel")) st
       = Ok (VStr (camel text)) st
    /\ visit d (S fuel) (GetCaseNode (Lit v) (Some "pascal")) st
       = visit d (S fuel) (GetCaseNode (Lit v) (Some "camel")) st.
Proof.
  intros d fuel v st text H.
  repeat split; rewrite ?visit_unfold; cbn [dispatch]; unfold visit_GetCaseNode;
    unfold bind at 1; rewrite resolve_lit; try (unfold bind at 1; rewrite resolve_lit);
    unfold bind; rewrite H; destruct d; reflexivity.
Qed.

Lemma get_case_modes_witness :
  visit python_code 1 (GetCaseNode (Lit (VStr "Hello World")) None) (initial_state [])
    = Ok (VStr "Hello World") (initial_state [])
  /\ visit caml_code 1 (GetCaseNode (Lit (VStr "Hello World")) None) (initial_state [])
    = Ok (VStr (lower "Hello World")) (initial_state []).
Proof.
  destruct (get_case_modes python_code 0 (VStr "Hello World") (initial_state [])
              "Hello World" eq_refl) as (HP & _).
  destruct (get_case_modes caml_code 0 (VStr "Hello World") (initial_state [])
              "Hello World" eq_refl) as (HC & _).
  split; [exact HP | exact HC].
Defined.

(** ** Conditions *)

Lemma condition_unbound d sv s st :
  s <> "" -> unbound st s ->
  _evaluate_condition d sv (Lit (VStr s)) st = Ok true st.
Proof.
  intros Hs Hu. unfold _evaluate_condition. unfold bind at 1. rewrite resolve_lit.
  rewrite (resolved_unbound _ _ Hu). cbn [py_bool ret].
  destruct s; [congruence | reflexivity].
Qed.

(** X16: a condition is true when it is a name that is bound in no
    namespace: the name resolves to its own spelling, a string that is not
    empty.  An [If] on such a name runs its body and a [Do until] on it runs
    nothing.  The lexer gives the words [true] and [false] a token that
    carries the word as a string, so [If false] runs its body as long as no
    variable is called [false]. *)
Theorem unbound_name_is_true :
  (forall d fuel s body st,
      s <> "" -> unbound st s ->
      visit d (S fuel) (IfNode (Lit (VStr s)) body) st
        = (visit_all (visit d fuel) body ;;; ret VNone) st
      /\ visit d (S (S fuel)) (DoUntilNode (Lit (VStr s)) body) st = Ok VNone st)
  /\ (forall d,
      run d 4 (program ["If false"; "    Display " +:+ quoted "ran"]) []
      = Ran [IfNode (Lit (VStr "false")) [DisplayNode (Lit (VStr "ran")) false]]
          (Ok tt (set_stdout (fun _ => [Printed (VStr "ran")]) (initial_state [])))).
Proof.
  split.
  - intros d fuel s body st Hs Hu. split.
    + rewrite visit_unfold. cbn [dispatch]. unfold visit_IfNode.
      unfold bind at 1. rewrite (condition_unbound _ _ _ _ Hs Hu). reflexivity.
    + rewrite visit_unfold. cbn [dispatch]. unfold visit_DoUntilNode.
      unfold bind at 1. cbn [until_loop]. unfold bind at 1.
      rewrite (condition_unbound _ _ _ _ Hs Hu). reflexivity.
  - intros []; vm_compute; reflexivity.
Qed.

Lemma unbound_name_is_true_witness :
  visit python_code 2 (IfNode (Lit (VStr "false")) [DisplayNode (Lit (VInt 1)) false])
    scalar_state
  = (visit_all (visit python_code 1) [DisplayNode (Lit (VInt 1)) false] ;;; ret VNone)
      scalar_state
  /\ visit python_code 3
       (DoUntilNode (Lit (VStr "false")) [DisplayNode (Lit (VInt 1)) false]) scalar_state
     = Ok VNone scalar_state.
Proof.
  destruct unbound_name_is_true as [H _].
  apply H; [discriminate|]. repeat split; reflexivity.
Defined.

(** ** Repeat *)

Lemma no_digit_is_no_number ds :
  ds <> "" -> all_chars isdigit ds = true -> any_char isdigit ds = true.
Proof.
  destruct ds as [|c ds]; [congruence|]. cbn. intros _ H.
  apply andb_prop in H as [-> _]. reflexivity.
Qed.

Lemma py_int_no_digit s : any_char isdigit s = false -> py_int (VStr s) = PErr ValueError.
Proof.
  intros H. unfold py_int.
  assert (G : forall ds, any_char isdigit ds = false ->
                negb (String.eqb ds "") && all_chars isdigit ds = false).
  { intros ds Hd. destruct (String.eqb_spec ds "") as [->|Hne]; [reflexivity|].
    cbn [negb andb]. destruct (all_chars isdigit ds) eqn:E; [|reflexivity].
    rewrite (no_digit_is_no_number ds Hne E) in Hd. discriminate. }
  destruct s as [|c s']; [reflexivity|].
  assert (Hs' : any_char isdigit s' = false).
  { cbn in H. apply orb_false_elim in H as [_ H]. exact H. }
  destruct c as [[] [] [] [] [] [] [] []];
    rewrite ?(G _ Hs'), ?(G _ H), ?H; reflexivity.
Qed.

(** X17: [Repeat].  A count that is zero or negative runs nothing and
    leaves the state as it was; a count of [k + 1] runs the body once and
    then repeats it [k] times; a count that is an unbound name without a
    digit raises [ValueError], since the name resolves to its own spelling
    and [int] cannot read it; a count of [None] raises [TypeError]. *)
Theorem repeat_counts :
  (forall d fuel n body st,
      (n <= 0)%Z ->
      visit d (S fuel) (RepeatNode (Lit (VInt n)) body) st = Ok VNone st)
  /\ (forall d fuel k body st,
      visit d (S fuel) (RepeatNode (Lit (VInt (Z.of_nat (S k)))) body) st
      = (visit_all (visit d fuel) body ;;;
         visit d (S fuel) (RepeatNode (Lit (VInt (Z.of_nat k))) body)) st)
  /\ (forall d fuel s body st,
      unbound st s -> any_char isdigit s = false ->
      visit d (S fuel) (RepeatNode (Lit (VStr s)) body) st = Raise ValueError st)
  /\ (forall d fuel body st,
      visit d (S fuel) (RepeatNode (Lit VNone) body) st = Raise TypeError st).
Proof.
  split; [|split; [|split]].
  - intros d fuel n body st Hn. rewrite visit_unfold. cbn [dispatch].
    unfold visit_RepeatNode. unfold bind at 1. rewrite resolve_lit.
    cbn [resolved]. unfold bind at 1. cbn [py_int lift ret].
    replace (Z.to_nat n) with 0 by lia. reflexivity.
  - intros d fuel k body st.
    assert (E : forall j s0,
               visit d (S fuel) (RepeatNode (Lit (VInt (Z.of_nat j))) body) s0
               = (repeat_loop (visit d fuel) j body ;;; ret VNone) s0).
    { intros j s0. rewrite visit_unfold. cbn [dispatch].
      unfold visit_RepeatNode. unfold bind at 1. rewrite resolve_lit.
      cbn [resolved]. unfold bind at 1. unfold py_int, lift, ret.
      rewrite Nat2Z.id. reflexivity. }
    rewrite E. cbn [repeat_loop]. unfold bind.
    destruct (visit_all (visit d fuel) body st) as [[] st1| | |]; try reflexivity.
    rewrite E. reflexivity.
  - intros d fuel s body st Hu Hd. rewrite visit_unfold. cbn [dispatch].
    unfold visit_RepeatNode. unfold bind at 1. rewrite resolve_lit.
    rewrite (resolved_unbound _ _ Hu). unfold bind at 1.
    rewrite (py_int_no_digit s Hd). reflexivity.
  - intros d fuel body st. reflexivity.
Qed.

Lemma repeat_counts_witness :
  visit python_code 1 (RepeatNode (Lit (VInt (-2))) [DisplayNode (Lit (VInt 1)) false])
    (initial_state [])
    = Ok VNone (initial_state [])
  /\ visit caml_code 1 (RepeatNode (Lit (VStr "n")) []) (initial_state [])
    = Raise ValueError (initial_state []).
Proof.
  destruct repeat_counts as (H1 & _ & H3 & _). split.
  - apply H1. lia.
  - apply H3; [repeat split; reflexivity | reflexivity].
Defined.

(** ** Interact *)

(** X18: at the end of the input stream no line arrives: [input] raises
    [EOFError] after the prompt was written, and [Interact] lets the
    exception pass, since it catches only the interrupt. *)
Theorem interact_raises_at_end_of_input :
  forall d fuel p bold st text,
    py_str (resolved st p) = PRet text ->
    stdin st = [] ->
    visit d (S fuel) (InteractNode (Lit p) bold) st
    = Raise EOFError
        (set_stdout (fun o =>
           o ++ [Prompted ((if bold then "**" +:+ text +:+ "**" else text) +:+ ": ")])
           st).
Proof.
  intros d fuel p bold st text Hstr Hin.
  rewrite visit_unfold. cbn [dispatch]. unfold visit_InteractNode.
  unfold bind at 1. rewrite resolve_lit.
  destruct bold.
  - unfold bind at 1. unfold bold_text. unfold bind at 1. rewrite Hstr. cbn [lift ret].
    unfold except_KeyboardInterrupt, bind. cbn [py_str lift ret].
    unfold py_input. cbn [stdin set_stdout]. rewrite Hin. reflexivity.
  - unfold bind at 1. cbn [ret].
    unfold except_KeyboardInterrupt, bind. rewrite Hstr. cbn [lift ret].
    unfold py_input. cbn [stdin set_stdout]. rewrite Hin. reflexivity.
Qed.

Lemma interact_raises_at_end_of_input_witness :
  visit caml_code 1 (InteractNode (Lit (VStr "Your name")) true) (initial_state [])
  = Raise EOFError
      (set_stdout (fun o => o ++ [Prompted ("**" +:+ "Your name" +:+ "**" +:+ ": ")])
         (initial_state [])).
Proof.
  apply (interact_raises_at_end_of_input caml_code 0 (VStr "Your name") true
           (initial_state []) "Your name"); reflexivity.
Defined.

(** ** ForEach over a list that its body extends *)

Lemma visit_list_add_present d fuel n v loc items st :
  lists st !! n = Some loc ->
  list_store st !! loc = Some items ->
  visit d (S fuel) (ListAddNode n (Lit v)) st
  = Ok VNone (set_list_store (fun h => <[loc := items ++ [resolved st v]]> h) st).
Proof.
  intros HL HS. rewrite visit_unfold. cbn [dispatch]. unfold visit_ListAddNode.
  unfold bind at 1. rewrite resolve_lit. unfold bind at 1, get_state at 1. rewrite HL.
  unfold bind, ret, list_append, list_items, bind, modify. rewrite HS. reflexivity.
Qed.

Lemma foreach_loop_never_ends d fuel var n loc v :
  forall lf i items st,
    lists st !! n = Some loc ->
    list_store st !! loc = Some items ->
    i < length items ->
    foreach_loop d (visit d (S fuel)) lf var [ListAddNode n (Lit v)] loc i st
    = OutOfFuel.
Proof.
  induction lf as [|lf IH]; intros i items st HL HS Hi; [reflexivity|].
  cbn [foreach_loop]. unfold bind at 1, list_items. rewrite HS.
  destruct (lookup_lt_is_Some_2 items i Hi) as [item Hitem]. rewrite Hitem.
  unfold bind at 1. unfold _set_var at 1. unfold bind at 1. rewrite resolve_lit.
  unfold modify at 1.
  set (st1 := set_variables (fun vars => <[var := resolved st item]> vars) st).
  unfold bind at 1. unfold visit_all. rewrite forM_cons.
  rewrite (visit_list_add_present d fuel n v loc items st1 HL HS).
  cbn [forM_ ret].
  apply (IH (S i) (items ++ [resolved st1 v])).
  - exact HL.
  - cbn. apply list_lookup_insert_eq. eapply lookup_lt_Some, HS.
  - rewrite length_app. cbn. lia.
Qed.

(** X20: a [For each] over a list that is not empty, whose body adds an
    item to that same list, never ends: the loop reads the list as it is at
    each step, so there is always a next item.  Whatever the fuel, the
    statement runs out of it. *)
Theorem foreach_over_growing_list_never_ends :
  forall d fuel var n loc items v st,
    lists st !! n = Some loc ->
    list_store st !! loc = Some items ->
    items <> [] ->
    visit d fuel (ForEachNode var n [ListAddNode n (Lit v)]) st = OutOfFuel.
Proof.
  intros d fuel var n loc items v st HL HS Hne.
  destruct fuel as [|fuel]; [reflexivity|].
  rewrite visit_unfold. cbn [dispatch]. unfold visit_ForEachNode.
  unfold bind at 1. rewrite (foreach_iterable_list _ _ _ _ _ HL HS Hne).
  unfold bind at 1.
  destruct fuel as [|fuel]; [reflexivity|].
  rewrite (foreach_loop_never_ends d fuel var n loc v (S fuel) 0 items st HL HS);
    [reflexivity|].
  destruct items; [congruence | cbn; lia].
Qed.

Lemma foreach_over_growing_list_never_ends_witness :
  visit caml_code 50
    (ForEachNode (Some "item") (Some "nums") [ListAddNode (Some "nums") (Lit (VInt 0))])
    nums_state
  = OutOfFuel.
Proof.
  apply (foreach_over_growing_list_never_ends caml_code 50 (Some "item") (Some "nums")
           0 [VInt 1; VInt 2] (VInt 0) nums_state);
    [reflexivity | reflexivity | discriminate].
Defined.

(** ** Math functions *)

(** X21: a math function reads its arguments by position.  [Square of]
    and [Squareroot of], the greatest common divisor and the least common
    multiple raise [IndexError] when they have no argument.  With one
    argument the divisor and the multiple first convert it with [int]: when
    the conversion succeeds they raise [IndexError] for the missing second
    argument, and when it fails they raise the error of the conversion
    ([ValueError] for an unbound name without a digit, [TypeError] for
    [None]).  On
    integers the square, the divisor and the multiple are exact; the least
    common multiple of 0 and 0 raises [ZeroDivisionError]. *)
Theorem math_function_arguments :
  forall d fuel st,
    (forall f, In f ["SQUARE"; "SQUAREROOT"; "GCD"; "LCM"] ->
       visit d (S fuel) (MathFuncNode (Some f) []) st = Raise IndexError st)
    /\ (forall f v, In f ["GCD"; "LCM"] ->
       visit d (S fuel) (MathFuncNode (Some f) [Lit v]) st
       = match py_int (resolved st v) with
         | PRet _ => Raise IndexError st
         | PErr e => Raise e st
         | PUnmodelled => Unmodelled
         end)
    /\ (forall f, In f ["GCD"; "LCM"] ->
       (forall a,
          visit d (S fuel) (MathFuncNode (Some f) [Lit (VInt a)]) st
          = Raise IndexError st)
       /\ visit d (S fuel) (MathFuncNode (Some f) [Lit VNone]) st = Raise TypeError st
       /\ (forall s, unbound st s -> any_char isdigit s = false ->
             visit d (S fuel) (MathFuncNode (Some f) [Lit (VStr s)]) st
             = Raise ValueError st))
    /\ (forall a,
       visit d (S fuel) (MathFuncNode (Some "SQUARE") [Lit (VInt a)]) st
       = Ok (VInt (a * a)) st)
    /\ (forall a b,
       visit d (S fuel) (MathFuncNode (Some "GCD") [Lit (VInt a); Lit (VInt b)]) st
       = Ok (VInt (Z.gcd a b)) st)
    /\ (forall a b,
       visit d (S fuel) (MathFuncNode (Some "LCM") [Lit (VInt a); Lit (VInt b)]) st
       = if (Z.gcd a b =? 0)%Z then Raise ZeroDivisionError st
         else Ok (VInt (Z.abs (a * b) / Z.gcd a b)) st).
Proof.
  intros d fuel st.
  assert (One : forall f v, In f ["GCD"; "LCM"] ->
            visit d (S fuel) (MathFuncNode (Some f) [Lit v]) st
            = match py_int (resolved st v) with
              | PRet _ => Raise IndexError st
              | PErr e => Raise e st
              | PUnmodelled => Unmodelled
              end).
  { intros f v Hf. cbn in Hf.
    destruct Hf as [<-|[<-|[]]];
      rewrite visit_unfold; cbn [dispatch]; unfold visit_MathFuncNode;
      unfold bind at 1; rewrite (mapM_resolve_lits d _ [v]); cbn [map];
      unfold bind, arg_at; cbn [lookup list_lookup ret];
      destruct (py_int (resolved st v)); reflexivity. }
  split; [|split; [|split; [|split; [|split]]]].
  - intros f Hf. cbn in Hf.
    repeat (destruct Hf as [<-|Hf]; [destruct d; reflexivity|]). destruct Hf.
  - exact One.
  - intros f Hf. split; [|split].
    + intros a. rewrite (One f _ Hf). reflexivity.
    + rewrite (One f _ Hf). reflexivity.
    + intros s Hu Hs.
      rewrite (One f _ Hf), (resolved_unbound _ _ Hu), (py_int_no_digit _ Hs).
      reflexivity.
  - intros a. rewrite visit_unfold. cbn [dispatch]. unfold visit_MathFuncNode.
    unfold bind at 1. rewrite (mapM_resolve_lits d _ [VInt a]).
    cbn [map resolved]. unfold bind, arg_at. cbn [lookup list_lookup].
    unfold py_pow. cbn [as_num lift num_pow Z.leb Z.compare ret].
    rewrite Z.pow_2_r. reflexivity.
  - intros a b. rewrite visit_unfold. cbn [dispatch]. unfold visit_MathFuncNode.
    unfold bind at 1. rewrite (mapM_resolve_lits d _ [VInt a; VInt b]). reflexivity.
  - intros a b. rewrite visit_unfold. cbn [dispatch]. unfold visit_MathFuncNode.
    unfold bind at 1. rewrite (mapM_resolve_lits d _ [VInt a; VInt b]).
    change (map (resolved st) [VInt a; VInt b]) with [VInt a; VInt b].
    change ((if (Z.gcd a b =? 0)%Z then raise ZeroDivisionError
             else ret (VInt (Z.abs (a * b) / Z.gcd a b))) st
            = if (Z.gcd a b =? 0)%Z then Raise ZeroDivisionError st
              else Ok (VInt (Z.abs (a * b) / Z.gcd a b)) st).
    destruct (Z.gcd a b =? 0)%Z; reflexivity.
Qed.

(** * Further properties of the parser *)




Lemma has_type_filtered ty toks :
  ty <> "" -> ty <> "IGNORED" -> ty <> "DOT" ->
  has_type ty (CamlParser._filtered_tokens toks) = has_type ty toks.
Proof.
  intros H1 H2 H3. unfold CamlParser._filtered_tokens, has_type.
  induction toks as [|t toks IH]; [reflexivity|].
  rewrite filter_cons. cbn [existsb].
  destruct (decide _) as [Hk|Hk].
  - cbn [existsb]. now rewrite IH.
  - rewrite IH.
    assert (E : String.eqb (ttype t) ty = false).
    { apply String.eqb_neq. intros <-. apply Hk.
      unfold type_in, CamlParser.IGNORED_TOKEN_TYPES. cbn [existsb].
      apply String.eqb_neq in H1, H2, H3.
      rewrite (String.eqb_sym (ttype t) "IGNORED"), (String.eqb_sym (ttype t) "DOT").
      rewrite (String.eqb_sym "IGNORED"), (String.eqb_sym "DOT") in *.
      rewrite H1, H2, H3. reflexivity. }
    rewrite E. reflexivity.
Qed.

(** X23: a line that holds a [DISPLAY] token anywhere is a [Display]
    statement, whatever else it holds, in both parsers: the display test is
    the first that [parse_statement] makes.  The statement is bold exactly
    when the line holds a [PLUS_BOLD] token. *)
Theorem display_is_tested_first :
  forall p tokens,
    has_type "DISPLAY" tokens = true ->
    exists e,
      classify_of p tokens
      = Leaf (Some (DisplayNode e (has_type "PLUS_BOLD" tokens))).
Proof.
  intros [] tokens H; cbn [classify_of].
  - destruct tokens as [|t0 rest]; [discriminate|].
    unfold PyParser.classify. rewrite H. unfold PyParser.parse_display. eauto.
  - unfold CamlParser.classify.
    assert (HF : has_type "DISPLAY" (CamlParser._filtered_tokens tokens) = true)
      by (rewrite has_type_filtered by discriminate; exact H).
    assert (HB : has_type "PLUS_BOLD" (CamlParser._filtered_tokens tokens)
                 = has_type "PLUS_BOLD" tokens)
      by (apply has_type_filtered; discriminate).
    destruct (CamlParser._filtered_tokens tokens) as [|t0 rest] eqn:E; [discriminate|].
    unfold CamlParser.dispatch_tokens. rewrite HF. unfold CamlParser.parse_display.
    rewrite HB.
    destruct (has_type "CALL_FUNCTION" (t0 :: rest) || has_type "(" (t0 :: rest)).
    + destruct (CamlParser._build_function_call_from_tokens (t0 :: rest)). eauto.
    + eauto.
Qed.

Lemma display_is_tested_first_witness :
  exists e,
    classify_of python_code
      [ tok "ASSIGN" (VStr "assign"); tok "DISPLAY" (VStr "display");
        tok "TO" (VStr "to"); tok "IDENTIFIER" (VStr "x") ]
    = Leaf (Some (DisplayNode e
                    (has_type "PLUS_BOLD"
                       [ tok "ASSIGN" (VStr "assign"); tok "DISPLAY" (VStr "display");
                         tok "TO" (VStr "to"); tok "IDENTIFIER" (VStr "x") ]))).
Proof. apply display_is_tested_first. reflexivity. Defined.

Lemma py_header_classify toks :
  py_function_header toks = true ->
  PyParser.classify toks = PyParser.parse_function_def toks.
Proof.
  unfold py_function_header. intros H.
  repeat (apply andb_prop in H as [H ?]).
  repeat match goal with
         | H : negb _ = true |- _ => apply negb_true_iff in H
         end.
  destruct toks as [|t0 rest]; [discriminate|].
  unfold PyParser.classify.
  repeat match goal with
         | H : has_type _ _ = _ |- _ => rewrite H; clear H
         | H : has_any_type _ _ = _ |- _ => rewrite H; clear H
         end.
  reflexivity.
Qed.

(** X24: the python_code parser turns every function header into a
    function with no parameter and no body, and moves the cursor past the
    header only, whatever the header lists between its parentheses and
    however the lines after it are indented; those lines are then parsed as
    statements of the block the header stands in. *)
Theorem py_function_header_takes_no_body :
  forall L fuel pos ind toks,
    L !! pos = Some (ind, toks) ->
    py_function_header toks = true ->
    parse_statement python_code L (S fuel) pos
    = Some (Some (FunctionDefNode
                    (as_name (first_value ["STRING"; "IDENTIFIER"] toks)) [] []),
            S pos).
Proof.
  intros L fuel pos ind toks HL HH.
  apply (py_function_def_has_no_body L fuel pos ind toks HL).
  apply py_header_classify, HH.
Qed.

Lemma py_function_header_takes_no_body_witness :
  parse_statement python_code plus_lines 3 0
  = Some (Some (FunctionDefNode
                  (as_name (first_value ["STRING"; "IDENTIFIER"] plus_header)) [] []),
          1).
Proof.
  apply (py_function_header_takes_no_body plus_lines 2 0 0 plus_header); reflexivity.
Defined.

(** * Further properties of the lexer *)

(** ** Keywords hold no double quote *)

Lemma keyword_without c table cand :
  forallb (fun kv => negb (contains_char c (fst kv))) table = true ->
  contains_char c cand = true ->
  keyword table cand = None.
Proof.
  intros Ht Hc. unfold keyword.
  induction table as [|kv table IH]; [reflexivity|].
  cbn [forallb] in Ht. apply andb_prop in Ht as [Hkv Ht].
  cbn [find]. destruct (String.eqb_spec (fst kv) cand) as [E|_].
  - rewrite E, Hc in Hkv. discriminate.
  - apply IH, Ht.
Qed.

Lemma lstrip_keeps p c s :
  p c = false -> contains_char c s = true -> contains_char c (lstrip_p p s) = true.
Proof.
  intros Hp. unfold contains_char. induction s as [|x s IH]; [discriminate|].
  intros H. cbn [lstrip_p]. destruct (p x) eqn:Hx; [|exact H].
  cbn [any_char] in H. apply orb_prop in H as [H|H]; [|apply IH, H].
  apply Ascii.eqb_eq in H. congruence.
Qed.

Lemma rstrip_keeps p c s :
  p c = false -> contains_char c s = true -> contains_char c (rstrip_p p s) = true.
Proof.
  intros Hp. unfold contains_char. induction s as [|x s IH]; [discriminate|].
  intros H. cbn [rstrip_p]. cbn [any_char] in H.
  destruct (rstrip_p p s) as [|k kept] eqn:E.
  - destruct (any_char (Ascii.eqb c) s) eqn:Hs; [specialize (IH eq_refl); discriminate|].
    rewrite orb_false_r in H. apply Ascii.eqb_eq in H. subst x. rewrite Hp.
    cbn. now rewrite Ascii.eqb_refl.
  - apply orb_prop in H as [H|H].
    + cbn [any_char]. now rewrite H.
    + specialize (IH H). cbn [any_char] in IH |- *. rewrite IH. apply orb_true_r.
Qed.

Lemma lower_keeps_quote s :
  contains_char quote s = true -> contains_char quote (lower s) = true.
Proof.
  unfold contains_char, lower. induction s as [|x s IH]; [discriminate|].
  cbn [any_char str_map]. intros H. apply orb_prop in H as [H|H].
  - apply Ascii.eqb_eq in H. subst x. reflexivity.
  - rewrite (IH H). apply orb_true_r.
Qed.

Lemma candidate_with_quote table s :
  forallb (fun kv => negb (contains_char quote (fst kv))) table = true ->
  contains_char quote s = true ->
  keyword table (lower (strip_p phrase_trim s)) = None.
Proof.
  intros Ht Hs. apply (keyword_without quote); [exact Ht|].
  apply lower_keeps_quote. unfold strip_p.
  apply rstrip_keeps; [reflexivity|]. apply lstrip_keeps; [reflexivity | exact Hs].
Qed.

(** ** The words of a line that displays a literal *)

Lemma split_ws_aux_head s cur :
  cur <> "" -> exists r more, split_ws_aux s cur = (cur +:+ r) :: more.
Proof.
  revert cur. induction s as [|c s IH]; intros cur Hcur.
  - exists "", []. cbn [split_ws_aux].
    destruct (String.eqb_spec cur ""); [contradiction|]. now rewrite append_empty_r.
  - cbn [split_ws_aux]. destruct (isspace c).
    + destruct (String.eqb_spec cur ""); [contradiction|].
      exists "", (split_ws_aux s ""). now rewrite append_empty_r.
    + destruct (IH (cur +:+ String c "")) as (r & more & E).
      { destruct cur; discriminate. }
      exists (String c r), more. rewrite E, append_assoc. reflexivity.
Qed.

Lemma join_quote_head r l :
  contains_char quote (join " " (String quote r :: l)) = true.
Proof. destruct l; reflexivity. Qed.

Lemma join_two a b l : join " " (a :: b :: l) = a +:+ " " +:+ join " " (b :: l).
Proof. reflexivity. Qed.

(** With the first word a keyword of one word and the second word led by a
    double quote, the longest phrase at the start of the line is the first
    word. *)
Lemma longest_phrase_first_word table a r more ty :
  forallb (fun kv => negb (contains_char quote (fst kv))) table = true ->
  keyword table (lower (strip_p phrase_trim a)) = Some ty ->
  forall lengths,
    Forall (fun n => 2 <= n) lengths ->
    longest_phrase table (a :: String quote r :: more) (lengths ++ [1])
    = Some (lower (strip_p phrase_trim a), 1).
Proof.
  intros Ht Ha. induction lengths as [|n lengths IH]; intros Hl.
  - cbn [app longest_phrase length Nat.leb take join]. now rewrite Ha.
  - apply Forall_cons in Hl as [Hn Hl].
    cbn [app longest_phrase].
    destruct (Nat.leb n (length (a :: String quote r :: more))); [|apply IH, Hl].
    destruct n as [|[|n]]; [lia | lia |].
    cbn [take]. rewrite join_two.
    rewrite candidate_with_quote; [apply IH, Hl | exact Ht |].
    rewrite !contains_char_app, join_quote_head, !orb_true_r. reflexivity.
Qed.

Lemma py_keywords_no_quote :
  forallb (fun kv => negb (contains_char quote (fst kv))) py_keywords = true.
Proof. vm_compute. reflexivity. Qed.

Lemma caml_keywords_no_quote :
  forallb (fun kv => negb (contains_char quote (fst kv))) caml_keywords = true.
Proof. vm_compute. reflexivity. Qed.

Lemma split_ws_display y :
  exists r more,
    split_ws ("Display " +:+ String quote y) = "Display" :: String quote r :: more.
Proof.
  destruct (split_ws_aux_head y (String quote "")) as (r & more & E); [discriminate|].
  exists r, more. unfold split_ws.
  change (split_ws_aux ("Display " +:+ String quote y) "")
    with ("Display" :: split_ws_aux y (String quote "")).
  now rewrite E.
Qed.

Lemma split_ws_display_lower y :
  exists r more,
    split_ws (lower ("Display " +:+ String quote y))
    = "display" :: String quote r :: more.
Proof.
  destruct (split_ws_aux_head (lower y) (String quote "")) as (r & more & E);
    [discriminate|].
  exists r, more. unfold split_ws.
  change (split_ws_aux (lower ("Display " +:+ String quote y)) "")
    with ("display" :: split_ws_aux (lower y) (String quote "")).
  now rewrite E.
Qed.

Lemma rstrip_display y :
  rstrip_p isspace ("Display " +:+ String quote y)
  = "Display " +:+ String quote (rstrip_p isspace y).
Proof.
  change ("Display " +:+ String quote y)
    with (String "D" (String "i" (String "s" (String "p" (String "l" (String "a"
           (String "y" (String " " (String quote y))))))))).
  cbn [rstrip_p]. destruct (rstrip_p isspace y); reflexivity.
Qed.

Lemma strip_display y :
  strip ("Display " +:+ String quote y)
  = "Display " +:+ String quote (rstrip_p isspace y).
Proof. unfold strip, strip_p. exact (rstrip_display y). Qed.

Lemma rstrip_snoc p s c : p c = false -> rstrip_p p (s +:+ String c "") = s +:+ String c "".
Proof.
  intros Hc. induction s as [|x s IH].
  - rewrite append_empty_l. cbn [rstrip_p]. now rewrite Hc.
  - rewrite append_cons. cbn [rstrip_p]. rewrite IH.
    destruct s; reflexivity.
Qed.

Lemma all_chars_rstrip p q s : all_chars p s = true -> all_chars p (rstrip_p q s) = true.
Proof.
  induction s as [|x s IH]; [reflexivity|].
  cbn [all_chars]. intros H. apply andb_prop in H as [Hx Hs].
  cbn [rstrip_p]. specialize (IH Hs).
  destruct (rstrip_p q s) as [|k kept].
  - destruct (q x); cbn; [reflexivity | now rewrite Hx].
  - cbn [all_chars] in IH |- *. now rewrite Hx, IH.
Qed.

Lemma all_chars_before p c s : all_chars p s = true -> all_chars p (before_char c s) = true.
Proof.
  induction s as [|x s IH]; [reflexivity|].
  cbn [all_chars before_char]. intros H. apply andb_prop in H as [Hx Hs].
  destruct (Ascii.eqb x c); [reflexivity|]. cbn [all_chars]. now rewrite Hx, IH.
Qed.

(** ** The word branch on a line that displays a literal *)

Lemma py_scan_word_display y :
  py_scan_word ("Display " +:+ String quote y)
  = Some (tok "DISPLAY" (VStr "display"), 7).
Proof.
  destruct (split_ws_display_lower y) as (r & more & E).
  unfold py_scan_word.
  change (span_chars (word_char python_code) ("Display " +:+ String quote y))
    with "Display".
  cbv zeta. rewrite E.
  change [3; 2; 1] with ([3; 2] ++ [1]).
  rewrite (longest_phrase_first_word py_keywords "display" r more "DISPLAY"
             py_keywords_no_quote eq_refl)
    by (repeat constructor; lia).
  reflexivity.
Qed.

Lemma caml_scan_word_display y :
  caml_scan_word ("Display " +:+ String quote y)
  = Some (tok "DISPLAY" (VStr "display"), 7).
Proof.
  destruct (split_ws_display (rstrip_p isspace y)) as (r & more & E).
  unfold caml_scan_word.
  change (span_chars (word_char caml_code) ("Display " +:+ String quote y))
    with "Display".
  cbv zeta. rewrite strip_display, E.
  change [4; 3; 2; 1] with ([4; 3; 2] ++ [1]).
  rewrite (longest_phrase_first_word caml_keywords "Display" r more "DISPLAY"
             caml_keywords_no_quote eq_refl)
    by (repeat constructor; lia).
  reflexivity.
Qed.

(** ** The literal after the opening quote *)

Lemma py_string_end_plain body rest prev acc :
  all_chars plain_char body = true ->
  Ascii.eqb prev backslash = false ->
  py_string_end (body +:+ String quote rest) prev acc = Some (acc +:+ body, rest).
Proof.
  revert prev acc. induction body as [|c body IH]; intros prev acc H Hp.
  - rewrite append_empty_l, append_empty_r. cbn [py_string_end].
    now rewrite Ascii.eqb_refl, Hp.
  - cbn [all_chars] in H. apply andb_prop in H as [Hc Hs].
    destruct (plain_char_spec _ Hc) as (Hq & Hb & _ & _).
    rewrite append_cons. cbn [py_string_end]. rewrite Hq. cbn [andb].
    rewrite (IH c _ Hs Hb), append_assoc. reflexivity.
Qed.

Lemma caml_string_end_plain body rest acc :
  all_chars plain_char body = true ->
  caml_string_end (body +:+ String quote rest) false acc = Some (acc +:+ body, rest).
Proof.
  revert acc. induction body as [|c body IH]; intros acc H.
  - rewrite append_empty_l, append_empty_r. cbn [caml_string_end].
    now rewrite Ascii.eqb_refl.
  - cbn [all_chars] in H. apply andb_prop in H as [Hc Hs].
    destruct (plain_char_spec _ Hc) as (Hq & Hb & _ & _).
    rewrite append_cons. cbn [caml_string_end]. rewrite Hq, Hb. cbn [andb].
    rewrite (IH _ Hs), append_assoc. reflexivity.
Qed.

Lemma py_string_end_open s prev acc :
  all_chars plain_char s = true -> py_string_end s prev acc = None.
Proof.
  revert prev acc. induction s as [|c s IH]; intros prev acc H; [reflexivity|].
  cbn [all_chars] in H. apply andb_prop in H as [Hc Hs].
  destruct (plain_char_spec _ Hc) as (Hq & _).
  cbn [py_string_end]. rewrite Hq. cbn [andb]. apply IH, Hs.
Qed.

Lemma string_literal_closed d body :
  all_chars plain_char body = true ->
  string_literal d (body +:+ String quote "") = (body, "").
Proof.
  intros H. unfold string_literal. destruct d.
  - rewrite (py_string_end_plain body "" quote "" H eq_refl). reflexivity.
  - rewrite (caml_string_end_plain body "" "" H). reflexivity.
Qed.

Lemma string_literal_open s :
  all_chars plain_char s = true -> string_literal python_code s = (s, "").
Proof. intros H. unfold string_literal. now rewrite py_string_end_open. Qed.

(** ** The scan of the line *)

Lemma py_scan_empty fuel : py_scan fuel "" = [].
Proof. destruct fuel; reflexivity. Qed.

Lemma caml_scan_empty fuel : caml_scan fuel "" = [].
Proof. destruct fuel; reflexivity. Qed.

Lemma py_scan_display fuel y content :
  string_literal python_code y = (content, "") ->
  py_scan (S (S (S fuel))) ("Display " +:+ String quote y)
  = [tok "DISPLAY" (VStr "display"); tok "STRING" (VStr content)].
Proof.
  intros Hy.
  assert (W : py_scan (S (S (S fuel))) ("Display " +:+ String quote y)
              = match py_scan_word ("Display " +:+ String quote y) with
                | Some (t, consumed) =>
                    t :: py_scan (S (S fuel))
                           (lstrip_p is_space_char
                              (drop_str consumed ("Display " +:+ String quote y)))
                | None => py_scan (S (S fuel)) ("isplay " +:+ String quote y)
                end) by reflexivity.
  rewrite W, py_scan_word_display.
  change (lstrip_p is_space_char (drop_str 7 ("Display " +:+ String quote y)))
    with (String quote y).
  assert (Q : py_scan (S (S fuel)) (String quote y)
              = let '(s, after) := string_literal python_code y in
                tok "STRING" (VStr s) :: py_scan (S fuel) (lstrip_p is_space_char after))
    by reflexivity.
  rewrite Q, Hy. reflexivity.
Qed.

Lemma caml_scan_display fuel y content :
  string_literal caml_code y = (content, "") ->
  caml_scan (S (S (S fuel))) ("Display " +:+ String quote y)
  = [tok "DISPLAY" (VStr "display"); tok "STRING" (VStr content)].
Proof.
  intros Hy.
  assert (W : caml_scan (S (S (S fuel))) ("Display " +:+ String quote y)
              = match caml_scan_word ("Display " +:+ String quote y) with
                | Some (t, consumed) =>
                    t :: caml_scan (S (S fuel))
                           (lstrip_p isspace
                              (drop_str consumed ("Display " +:+ String quote y)))
                | None => caml_scan (S (S fuel)) ("isplay " +:+ String quote y)
                end) by reflexivity.
  rewrite W, caml_scan_word_display.
  change (lstrip_p isspace (drop_str 7 ("Display " +:+ String quote y)))
    with (String quote y).
  assert (Q : caml_scan (S (S fuel)) (String quote y)
              = let '(s, after) := string_literal caml_code y in
                tok "STRING" (VStr s) :: caml_scan (S fuel) (lstrip_p isspace after))
    by reflexivity.
  rewrite Q, Hy. reflexivity.
Qed.

Lemma scan_line_display d y content :
  string_literal d y = (content, "") ->
  scan_line d ("Display " +:+ String quote y)
  = [tok "DISPLAY" (VStr "display"); tok "STRING" (VStr content)].
Proof.
  intros Hy. unfold scan_line. rewrite length_append.
  change (String.length "Display " + String.length (String quote y))
    with (S (S (S (5 + String.length (String quote y))))).
  destruct d; [now apply py_scan_display | now apply caml_scan_display].
Qed.

Lemma tokenize_lines_display d x content :
  string_literal d (rstrip_p isspace x) = (content, "") ->
  tokenize_lines d ["Display " +:+ String quote x]
  = [(0, [tok "DISPLAY" (VStr "display"); tok "STRING" (VStr content)])].
Proof.
  intros Hx. cbn [tokenize_lines]. rewrite strip_display.
  change (String.eqb ("Display " +:+ String quote (rstrip_p isspace x)) "") with false.
  cbv iota.
  change (leading_spaces ("Display " +:+ String quote x)) with 0.
  now rewrite (scan_line_display d _ content Hx).
Qed.

(** The tokens of a line that displays a literal the lexer does not cut. *)
Lemma tokenize_display_whole d body :
  all_chars plain_char body = true ->
  _preprocess d ("Display " +:+ quoted body) = Some ["Display " +:+ quoted body] ->
  tokenize d ("Display " +:+ quoted body)
  = Some [(0, [tok "DISPLAY" (VStr "display"); tok "STRING" (VStr body)])].
Proof.
  intros H Hp. unfold tokenize. rewrite Hp. cbn [option_map]. f_equal.
  unfold quoted. rewrite append_cons.
  apply tokenize_lines_display.
  rewrite rstrip_snoc by reflexivity. apply string_literal_closed, H.
Qed.

(** The tokens of a line that displays a literal with a comment marker, in
    python_code. *)
Lemma tokenize_display_cut body :
  all_chars plain_char body = true ->
  contains_char dollar body = true ->
  tokenize python_code ("Display " +:+ quoted body)
  = Some [(0, [tok "DISPLAY" (VStr "display");
               tok "STRING" (VStr (rstrip_p isspace (before_char dollar body)))])].
Proof.
  intros H Hd. unfold tokenize.
  rewrite (py_preprocess_literal_with_dollar body H Hd). cbn [option_map]. f_equal.
  apply tokenize_lines_display, string_literal_open.
  apply all_chars_rstrip, all_chars_before, H.
Qed.

(** X25: the tokens of a line that displays a literal, for every literal
    body without a quote, a backslash or a line break.  caml-code yields the
    [DISPLAY] token and a [STRING] token with the whole body; python_code
    yields the same when the body holds no [$], and otherwise a [STRING]
    token with only the text before the first [$], stripped of the white
    space at its end. *)
Theorem display_literal_tokens :
  forall body,
    all_chars plain_char body = true ->
    tokenize caml_code ("Display " +:+ quoted body)
    = Some [(0, [tok "DISPLAY" (VStr "display"); tok "STRING" (VStr body)])]
    /\ tokenize python_code ("Display " +:+ quoted body)
       = Some [(0, [tok "DISPLAY" (VStr "display");
                    tok "STRING" (VStr (py_literal_read body))])].
Proof.
  intros body H. split.
  - apply tokenize_display_whole; [exact H|].
    apply caml_preprocess_keeps_literal, H.
  - unfold py_literal_read. destruct (contains_char dollar body) eqn:Hd.
    + apply tokenize_display_cut; assumption.
    + apply tokenize_display_whole; [exact H|].
      apply py_preprocess_literal_without_dollar; assumption.
Qed.

Lemma display_literal_tokens_witness :
  tokenize caml_code ("Display " +:+ quoted "tax: 5 $ due")
  = Some [(0, [tok "DISPLAY" (VStr "display"); tok "STRING" (VStr "tax: 5 $ due")])]
  /\ tokenize python_code ("Display " +:+ quoted "tax: 5 $ due")
     = Some [(0, [tok "DISPLAY" (VStr "display"); tok "STRING" (VStr "tax: 5")])].
Proof. exact (display_literal_tokens "tax: 5 $ due" eq_refl). Defined.

(** X26: a program of the one line [Display "<body>"] prints the body and
    ends without an error, in both copies, for every body without a quote, a
    backslash, a line break or a [$]: the literal passes the lexer whole, the
    parser stores it in a [DisplayNode], and the interpreter, finding no
    variable, list or dictionary of that name, prints it as it is. *)
Theorem display_literal_runs :
  forall d fuel body,
    all_chars plain_char body = true ->
    contains_char dollar body = false ->
    run d (S (S fuel)) ("Display " +:+ quoted body) []
    = Ran [DisplayNode (Lit (VStr body)) false]
        (Ok tt (set_stdout (fun _ => [Printed (VStr body)]) (initial_state []))).
Proof.
  intros d fuel body H Hd. unfold run.
  rewrite (tokenize_display_whole d body H).
  - destruct d; reflexivity.
  - destruct d.
    + apply py_preprocess_literal_without_dollar; assumption.
    + apply caml_preprocess_keeps_literal, H.
Qed.

Lemma display_literal_runs_witness :
  run python_code 2 ("Display " +:+ quoted "the end. a cat") []
  = Ran [DisplayNode (Lit (VStr "the end. a cat")) false]
      (Ok tt (set_stdout (fun _ => [Printed (VStr "the end. a cat")])
                (initial_state []))).
Proof. exact (display_literal_runs python_code 0 "the end. a cat" eq_refl eq_refl). Defined.

(** ** Comments *)

Lemma before_char_has_no c s : contains_char c (before_char c s) = false.
Proof.
  unfold contains_char. induction s as [|x s IH]; [reflexivity|].
  cbn [before_char]. destruct (Ascii.eqb x c) eqn:E; [reflexivity|].
  cbn [any_char]. now rewrite Ascii.eqb_sym, E, IH.
Qed.

Lemma cut_comment_has_no_dollar ln : contains_char dollar (cut_comment ln) = false.
Proof.
  unfold cut_comment. destruct (contains_char dollar ln) eqn:E;
    [apply before_char_has_no | exact E].
Qed.

Lemma strip_comments_no_dollar lines in_block :
  Forall (fun ln => contains_char dollar ln = false) (strip_comments lines in_block).
Proof.
  revert in_block. induction lines as [|ln lines IH]; intros in_block; [constructor|].
  cbn [strip_comments]. destruct (String.prefix "$$$" (strip ln)); [apply IH|].
  destruct in_block; [apply IH|].
  constructor; [apply (cut_comment_has_no_dollar ln) | apply IH].
Qed.

Lemma strip_comments_in_block lines :
  Forall (fun ln => block_marker ln = false) lines ->
  strip_comments lines true = [].
Proof.
  induction 1 as [|ln lines Hln _ IH]; [reflexivity|].
  cbn [strip_comments]. unfold block_marker in Hln. now rewrite Hln.
Qed.

Lemma strip_comments_outside lines rest :
  Forall (fun ln => block_marker ln = false) lines ->
  strip_comments (lines ++ rest) false
  = map cut_comment lines ++ strip_comments rest false.
Proof.
  induction 1 as [|ln lines Hln _ IH]; [reflexivity|].
  cbn [app strip_comments map]. unfold block_marker in Hln. rewrite Hln, IH.
  reflexivity.
Qed.

Lemma strip_comments_marker ln rest in_block :
  block_marker ln = true ->
  strip_comments (ln :: rest) in_block = strip_comments rest (negb in_block).
Proof. intros H. cbn [strip_comments]. unfold block_marker in H. now rewrite H. Qed.

(** X27: in python_code no [$] reaches the tokenizer: whatever the program
    text, no line that [_preprocess] returns holds a [$], inside a literal
    or outside. *)
Theorem py_lines_hold_no_dollar :
  forall raw lines,
    _preprocess python_code raw = Some lines ->
    Forall (fun ln => contains_char dollar ln = false) lines.
Proof.
  intros raw lines H. cbn [_preprocess] in H. unfold py_preprocess in H.
  destruct (hide (normalize_newlines raw)) as [text_hidden strings].
  destruct (restore strings _) as [text|]; [|discriminate].
  injection H as <-. apply strip_comments_no_dollar.
Qed.

Lemma py_lines_hold_no_dollar_witness :
  Forall (fun ln => contains_char dollar ln = false) ["Display " +:+ String quote "a"].
Proof. exact (py_lines_hold_no_dollar display_dollar _ eq_refl). Defined.

(** X28: block comments.  With [open] and [close] two lines that start with
    [$$$] once stripped, and no such line in [before] and [inside],
    [strip_comments] keeps the lines of [before], each cut at its first [$],
    drops [open], [inside] and [close], and goes on after [close]; when no
    closing line follows, every line after [open] is dropped. *)
Theorem block_comment_is_dropped :
  forall before open inside,
    Forall (fun ln => block_marker ln = false) before ->
    block_marker open = true ->
    Forall (fun ln => block_marker ln = false) inside ->
    strip_comments (before ++ open :: inside) false = map cut_comment before
    /\ forall close after,
         block_marker close = true ->
         strip_comments (before ++ open :: inside ++ close :: after) false
         = map cut_comment before ++ strip_comments after false.
Proof.
  intros before open inside Hb Ho Hi. split.
  - rewrite (strip_comments_outside _ _ Hb), (strip_comments_marker _ _ _ Ho).
    cbn [negb]. rewrite (strip_comments_in_block _ Hi). apply app_nil_r.
  - intros close after Hc.
    rewrite (strip_comments_outside _ _ Hb), (strip_comments_marker _ _ _ Ho).
    cbn [negb]. f_equal.
    induction Hi as [|ln inside Hln _ IH].
    + cbn [app]. now rewrite (strip_comments_marker _ _ _ Hc).
    + cbn [app strip_comments]. unfold block_marker in Hln. now rewrite Hln.
Qed.

Lemma block_comment_is_dropped_witness :
  strip_comments (["Display 1 $ one"] ++ ["  $$$ note"; "Display 2"]) false
  = ["Display 1 "]
  /\ strip_comments
       (["Display 1 $ one"] ++ "  $$$ note" :: ["Display 2"] ++ "$$$" :: ["Display 3"])
       false
     = ["Display 1 "; "Display 3"].
Proof.
  destruct (block_comment_is_dropped ["Display 1 $ one"] "  $$$ note" ["Display 2"])
    as [H1 H2].
  - repeat constructor.
  - reflexivity.
  - repeat constructor.
  - split; [exact H1 | exact (H2 "$$$" ["Display 3"] eq_refl)].
Defined.

(** ** A placeholder in the program text *)

Lemma free_of_char cs c s :
  In c cs -> free_of cs s = true -> all_chars (fun x => negb (Ascii.eqb x c)) s = true.
Proof.
  intros Hin. unfold free_of. apply all_chars_weaken. intros x Hx.
  apply negb_true_iff in Hx. apply negb_true_iff.
  destruct (Ascii.eqb_spec x c) as [->|]; [|reflexivity].
  rewrite <- Hx. symmetry. apply existsb_exists. exists c.
  split; [exact Hin | apply Ascii.eqb_refl].
Qed.

Lemma all_chars_contains c s :
  all_chars (fun x => negb (Ascii.eqb x c)) s = true -> contains_char c s = false.
Proof.
  unfold contains_char. induction s as [|x s IH]; [reflexivity|].
  cbn [all_chars any_char]. intros H. apply andb_prop in H as [Hx Hs].
  apply negb_true_iff in Hx. now rewrite Ascii.eqb_sym, Hx, IH.
Qed.

Lemma hide_strings_no_quote fuel s strings :
  all_chars (fun x => negb (Ascii.eqb x quote)) s = true ->
  hide_strings fuel s strings = (s, strings).
Proof.
  revert s. induction fuel as [|fuel IH]; intros s H; [reflexivity|].
  destruct s as [|c s]; [reflexivity|].
  cbn [all_chars] in H. apply andb_prop in H as [Hc Hs]. apply negb_true_iff in Hc.
  rewrite (hide_strings_other _ _ _ _ Hc), (IH s Hs). reflexivity.
Qed.

Lemma span_digits_run ds rest :
  all_chars isdigit ds = true ->
  match rest with String c _ => isdigit c = false | EmptyString => True end ->
  span_digits (ds +:+ rest) = (ds, rest).
Proof.
  intros Hd Hr. induction ds as [|c ds IH].
  - rewrite append_empty_l. destruct rest as [|c rest]; [reflexivity|].
    cbn [span_digits]. now rewrite Hr.
  - cbn [all_chars] in Hd. apply andb_prop in Hd as [Hc Hd].
    rewrite append_cons. cbn [span_digits]. now rewrite Hc, (IH Hd).
Qed.

Lemma prefix_empty s : String.prefix "" s = true.
Proof. destruct s; reflexivity. Qed.

Lemma match_placeholder_text ds post :
  all_chars isdigit ds = true -> ds <> "" ->
  match_placeholder ("__STR_" +:+ ds +:+ "__" +:+ post)
  = Some (Z.to_nat (digits_value ds 0), post).
Proof.
  intros Hd Hne. unfold match_placeholder.
  change (String.prefix "__STR_" ("__STR_" +:+ ds +:+ "__" +:+ post))
    with (String.prefix "" (ds +:+ "__" +:+ post)).
  rewrite prefix_empty.
  change (drop_str 6 ("__STR_" +:+ ds +:+ "__" +:+ post)) with (ds +:+ "__" +:+ post).
  rewrite (span_digits_run ds ("__" +:+ post) Hd) by reflexivity.
  destruct (String.eqb_spec ds ""); [contradiction|].
  change (String.prefix "__" ("__" +:+ post)) with (String.prefix "" post).
  rewrite prefix_empty. reflexivity.
Qed.

(** With no string hidden, the restoring step fails on a text that holds
    a placeholder. *)
Lemma restore_strings_nothing_hidden fuel pre s idx after :
  match_placeholder s = Some (idx, after) ->
  String.length pre < fuel ->
  restore_strings fuel [] (pre +:+ s) = None.
Proof.
  intros Hs. revert fuel. induction pre as [|x pre IH]; intros fuel Hf.
  - rewrite append_empty_l. destruct fuel as [|fuel]; [lia|].
    destruct s as [|c s]; [discriminate|].
    cbn [restore_strings]. rewrite Hs. reflexivity.
  - destruct fuel as [|fuel]; [lia|]. cbn [String.length] in Hf.
    rewrite append_cons. cbn [restore_strings].
    destruct (match_placeholder (String x (pre +:+ s))) as [[idx' after']|].
    + reflexivity.
    + rewrite IH by lia. reflexivity.
Qed.

Lemma restore_placeholder_text pre ds post :
  all_chars isdigit ds = true -> ds <> "" ->
  restore [] (placeholder_text pre ds post) = None.
Proof.
  intros Hd Hne. unfold restore, placeholder_text.
  apply (restore_strings_nothing_hidden _ pre _ _ _ (match_placeholder_text ds post Hd Hne)).
  rewrite length_append. lia.
Qed.

(** *** Articles and periods leave a placeholder as it is *)

Lemma digit_is_word_char c : isdigit c = true -> is_word_char c = true.
Proof. intros H. unfold is_word_char. rewrite H. apply orb_true_iff. left. apply orb_true_r. Qed.

Lemma placeholder_word_chars ds :
  all_chars isdigit ds = true ->
  all_chars is_word_char ("_STR_" +:+ ds +:+ "__") = true.
Proof.
  intros Hd. rewrite !all_chars_app.
  rewrite (all_chars_weaken isdigit is_word_char ds digit_is_word_char Hd).
  reflexivity.
Qed.

Lemma remove_periods_app a b :
  remove_periods (a +:+ b) = remove_periods a +:+ remove_periods b.
Proof.
  induction a as [|c a IH]; [reflexivity|].
  rewrite append_cons. cbn [remove_periods]. rewrite IH.
  destruct (Ascii.eqb c "."); reflexivity.
Qed.

Lemma remove_periods_word w :
  all_chars is_word_char w = true -> remove_periods w = w.
Proof.
  induction w as [|c w IH]; [reflexivity|].
  cbn [all_chars]. intros H. apply andb_prop in H as [Hc Hw].
  cbn [remove_periods]. rewrite (IH Hw).
  destruct (Ascii.eqb_spec c "."%char) as [->|]; [discriminate | reflexivity].
Qed.

Lemma remove_articles_word_run w :
  forall fuel prev rest,
    all_chars is_word_char w = true ->
    is_word_char prev = true ->
    String.length w <= fuel ->
    exists prev',
      remove_articles fuel (Some prev) (w +:+ rest)
      = w +:+ remove_articles (fuel - String.length w) (Some prev') rest.
Proof.
  induction w as [|c w IH]; intros fuel prev rest Hw Hp Hf.
  - exists prev. rewrite !append_empty_l. cbn [String.length]. now rewrite Nat.sub_0_r.
  - cbn [all_chars] in Hw. apply andb_prop in Hw as [Hc Hw].
    cbn [String.length] in Hf. destruct fuel as [|fuel]; [lia|].
    rewrite !append_cons. cbn [remove_articles]. rewrite Hp. cbn [negb].
    destruct (IH fuel c rest Hw Hc ltac:(lia)) as [prev' E].
    exists prev'. rewrite E. reflexivity.
Qed.

Lemma match_article_inv s after lc :
  match_article s = Some (after, lc) ->
  (after = drop_str 3 s /\ lower (take_str 3 s) = "the")
  \/ (after = drop_str 1 s /\ lower (take_str 1 s) = "a")
  \/ (after = drop_str 2 s /\ lower (take_str 2 s) = "an").
Proof.
  unfold match_article. cbv beta zeta. cbn [String.length Nat.sub].
  repeat match goal with
         | |- context [String.eqb ?a ?b && ?c] =>
             destruct (String.eqb_spec a b); [destruct c|]; cbn [andb]; cbv iota
         | |- context [String.get ?n ?t] => destruct (String.get n t)
         end;
    intros H; try discriminate; injection H as <- _; auto.
Qed.

(** An article matched before an underscore lies before it. *)
Lemma article_before_underscore c pre q after lc :
  match_article (String c (pre +:+ String "_" q)) = Some (after, lc) ->
  exists pre', after = pre' +:+ String "_" q /\ String.length pre' <= String.length pre.
Proof.
  intros H. apply match_article_inv in H as [[-> E]|[[-> E]|[-> E]]].
  - destruct pre as [|c2 [|c3 pre]]; [discriminate E | discriminate E |].
    exists pre. split; [reflexivity | cbn [String.length]; lia].
  - exists pre. split; [reflexivity | lia].
  - destruct pre as [|c2 pre]; [discriminate E|].
    exists pre. split; [reflexivity | cbn [String.length]; lia].
Qed.

Lemma match_article_underscore s : match_article (String "_" s) = None.
Proof. reflexivity. Qed.

Lemma remove_articles_keeps_placeholder w post :
  all_chars is_word_char w = true ->
  forall fuel prev pre,
    String.length pre + S (String.length w) <= fuel ->
    exists x y,
      remove_articles fuel prev (pre +:+ String "_" w +:+ post)
      = x +:+ String "_" w +:+ y.
Proof.
  intros Hw. induction fuel as [|fuel IH]; intros prev pre Hf; [lia|].
  destruct pre as [|c pre].
  - rewrite append_empty_l, append_cons. cbn [remove_articles].
    rewrite match_article_underscore.
    replace (if match prev with Some q => negb (is_word_char q) | None => true end
             then @None (string * ascii) else None) with (@None (string * ascii))
      by (destruct prev as [q|]; [destruct (negb (is_word_char q))|]; reflexivity).
    cbn [String.length] in Hf.
    destruct (remove_articles_word_run w fuel "_" post Hw eq_refl ltac:(lia))
      as [prev' E].
    rewrite E. exists "", (remove_articles (fuel - String.length w) (Some prev') post).
    reflexivity.
  - cbn [String.length] in Hf. rewrite append_cons. cbn [remove_articles].
    destruct (if match prev with Some q => negb (is_word_char q) | None => true end
              then match_article (String c (pre +:+ String "_" w +:+ post))
              else None) as [[after lc]|] eqn:E.
    + assert (HM : match_article (String c (pre +:+ String "_" (w +:+ post)))
                   = Some (after, lc)).
      { rewrite <- append_cons.
        destruct (match prev with Some q => negb (is_word_char q) | None => true end);
          [exact E | discriminate E]. }
      apply article_before_underscore in HM as (pre' & -> & Hl).
      rewrite <- append_cons. apply IH. lia.
    + destruct (IH (Some c) pre ltac:(lia)) as (x & y & Exy).
      rewrite Exy. exists (String c x), y. reflexivity.
Qed.

Lemma placeholder_text_shape pre ds post :
  placeholder_text pre ds post
  = pre +:+ String "_" ("_STR_" +:+ ds +:+ "__") +:+ post.
Proof.
  unfold placeholder_text. f_equal.
  change (String "_" ("_STR_" +:+ ds +:+ "__") +:+ post)
    with ("__STR_" +:+ ((ds +:+ "__") +:+ post)).
  now rewrite append_assoc.
Qed.

Lemma digits_free cs ds :
  forallb (fun c => negb (isdigit c)) cs = true ->
  all_chars isdigit ds = true -> free_of cs ds = true.
Proof.
  intros Hcs. unfold free_of. apply all_chars_weaken. intros c Hc.
  apply negb_true_iff. destruct (existsb (Ascii.eqb c) cs) eqn:E; [|reflexivity].
  apply existsb_exists in E as (x & Hin & Hx). apply Ascii.eqb_eq in Hx. subst x.
  rewrite forallb_forall in Hcs. specialize (Hcs c Hin). rewrite Hc in Hcs.
  discriminate.
Qed.

Lemma free_of_placeholder cs pre ds post :
  forallb (fun c => negb (isdigit c)) cs = true ->
  free_of cs "__STR_" = true ->
  all_chars isdigit ds = true ->
  free_of cs pre = true -> free_of cs post = true ->
  free_of cs (placeholder_text pre ds post) = true.
Proof.
  intros Hcs Hu Hd Hpre Hpost. pose proof (digits_free cs ds Hcs Hd) as Hds.
  unfold free_of, placeholder_text in *.
  rewrite !all_chars_app, Hpre, Hu, Hds, Hpost.
  cbn [andb]. rewrite andb_true_r.
  cbn [all_chars] in Hu |- *. apply andb_prop in Hu as [Hu _]. now rewrite Hu.
Qed.

Lemma hide_no_quote text :
  all_chars (fun x => negb (Ascii.eqb x quote)) text = true -> hide text = (text, []).
Proof. apply hide_strings_no_quote. Qed.

(** *** python_code *)

Lemma py_preprocess_placeholder pre ds post :
  all_chars isdigit ds = true -> ds <> "" ->
  free_of [quote; CR] pre = true -> free_of [quote; CR] post = true ->
  py_preprocess (placeholder_text pre ds post) = None.
Proof.
  intros Hd Hne Hpre Hpost.
  assert (HF : free_of [quote; CR] (placeholder_text pre ds post) = true)
    by (apply free_of_placeholder; auto).
  assert (HCR : all_chars (fun x => negb (Ascii.eqb x CR))
                  (placeholder_text pre ds post) = true)
    by (apply (free_of_char [quote; CR]); [right; left; reflexivity | exact HF]).
  assert (HQ : all_chars (fun x => negb (Ascii.eqb x quote))
                 (placeholder_text pre ds post) = true)
    by (apply (free_of_char [quote; CR]); [left; reflexivity | exact HF]).
  unfold py_preprocess.
  rewrite (normalize_newlines_plain _ HCR), (hide_no_quote _ HQ).
  pose proof (placeholder_word_chars ds Hd) as Hw.
  destruct (remove_articles_keeps_placeholder ("_STR_" +:+ ds +:+ "__") post Hw
              (S (String.length (placeholder_text pre ds post))) None pre)
    as (x & y & E).
  { rewrite placeholder_text_shape. generalize ("_STR_" +:+ ds +:+ "__"). intros w.
    rewrite length_append, append_cons. cbn [String.length].
    rewrite length_append. lia. }
  rewrite <- placeholder_text_shape in E. rewrite E.
  rewrite !remove_periods_app.
  rewrite (remove_periods_word (String "_" ("_STR_" +:+ ds +:+ "__")))
    by (cbn [all_chars]; now rewrite Hw).
  rewrite <- placeholder_text_shape.
  now rewrite restore_placeholder_text.
Qed.

(** *** caml-code *)

Lemma split_char_nonempty sep s cur : split_char sep s cur <> [].
Proof.
  revert cur. induction s as [|c s IH]; intros cur; cbn [split_char]; [discriminate|].
  destruct (Ascii.eqb c sep); [discriminate | apply IH].
Qed.

Lemma join_split_char sep s cur :
  join (String sep "") (split_char sep s cur) = cur +:+ s.
Proof.
  revert cur. induction s as [|c s IH]; intros cur.
  - cbn. now rewrite append_empty_r.
  - cbn [split_char]. destruct (Ascii.eqb_spec c sep) as [->|_].
    + pose proof (split_char_nonempty sep s "") as Hne.
      specialize (IH ""). destruct (split_char sep s "") as [|l ls]; [contradiction|].
      change (join (String sep "") (cur :: l :: ls))
        with (cur +:+ String sep "" +:+ join (String sep "") (l :: ls)).
      rewrite IH. reflexivity.
    + rewrite IH, append_assoc. reflexivity.
Qed.

Lemma split_char_all p sep s cur :
  all_chars p cur = true -> all_chars p s = true ->
  Forall (fun ln => all_chars p ln = true) (split_char sep s cur).
Proof.
  revert cur. induction s as [|c s IH]; intros cur Hcur Hs.
  - repeat constructor. exact Hcur.
  - cbn [all_chars] in Hs. apply andb_prop in Hs as [Hc Hs]. cbn [split_char].
    destruct (Ascii.eqb c sep).
    + constructor; [exact Hcur | now apply IH].
    + apply IH; [|exact Hs]. rewrite all_chars_app, Hcur. cbn. now rewrite Hc.
Qed.

Lemma all_chars_lstrip p q s : all_chars p s = true -> all_chars p (lstrip_p q s) = true.
Proof.
  induction s as [|x s IH]; [reflexivity|]. intros H. cbn [lstrip_p].
  destruct (q x); [|exact H]. cbn [all_chars] in H. apply andb_prop in H as [_ H].
  apply IH, H.
Qed.

Lemma no_dollar_no_marker ln :
  all_chars (fun x => negb (Ascii.eqb x dollar)) ln = true -> block_marker ln = false.
Proof.
  intros H. unfold block_marker, strip, strip_p.
  pose proof (all_chars_rstrip _ isspace _ (all_chars_lstrip _ isspace _ H)) as HS.
  destruct (rstrip_p isspace (lstrip_p isspace ln)) as [|c s]; [reflexivity|].
  cbn [all_chars] in HS. apply andb_prop in HS as [Hc _]. apply negb_true_iff in Hc.
  cbn [String.prefix]. destruct (ascii_dec "$" c) as [<-|_]; [discriminate | reflexivity].
Qed.

Lemma strip_comments_no_comment lines :
  Forall (fun ln => all_chars (fun x => negb (Ascii.eqb x dollar)) ln = true) lines ->
  strip_comments lines false = lines.
Proof.
  induction 1 as [|ln lines Hln _ IH]; [reflexivity|].
  cbn [strip_comments]. pose proof (no_dollar_no_marker ln Hln) as HM.
  unfold block_marker in HM. rewrite HM, (all_chars_contains _ _ Hln), IH. reflexivity.
Qed.

Lemma caml_preprocess_placeholder pre ds post :
  all_chars isdigit ds = true -> ds <> "" ->
  free_of [quote; CR] pre = true -> free_of [quote; CR] post = true ->
  free_of [dollar] pre = true -> free_of [dollar] post = true ->
  caml_preprocess (placeholder_text pre ds post) = None.
Proof.
  intros Hd Hne Hpre Hpost Hpre' Hpost'.
  assert (HF : free_of [quote; CR] (placeholder_text pre ds post) = true)
    by (apply free_of_placeholder; auto).
  assert (HD : free_of [dollar] (placeholder_text pre ds post) = true)
    by (apply free_of_placeholder; auto).
  assert (HCR : all_chars (fun x => negb (Ascii.eqb x CR))
                  (placeholder_text pre ds post) = true)
    by (apply (free_of_char [quote; CR]); [right; left; reflexivity | exact HF]).
  assert (HQ : all_chars (fun x => negb (Ascii.eqb x quote))
                 (placeholder_text pre ds post) = true)
    by (apply (free_of_char [quote; CR]); [left; reflexivity | exact HF]).
  assert (HN : all_chars (fun x => negb (Ascii.eqb x dollar))
                 (placeholder_text pre ds post) = true)
    by (apply (free_of_char [dollar]); [left; reflexivity | exact HD]).
  unfold caml_preprocess.
  rewrite (normalize_newlines_plain _ HCR), (hide_no_quote _ HQ).
  rewrite strip_comments_no_comment by (apply split_char_all; [reflexivity | exact HN]).
  rewrite join_split_char, append_empty_l.
  now rewrite restore_placeholder_text.
Qed.

(** X29: a program text that holds [__STR_<digits>__] and no string literal
    stops the lexer: the restoring step of [_preprocess] looks the digits up
    in the empty list of hidden literals, and [tokenize] ends with that
    [IndexError], so nothing is parsed or run.  The text is [pre], the
    placeholder and [post], without a double quote or a carriage return; the
    digits are few enough for [int] to convert them; for caml-code, which
    drops the comments before it restores, the text holds no [$] either. *)
Theorem placeholder_in_text_stops_the_lexer :
  forall d pre ds post,
    all_chars isdigit ds = true -> ds <> "" -> String.length ds <= 4300 ->
    free_of [quote; CR] pre = true -> free_of [quote; CR] post = true ->
    (d = caml_code -> free_of [dollar] pre = true /\ free_of [dollar] post = true) ->
    tokenize d (placeholder_text pre ds post) = None
    /\ forall fuel input,
         run d fuel (placeholder_text pre ds post) input = LexerIndexError.
Proof.
  intros d pre ds post Hd Hne _ Hpre Hpost Hdollar.
  assert (HP : _preprocess d (placeholder_text pre ds post) = None).
  { destruct d; cbn [_preprocess].
    - now apply py_preprocess_placeholder.
    - destruct (Hdollar eq_refl). now apply caml_preprocess_placeholder. }
  assert (HT : tokenize d (placeholder_text pre ds post) = None)
    by (unfold tokenize; now rewrite HP).
  split; [exact HT|]. intros fuel input. unfold run. now rewrite HT.
Qed.

Lemma placeholder_in_text_stops_the_lexer_witness :
  tokenize caml_code "Display __STR_0__ twice" = None
  /\ forall fuel input, run caml_code fuel "Display __STR_0__ twice" input = LexerIndexError.
Proof.
  apply (placeholder_in_text_stops_the_lexer caml_code "Display " "0" " twice").
  - reflexivity.
  - discriminate.
  - cbn [String.length]. lia.
  - reflexivity.
  - reflexivity.
  - intros _. split; reflexivity.
Defined.

(** ** Function headers in the caml-code parser *)

Lemma existsb_more_params (f : Token -> bool) params :
  f (tok "," (VStr ",")) = false ->
  (forall p, f (tok "IDENTIFIER" (VStr p)) = false) ->
  existsb f (more_params params) = false.
Proof.
  intros Hc Hi. induction params as [|p params IH]; [reflexivity|].
  cbn [more_params existsb]. now rewrite Hc, Hi, IH.
Qed.

Lemma existsb_param_tokens (f : Token -> bool) params :
  f (tok "," (VStr ",")) = false ->
  (forall p, f (tok "IDENTIFIER" (VStr p)) = false) ->
  existsb f (param_tokens params) = false.
Proof.
  intros Hc Hi. destruct params as [|p params]; [reflexivity|].
  cbn [param_tokens existsb]. now rewrite Hi, existsb_more_params.
Qed.

Lemma existsb_function_header (f : Token -> bool) fname params :
  f (tok "," (VStr ",")) = false ->
  (forall p, f (tok "IDENTIFIER" (VStr p)) = false) ->
  existsb f (function_header fname params)
  = existsb f (function_header fname []).
Proof.
  intros Hc Hi. unfold function_header.
  rewrite !existsb_app, (existsb_param_tokens f params Hc Hi). reflexivity.
Qed.

Lemma filtered_more_params params rest :
  CamlParser._filtered_tokens (more_params params ++ rest)
  = more_params params ++ CamlParser._filtered_tokens rest.
Proof.
  induction params as [|p params IH]; [reflexivity|].
  cbn [more_params app]. unfold CamlParser._filtered_tokens in *.
  rewrite !filter_cons, IH. reflexivity.
Qed.

Lemma filtered_function_header fname params :
  CamlParser._filtered_tokens (function_header fname params)
  = function_header fname params.
Proof.
  unfold function_header. destruct params as [|p params].
  - reflexivity.
  - cbn [param_tokens app].
    pose proof (filtered_more_params params
                  [ tok ")" (VStr ")"); tok "AND" (VStr "and");
                    tok "IDENTIFIER" (VStr "does"); tok ":" (VStr ":") ]) as E.
    unfold CamlParser._filtered_tokens in *. rewrite !filter_cons, E. reflexivity.
Qed.

Lemma parenthesized_more_params params rest :
  CamlParser.parenthesized_identifiers true (more_params params ++ rest)
  = map VStr params ++ CamlParser.parenthesized_identifiers true rest.
Proof.
  induction params as [|p params IH]; [reflexivity|].
  cbn [more_params app map]. cbn. now rewrite IH.
Qed.

Lemma parenthesized_function_header fname params :
  CamlParser.parenthesized_identifiers false (function_header fname params)
  = map VStr params.
Proof.
  unfold function_header. destruct params as [|p params]; [reflexivity|].
  cbn [param_tokens app map]. cbn.
  rewrite (parenthesized_more_params params). cbn. now rewrite app_nil_r.
Qed.

Lemma names_of_strings params : names_of (map VStr params) = params.
Proof.
  unfold names_of. induction params as [|p params IH]; [reflexivity|].
  cbn. now rewrite IH.
Qed.

Lemma caml_function_header_classify fname params :
  CamlParser.classify (function_header fname params)
  = Header ParentHeader
      (fun body => Some (FunctionDefNode (Some fname) params body)).
Proof.
  unfold CamlParser.classify. rewrite filtered_function_header.
  assert (HT : forall ty, String.eqb "," ty = false -> String.eqb "IDENTIFIER" ty = false ->
               has_type ty (function_header fname params)
               = has_type ty (function_header fname [])).
  { intros ty H1 H2. unfold has_type. apply existsb_function_header; cbn; auto. }
  assert (HV : has_any_type variable_types (function_header fname params) = false).
  { unfold has_any_type. rewrite existsb_function_header; reflexivity. }
  unfold CamlParser.dispatch_tokens.
  change (function_header fname params)
    with (tok "DEFINE_FUNCTION" (VStr "define function")
          :: (tok "STRING" (VStr fname) :: tok "WHICH_TAKES" (VStr "which takes")
              :: tok "(" (VStr "(") :: param_tokens params
              ++ [ tok ")" (VStr ")"); tok "AND" (VStr "and");
                   tok "IDENTIFIER" (VStr "does"); tok ":" (VStr ":") ])).
  cbv iota.
  change (tok "DEFINE_FUNCTION" (VStr "define function")
          :: (tok "STRING" (VStr fname) :: tok "WHICH_TAKES" (VStr "which takes")
              :: tok "(" (VStr "(") :: param_tokens params
              ++ [ tok ")" (VStr ")"); tok "AND" (VStr "and");
                   tok "IDENTIFIER" (VStr "does"); tok ":" (VStr ":") ]))
    with (function_header fname params).
  rewrite !HT by reflexivity. rewrite HV.
  change (has_type "DISPLAY" (function_header fname [])) with false.
  change (has_type "INTERACT" (function_header fname [])) with false.
  change (has_type "CREATE_WINDOW" (function_header fname [])) with false.
  change (has_type "WINDOW" (function_header fname [])) with false.
  change (has_type "CREATE_BUTTON" (function_header fname [])) with false.
  change (has_type "BUTTON" (function_header fname [])) with false.
  change (has_type "CREATE_LIST" (function_header fname [])) with false.
  change (has_type "ADD" (function_header fname [])) with false.
  change (has_type "DEFINE_FUNCTION" (function_header fname [])) with true.
  cbn [orb andb]. cbv iota.
  unfold CamlParser.parse_function_def.
  rewrite parenthesized_function_header, names_of_strings.
  change (has_type "(" (function_header fname params)) with true.
  reflexivity.
Qed.

(** X30: the caml-code parser reads a function header in full: the name is
    the literal after [Define function], the parameters are the identifiers
    between the parentheses, in their order, and the body is the block that
    [_collect_block] gathers under the header, with the header's own
    indentation as the parent's. *)
Theorem caml_function_header_takes_params_and_body :
  forall L fuel pos ind fname params,
    L !! pos = Some (ind, function_header fname params) ->
    parse_statement caml_code L (S fuel) pos
    = match _collect_block L (parse_statement caml_code L fuel) fuel (Some ind) (S pos) with
      | Some (body, pos') =>
          Some (Some (FunctionDefNode (Some fname) params body), pos')
      | None => None
      end.
Proof.
  intros L fuel pos ind fname params HL.
  cbn [parse_statement]. unfold parse_statement_step. rewrite HL.
  cbn [classify_of]. rewrite caml_function_header_classify. reflexivity.
Qed.

Lemma caml_function_header_takes_params_and_body_witness :
  parse_statement caml_code plus_lines 3 0
  = Some (Some (FunctionDefNode (Some "plus") ["x"; "y"]
                  [DisplayNode (Lit (VStr "x")) false]), 2).
Proof.
  exact (caml_function_header_takes_params_and_body plus_lines 2 0 0 "plus" ["x"; "y"]
           eq_refl).
Defined.
